(** * procesar_datos: cleaning, classification and staleness of judicial processes

    A shallow embedding of [procesar_datos] (app.py) and of the call the
    Streamlit shell makes to it, with the pandas, dateutil and Python
    operations it relies on written out as functions on rows. *)

From Stdlib Require Import ZArith List String Ascii Bool Lia Permutation Sorted.
From Stdlib Require Import DecimalString.
From stdpp Require Import base option list strings gmap sorting.

#[local] Set Warnings "-clear-no-such-hyp".

Local Open Scope string_scope.
Local Open Scope Z_scope.

(** ** Python values and exceptions *)

Module Py.

(** The scalars a cell of the frame can hold: text, an integer number, the
    float NaN pandas uses for a missing value, a [Timestamp] (nanoseconds
    since 1970-01-01, as datetime64[ns] stores it) and [NaT].  Floats with a
    fractional part are not represented. *)
Inductive cell : Type :=
| Str (s : string)
| Num (z : Z)
| NaN
| Time (t : Z)
| NaT.

#[global] Instance cell_eq_dec : EqDecision cell.
Proof. solve_decision. Defined.

(** The exceptions the body of [procesar_datos] can meet.  [KeyError] is the
    one the first handler catches; every other one falls to the second. *)
Inductive exn : Type :=
| KeyError (missing : list string)
| TypeError
| ValueError
| OtherError (what : string).

#[global] Instance exn_eq_dec : EqDecision exn.
Proof. solve_decision. Defined.

#[global] Instance raise_ret : MRet (sum exn) := fun _ x => inr x.
#[global] Instance raise_bind : MBind (sum exn) := fun _ _ f m =>
  match m with inl e => inl e | inr x => f x end.

(** [a < b] on Python objects: code-point order on [str], numeric order on
    numbers, [False] whenever a NaN or NaT takes part, [TypeError] across
    kinds. *)
Definition lt (a b : cell) : exn + bool :=
  match a, b with
  | Str s, Str s' => inr (String.ltb s s')
  | Num x, Num y => inr (Z.ltb x y)
  | Num _, NaN | NaN, Num _ | NaN, NaN => inr false
  | Time x, Time y => inr (Z.ltb x y)
  | Time _, NaT | NaT, Time _ | NaT, NaT => inr false
  | _, _ => inl TypeError
  end.

(** One step of the insertion sort: [x] is compared with the elements of the
    sorted prefix from its right end ([rprefix] is that prefix reversed) and
    settles behind the first one it is not smaller than. *)
Fixpoint insert_from_right (x : cell) (rprefix : list cell) : exn + list cell :=
  match rprefix with
  | [] => inr [x]
  | y :: rest =>
      b ← lt x y;
      if b : bool then r ← insert_from_right x rest; mret (y :: r)
      else mret (x :: y :: rest)
  end.

(** The elements of [l] inserted one after the other into the sorted prefix. *)
Fixpoint sort_onto (rprefix : list cell) (l : list cell) : exn + list cell :=
  match l with
  | [] => inr (reverse rprefix)
  | x :: l' => r ← insert_from_right x rprefix; sort_onto r l'
  end.

(** [list.sort()].  CPython's sort is stable and compares with [<] only; on
    elements that [<] orders totally every such sort returns this list, and
    like this one it raises on the first comparison across kinds and leaves
    alone a list in which no element is [<] its predecessor.  On other lists
    holding NaN the arrangement depends on the merge strategy; nothing below
    relies on it. *)
Definition list_sort (l : list cell) : exn + list cell := sort_onto [] l.

(** [s.replace] of every single quote by nothing *)
Fixpoint remove_quotes (s : string) : string :=
  match s with
  | EmptyString => EmptyString
  | String a s' =>
      if Ascii.eqb a "'"%char then remove_quotes s' else String a (remove_quotes s')
  end.

Fixpoint has_quote (s : string) : bool :=
  match s with
  | EmptyString => false
  | String a s' => Ascii.eqb a "'"%char || has_quote s'
  end.

End Py.

(** ** datetime, calendar and dateutil.relativedelta *)

Module Calendar.

Record datetime : Type := mk_datetime {
  year : Z; month : Z; day : Z;
  hour : Z; minute : Z; second : Z; microsecond : Z
}.

#[global] Instance datetime_eq_dec : EqDecision datetime.
Proof. solve_decision. Defined.

Definition isleap (y : Z) : bool :=
  Z.eqb (y mod 4) 0 && (negb (Z.eqb (y mod 100) 0) || Z.eqb (y mod 400) 0).

(** [calendar.monthrange(y, m)[1]] *)
Definition days_in_month (y m : Z) : Z :=
  match m with
  | 2 => if isleap y then 29 else 28
  | 4 | 6 | 9 | 11 => 30
  | _ => 31
  end.

Definition days_before_year (y : Z) : Z :=
  let p := y - 1 in p * 365 + p / 4 - p / 100 + p / 400.

Definition days_before_month (y m : Z) : Z :=
  match m with
  | 1 => 0 | 2 => 31 | 3 => 59 | 4 => 90 | 5 => 120 | 6 => 151
  | 7 => 181 | 8 => 212 | 9 => 243 | 10 => 273 | 11 => 304 | _ => 334
  end + (if Z.ltb 2 m && isleap y then 1 else 0).

(** [date.toordinal()]: day 1 is 0001-01-01. *)
Definition toordinal (d : datetime) : Z :=
  days_before_year (year d) + days_before_month (year d) (month d) + day d.

(** A value [datetime] can hold: the constructor refuses any other. *)
Definition valid (d : datetime) : Prop :=
  1 ≤ year d ≤ 9999 ∧ 1 ≤ month d ≤ 12 ∧
  1 ≤ day d ≤ days_in_month (year d) (month d) ∧
  0 ≤ hour d < 24 ∧ 0 ≤ minute d < 60 ∧ 0 ≤ second d < 60 ∧
  0 ≤ microsecond d < 1000000.

(** [d.replace(hour=0, minute=0, second=0, microsecond=0)] *)
Definition midnight (d : datetime) : datetime :=
  {| year := year d; month := month d; day := day d;
     hour := 0; minute := 0; second := 0; microsecond := 0 |}.

(** [d + relativedelta(months=n)] for [1 <= abs(n) <= 12]: the month moves,
    the year follows when the month leaves 1..12, the day is cut down to the
    length of the month reached, and [replace] raises [ValueError] when the
    year leaves 1..9999. *)
Definition add_months (d : datetime) (n : Z) : Py.exn + datetime :=
  let m := month d + n in
  let '(y, m) :=
    if Z.ltb 12 m then (year d + 1, m - 12)
    else if Z.ltb m 1 then (year d - 1, m + 12)
    else (year d, m) in
  let dd := Z.min (days_in_month y m) (day d) in
  if Z.leb 1 y && Z.leb y 9999 then
    inr {| year := y; month := m; day := dd; hour := hour d;
           minute := minute d; second := second d;
           microsecond := microsecond d |}
  else inl Py.ValueError.

(** [d - relativedelta(months=n)] is [d + (-relativedelta(months=n))]. *)
Definition sub_months (d : datetime) (n : Z) : Py.exn + datetime :=
  add_months d (- n).

Definition ns_per_day : Z := 86400 * 1000000000.

(** The [Timestamp] of a naive [datetime]: nanoseconds since 1970-01-01,
    whose ordinal is 719163. *)
Definition timestamp (d : datetime) : Z :=
  (toordinal d - 719163) * ns_per_day
  + ((hour d * 60 + minute d) * 60 + second d) * 1000000000
  + microsecond d * 1000.

(** [.dt.floor('D')] *)
Definition floor_day (t : Z) : Z := t / ns_per_day * ns_per_day.

(** [Timedelta.days] of the difference [a - b] *)
Definition days_between (a b : Z) : Z := (a - b) / ns_per_day.

(** The civil date of a day count since 1970-01-01. *)
Definition civil_of_days (days : Z) : Z * Z * Z :=
  let z := days + 719468 in
  let era := z / 146097 in
  let doe := z - era * 146097 in
  let yoe := (doe - doe / 1460 + doe / 36524 - doe / 146096) / 365 in
  let doy := doe - (365 * yoe + yoe / 4 - yoe / 100) in
  let mp := (5 * doy + 2) / 153 in
  let d := doy - (153 * mp + 2) / 5 + 1 in
  let m := if Z.ltb mp 10 then mp + 3 else mp - 9 in
  (yoe + era * 400 + (if Z.leb m 2 then 1 else 0), m, d).

(** [n] written with at least [width] decimal digits. *)
Definition digits (width : nat) (n : Z) : string :=
  let s := NilZero.string_of_int (Z.to_int n) in
  String.concat EmptyString (repeat "0" (width - String.length s)) ++ s.

(** [str(Timestamp)]: date and time of day, then the fraction of a second
    when there is one, to the microsecond or to the nanosecond. *)
Definition timestamp_str (t : Z) : string :=
  let '(y, m, d) := civil_of_days (t / ns_per_day) in
  let ns := t mod ns_per_day in
  let secs := ns / 1000000000 in
  let frac := ns mod 1000000000 in
  digits 4 y ++ "-" ++ digits 2 m ++ "-" ++ digits 2 d ++ " "
  ++ digits 2 (secs / 3600) ++ ":" ++ digits 2 (secs / 60 mod 60) ++ ":"
  ++ digits 2 (secs mod 60)
  ++ (if Z.eqb frac 0 then EmptyString
      else if Z.eqb (frac mod 1000) 0 then "." ++ digits 6 (frac / 1000)
      else "." ++ digits 9 frac).

End Calendar.

(** ** The pandas operations the function uses *)

Module Pandas.
Import Py.

(** The dtypes met here.  [str_dtype] is the dtype named [str] under which
    pandas 3 holds a column of text, the columns [read_csv] builds among
    them; it does not compare equal to ['object']. *)
Inductive dtype : Type := object | int64 | float64 | datetime64 | str_dtype.

#[global] Instance dtype_eq_dec : EqDecision dtype.
Proof. solve_decision. Defined.

(** A row: its index label and the mapping from column name to value. *)
Record Row : Type := mk_row { label : nat; cells : gmap string cell }.

#[global] Instance Row_eq_dec : EqDecision Row.
Proof. solve_decision. Defined.

(** A frame: [df.columns] with the dtype of each column, and the rows in
    their order. *)
Record DataFrame : Type := mk_frame {
  columns : gmap string dtype;
  rows : list Row
}.

#[global] Instance DataFrame_eq_dec : EqDecision DataFrame.
Proof. solve_decision. Defined.

Record Series : Type := mk_series { dtype_of : dtype; values : list cell }.

(** The value of a row in a column; a cell that is not there reads as the
    missing value. *)
Definition at_col (c : string) (r : Row) : cell := default NaN (cells r !! c).

(** [df[c]] *)
Definition getitem (c : string) (df : DataFrame) : exn + Series :=
  match columns df !! c with
  | Some d => inr {| dtype_of := d; values := at_col c <$> rows df |}
  | None => inl (KeyError [c])
  end.

(** [df[c] = f(df[c])] for an elementwise [f], the result having dtype [d] *)
Definition assign (c : string) (d : dtype) (f : Row → cell) (df : DataFrame)
  : DataFrame :=
  {| columns := <[c := d]> (columns df);
     rows := (λ r, {| label := label r; cells := <[c := f r]> (cells r) |})
             <$> rows df |}.

(** [df[c] = s] for a datetime64 Series [s] on the index of [df]: values
    meet the rows by position, a row without a value gets NaT. *)
Definition setitem_datetime (c : string) (s : list (option Z)) (df : DataFrame)
  : DataFrame :=
  {| columns := <[c := datetime64]> (columns df);
     rows := imap (λ i r,
               {| label := label r;
                  cells := <[c := match s !! i with
                                  | Some (Some t) => Time t
                                  | _ => NaT
                                  end]> (cells r) |})
             (rows df) |}.

(** [str(x)], as [astype(str)] applies it to each element of an object
    column: a missing value becomes the text [nan], which is what pandas does
    before version 3. *)
Definition str (c : cell) : string :=
  match c with
  | Str s => s
  | Num z => NilZero.string_of_int (Z.to_int z)
  | NaN => "nan"
  | Time t => Calendar.timestamp_str t
  | NaT => "NaT"
  end.

Definition isna (c : cell) : bool :=
  match c with NaN | NaT => true | _ => false end.

(** [df.dropna(subset=[c])] *)
Definition dropna (c : string) (df : DataFrame) : DataFrame :=
  {| columns := columns df;
     rows := filter (λ r, isna (at_col c r) = false) (rows df) |}.

(** [Series.unique()]: the distinct values in order of first appearance,
    a missing value counting as equal to itself. *)
Fixpoint unique_onto (seen : list cell) (l : list cell) : list cell :=
  match l with
  | [] => []
  | x :: l' =>
      if decide (x ∈ seen) then unique_onto seen l'
      else x :: unique_onto (x :: seen) l'
  end.

Definition unique (l : list cell) : list cell := unique_onto [] l.

(** [a[ix]] with an integer array [ix] *)
Definition take_at {A} (l : list A) (ix : list nat) : list A :=
  omap (λ i, l !! i) ix.

(** The key a datetime64 or integer column sorts by; [None] is a missing
    value.  The function sorts by no text column. *)
Definition sort_key (c : cell) : option Z :=
  match c with Time t => Some t | Num z => Some z | _ => None end.

(** [nargsort(items, kind, ascending, na_position="last")]: the missing
    values are set aside, a descending sort reverses the rest, sorts it in
    ascending order with the kernel [argsort] and reverses the outcome, and
    the missing values are appended. *)
Definition nargsort (argsort : list Z → list nat) (ascending : bool)
    (items : list (option Z)) : list nat :=
  let idx := seq 0 (length items) in
  let present := λ i : nat, is_Some (mjoin (items !! i)) in
  let non_nans := omap id items in
  let non_nan_idx := filter present idx in
  let nan_idx := filter (λ i, ¬ present i) idx in
  let non_nans := if ascending then non_nans else reverse non_nans in
  let non_nan_idx := if ascending then non_nan_idx else reverse non_nan_idx in
  let indexer := take_at non_nan_idx (argsort non_nans) in
  let indexer := if ascending then indexer else reverse indexer in
  indexer ++ nan_idx.

(** [df.sort_values(by=c, ascending=asc)] with the default kind *)
Definition sort_values (argsort : list Z → list nat) (c : string)
    (asc : bool) (df : DataFrame) : DataFrame :=
  {| columns := columns df;
     rows := take_at (rows df)
               (nargsort argsort asc ((λ r, sort_key (at_col c r)) <$> rows df)) |}.

(** [df[mask]] for a mask computed row by row *)
Definition where_ (mask : Row → bool) (df : DataFrame) : DataFrame :=
  {| columns := columns df; rows := filter (λ r, mask r = true) (rows df) |}.

(** [df[[c1, ..., cn]]] *)
Definition select (cs : list string) (df : DataFrame) : exn + DataFrame :=
  match filter (λ c, columns df !! c = None) cs with
  | [] => inr {| columns := filter (λ kv, kv.1 ∈ cs) (columns df);
                 rows := (λ r, {| label := label r;
                                  cells := filter (λ kv, kv.1 ∈ cs) (cells r) |})
                         <$> rows df |}
  | missing => inl (KeyError missing)
  end.

(** [pd.DataFrame()] *)
Definition empty_frame : DataFrame := {| columns := ∅; rows := [] |}.

(** [df.empty]: some axis has length 0 *)
Definition empty (df : DataFrame) : bool :=
  bool_decide (rows df = []) || bool_decide (columns df = ∅).

End Pandas.

(** ** app.py *)

Import Py Calendar Pandas.

Definition COL_ACTUACION : string := "Última Actuación".
Definition COL_FECHA : string := "Fecha Actuación".
Definition COL_CASO : string := "Número Noticia".
Definition COL_DIAS : string := "Días de Antigüedad".

(** What the libraries decide and the source does not: the permissive parser
    behind [pd.to_datetime(s, errors='coerce')], which answers for a whole
    column ([None] is NaT) or raises, and the kernel numpy runs for the
    default sort kind. *)
Class Runtime : Type := {
  to_datetime : Series → exn + list (option Z);
  argsort : list Z → list nat
}.

(** An ascending sort kernel returns a permutation of the positions that
    puts the keys in non-decreasing order.  Nothing is asked of ties. *)
Definition sorts (argsort : list Z → list nat) : Prop :=
  ∀ keys : list Z,
    argsort keys ≡ₚ seq 0 (length keys) ∧
    Sorted Z.le (take_at keys (argsort keys)).

(** The same asked of one call: the kernel returns a permutation of the
    positions of [keys] that puts them in non-decreasing order. *)
Definition sorts_keys (argsort : list Z → list nat) (keys : list Z) : Prop :=
  argsort keys ≡ₚ seq 0 (length keys) ∧
  Sorted Z.le (take_at keys (argsort keys)).

#[global] Instance sorts_keys_dec argsort keys : Decision (sorts_keys argsort keys).
Proof. unfold sorts_keys. apply _. Defined.

(** A reference to a frame object. *)
Definition ref : Type := nat.

(** What the shell shows with [st.error]: the message of the [KeyError]
    handler, or the message of the catch-all handler. *)
Inductive alert : Type :=
| columna_requerida (detalles : exn)
| error_inesperado (detalles : exn).

(** The frames alive, the reading [datetime.now()] gives, and what has been
    put on the page. *)
Record world : Type := mk_world {
  heap : list DataFrame;
  reloj : datetime;
  pantalla : list alert
}.

(** The six values [procesar_datos] returns; [df_completo] is the very
    frame object it was given. *)
Record resultados : Type := mk_resultados {
  lista_actuaciones : list cell;
  df_completo : ref;
  df_clasificado_fecha : DataFrame;
  procesos_atrasados : DataFrame;
  fecha_actual : datetime;
  fecha_limite : datetime
}.

(** The statements of the [try] block run on the frame behind [df]: each may
    replace it or raise, and what was done before a raise stays done. *)
Definition M (A : Type) : Type := DataFrame → (exn + A) * DataFrame.

#[global] Instance M_ret : MRet M := λ _ x df, (inr x, df).
#[global] Instance M_bind : MBind M := λ _ _ f m df,
  match m df with
  | (inl e, df') => (inl e, df')
  | (inr x, df') => f x df'
  end.

Definition get : M DataFrame := λ df, (inr df, df).
Definition put (df' : DataFrame) : M unit := λ _, (inr (), df').
Definition lift {A} (r : exn + A) : M A := λ df, (r, df).

Section processor.
Context `{Runtime}.

(** [df[COL_CASO].astype(str).str.replace(...)]: the text of the value
    without its single quotes *)
Definition limpiar_caso (r : Row) : cell :=
  Str (remove_quotes (str (at_col COL_CASO r))).

(** [df[COL_FECHA].dt.floor('D') < fecha_limite] *)
Definition atrasado (limite : datetime) (r : Row) : bool :=
  match at_col COL_FECHA r with
  | Time t => floor_day t <? timestamp limite
  | _ => false
  end.

(** [(fecha_actual - df[COL_FECHA]).dt.days] *)
Definition antiguedad (actual : datetime) (r : Row) : cell :=
  match at_col COL_FECHA r with
  | Time t => Num (days_between (timestamp actual) t)
  | _ => NaN
  end.

(** The [try] block, statement by statement; [r] is the reference held by
    [df] and [ahora] what [datetime.now()] returns. *)
Definition cuerpo (r : ref) (ahora : datetime) : M resultados :=
  df ← get;
  (if bool_decide (columns df !! COL_CASO = Some object)
   then put (assign COL_CASO object limpiar_caso df)
   else mret ());;
  df ← get;
  fechas ← lift (getitem COL_FECHA df);
  convertidas ← lift (to_datetime fechas);
  put (setitem_datetime COL_FECHA convertidas df);;
  df ← get;
  put (dropna COL_FECHA df);;
  df ← get;
  actuaciones ← lift (getitem COL_ACTUACION df);
  lista ← lift (list_sort (unique (values actuaciones)));
  let clasificado := sort_values argsort COL_FECHA false df in
  let actual := midnight ahora in
  limite ← lift (sub_months actual 2);
  let atrasados := where_ (atrasado limite) df in
  resultado ←
    (if negb (empty atrasados) then
       let atrasados := assign COL_DIAS int64 (antiguedad actual) atrasados in
       clave ← lift (select [COL_CASO; COL_FECHA; COL_ACTUACION; COL_DIAS] atrasados);
       mret (sort_values argsort COL_DIAS false clave)
     else mret empty_frame);
  mret {| lista_actuaciones := lista; df_completo := r;
          df_clasificado_fecha := clasificado;
          procesos_atrasados := resultado;
          fecha_actual := actual; fecha_limite := limite |}.

(** [procesar_datos(df)].  The clock is read inside; both handlers report on
    the page and return six [None]. *)
Definition procesar_datos (df : ref) (w : world) : option resultados * world :=
  match heap w !! df with
  | None => (None, w)
  | Some d =>
      let '(res, d') := cuerpo df (reloj w) d in
      let h := <[df := d']> (heap w) in
      match res with
      | inr out =>
          (Some out, {| heap := h; reloj := reloj w; pantalla := pantalla w |})
      | inl (KeyError k) =>
          (None, {| heap := h; reloj := reloj w;
                    pantalla := pantalla w ++ [columna_requerida (KeyError k)] |})
      | inl e =>
          (None, {| heap := h; reloj := reloj w;
                    pantalla := pantalla w ++ [error_inesperado e] |})
      end
  end.

(** [df.copy()]: a new frame object with the same content. *)
Definition copy (df : ref) (w : world) : option ref * world :=
  match heap w !! df with
  | None => (None, w)
  | Some d =>
      (Some (length (heap w)),
       {| heap := heap w ++ [d]; reloj := reloj w; pantalla := pantalla w |})
  end.

(** The call of the shell: [procesar_datos(df_original.copy())]. *)
Definition procesar_copia (df_original : ref) (w : world)
  : option resultados * world :=
  match copy df_original w with
  | (Some c, w') => procesar_datos c w'
  | (None, w') => (None, w')
  end.

End processor.

(** ** The libraries as they run *)

Module Numpy.

(** [v[tosort[p]]] *)
Definition key (v : list Z) (a : list nat) (p : nat) : Z := v !!! (a !!! p).

Definition swap (a : list nat) (i j : nat) : list nat :=
  <[j := a !!! i]> (<[i := a !!! j]> a).

(** [while (pj > pl && vp < v[*pk]) *pj-- = *pk--;] *)
Fixpoint shift (fuel : nat) (v : list Z) (a : list nat) (pl : nat) (vp : Z)
    (pj : nat) : list nat * nat :=
  match fuel with
  | O => (a, pj)
  | S f =>
      if (pl <? pj)%nat && (vp <? key v a (pj - 1))
      then shift f v (<[pj := a !!! (pj - 1)%nat]> a) pl vp (pj - 1)
      else (a, pj)
  end.

(** The insertion sort of the positions [pl..pr]. *)
Definition insertion (v : list Z) (a : list nat) (pl pr : nat) : list nat :=
  foldl (λ a pi,
           let vi := a !!! pi in
           let '(a, pj) := shift pi v a pl (v !!! vi) pi in
           <[pj := vi]> a)
        a (seq (S pl) (pr - pl)).

(** [do ++pi; while (v[*pi] < vp);] *)
Fixpoint scan_up (fuel : nat) (v : list Z) (a : list nat) (vp : Z) (pi : nat)
  : nat :=
  match fuel with
  | O => pi
  | S f => if key v a (S pi) <? vp then scan_up f v a vp (S pi) else S pi
  end.

(** [do --pj; while (vp < v[*pj]);] *)
Fixpoint scan_down (fuel : nat) (v : list Z) (a : list nat) (vp : Z) (pj : nat)
  : nat :=
  match fuel with
  | O => pj
  | S f =>
      if vp <? key v a (pj - 1) then scan_down f v a vp (pj - 1) else (pj - 1)%nat
  end.

Fixpoint exchange (fuel : nat) (v : list Z) (a : list nat) (vp : Z)
    (pi pj : nat) : list nat * nat :=
  match fuel with
  | O => (a, pi)
  | S f =>
      let pi := scan_up (length a) v a vp pi in
      let pj := scan_down (length a) v a vp pj in
      if (pj <=? pi)%nat then (a, pi) else exchange f v (swap a pi pj) vp pi pj
  end.

(** The partition of [pl..pr] around the median of its first, middle and
    last keys; the pivot ends at the position returned. *)
Definition partition (v : list Z) (a : list nat) (pl pr : nat)
  : list nat * nat :=
  let pm := (pl + (pr - pl) / 2)%nat in
  let a := if key v a pm <? key v a pl then swap a pm pl else a in
  let a := if key v a pr <? key v a pm then swap a pr pm else a in
  let a := if key v a pm <? key v a pl then swap a pm pl else a in
  let vp := key v a pm in
  let a := swap a pm (pr - 1) in
  let '(a, pi) := exchange (length a) v a vp pl (pr - 1) in
  (swap a pi (pr - 1), pi).

(** One sift of the heap laid over [tosort[base..]], written with the
    1-based positions of the C code. *)
Fixpoint sift (fuel : nat) (v : list Z) (a : list nat) (base : nat) (tmp : nat)
    (i j n : nat) : list nat :=
  let at_ := λ k : nat, (base + k - 1)%nat in
  match fuel with
  | O => <[at_ i := tmp]> a
  | S f =>
      if (j <=? n)%nat then
        let j := if (j <? n)%nat && (key v a (at_ j) <? key v a (at_ (S j)))
                 then S j else j in
        if v !!! tmp <? key v a (at_ j)
        then sift f v (<[at_ i := a !!! at_ j]> a) base tmp j (j + j) n
        else <[at_ i := tmp]> a
      else <[at_ i := tmp]> a
  end.

(** The heap sort quicksort falls back to when its depth budget is spent. *)
Definition heapsort (v : list Z) (a : list nat) (base n : nat) : list nat :=
  let at_ := λ k : nat, (base + k - 1)%nat in
  let a := foldl (λ a l, sift n v a base (a !!! at_ l) l (2 * l) n)
                 a (reverse (seq 1 (n / 2))) in
  foldl (λ a m,
           let tmp := a !!! at_ m in
           let a := <[at_ m := a !!! at_ 1%nat]> a in
           sift n v a base tmp 1 2 (m - 1))
        a (reverse (seq 2 (n - 1))).

(** The loop of [aquicksort]: ranges longer than 17 are partitioned, the
    shorter side is continued and the longer one taken up afterwards, when
    the depth budget is looked at; short ranges go to the insertion sort. *)
Fixpoint quick (fuel : nat) (v : list Z) (a : list nat) (pl pr : nat)
    (cdepth : Z) (popped : bool) : list nat :=
  match fuel with
  | O => a
  | S f =>
      if popped && (cdepth <? 0) then heapsort v a pl (pr - pl + 1)
      else if (16 <? pr - pl)%nat then
        let '(a, pi) := partition v a pl pr in
        if (pi - pl <? pr - pi)%nat then
          let a := quick f v a pl (pi - 1) (cdepth - 1) false in
          quick f v a (pi + 1) pr (cdepth - 1) true
        else
          let a := quick f v a (pi + 1) pr (cdepth - 1) false in
          quick f v a pl (pi - 1) (cdepth - 1) true
      else insertion v a pl pr
  end.

(** [v.argsort(kind='quicksort')] on 64-bit keys *)
Definition aquicksort (v : list Z) : list nat :=
  let n := length v in
  quick (S n) v (seq 0 n) 0 (n - 1) (2 * Z.log2 (Z.of_nat n)) true.

(** [v.argsort(kind='stable')]: the positions in ascending order of key,
    equal keys in their order. *)
Fixpoint place (v : list Z) (i : nat) (sorted : list nat) : list nat :=
  match sorted with
  | [] => [i]
  | j :: rest =>
      if v !!! i <? v !!! j then i :: j :: rest else j :: place v i rest
  end.

Definition stable_argsort (v : list Z) : list nat :=
  foldl (λ sorted i, place v i sorted) [] (seq 0 (length v)).

End Numpy.

Module Dateparse.

Definition digit (a : ascii) : option Z :=
  let n := Z.of_N (N_of_ascii a) in
  if (48 <=? n) && (n <=? 57) then Some (n - 48) else None.

(** A calendar date written [YYYY-MM-DD], within the years datetime64[ns]
    can hold; anything else does not parse. *)
Definition iso_date (s : string) : option Z :=
  match s with
  | String y1 (String y2 (String y3 (String y4 (String "-"
      (String m1 (String m2 (String "-" (String d1 (String d2 EmptyString))))))))) =>
      y1 ← digit y1; y2 ← digit y2; y3 ← digit y3; y4 ← digit y4;
      m1 ← digit m1; m2 ← digit m2; d1 ← digit d1; d2 ← digit d2;
      let y := ((y1 * 10 + y2) * 10 + y3) * 10 + y4 in
      let m := m1 * 10 + m2 in
      let d := d1 * 10 + d2 in
      if (1678 <=? y) && (y <=? 2261) && (1 <=? m) && (m <=? 12)
         && (1 <=? d) && (d <=? Calendar.days_in_month y m)
      then Some (Calendar.timestamp (Calendar.mk_datetime y m d 0 0 0 0))
      else None
  | _ => None
  end.

(** [pd.to_datetime(s, errors='coerce')] on the columns used below: text
    holding ISO calendar dates or no date at all, and timestamps. *)
Definition to_datetime_iso (s : Pandas.Series) : Py.exn + list (option Z) :=
  inr ((λ c, match c with
             | Py.Str s => iso_date s
             | Py.Time t => Some t
             | _ => None
             end) <$> Pandas.values s).

End Dateparse.

(** The default kernel, and the stable one: numpy's quicksort is its insertion
    sort on arrays of at most 17 elements and gives the stable order there. *)
Definition pandas_default : Runtime :=
  {| to_datetime := Dateparse.to_datetime_iso; argsort := Numpy.aquicksort |}.

Definition pandas_stable : Runtime :=
  {| to_datetime := Dateparse.to_datetime_iso; argsort := Numpy.stable_argsort |}.

(** ** Sample uploads *)

Definition fila (i : nat) (caso fecha actuacion : cell) : Row :=
  {| label := i;
     cells := {[ COL_CASO := caso; COL_FECHA := fecha; COL_ACTUACION := actuacion ]} |}.

Definition tres_columnas : gmap string dtype :=
  {[ COL_CASO := object; COL_FECHA := object; COL_ACTUACION := object ]}.

(** A quoted case with an old action and a case whose date is no date. *)
Definition escenario1 : DataFrame :=
  {| columns := tres_columnas;
     rows := [fila 0 (Str "'123'") (Str "2023-01-10") (Str "Filed");
              fila 1 (Str "456") (Str "not-a-date") (Str "Served")] |}.

(** Eighteen cases whose last action fell on the same day. *)
Definition empate18 : DataFrame :=
  {| columns := tres_columnas;
     rows := (λ i, fila i (Str (NilZero.string_of_uint (Nat.to_uint (100 + i))))
                     (Str "2023-01-10") (Str "Filed")) <$> seq 0 18 |}.

(** Numeric action codes, one of them missing: a float64 column. *)
Definition codigos : DataFrame :=
  {| columns := {[ COL_CASO := object; COL_FECHA := object;
                   COL_ACTUACION := float64 ]};
     rows := [fila 0 (Str "101") (Str "2023-03-01") (Num 2);
              fila 1 (Str "102") (Str "2023-03-02") NaN;
              fila 2 (Str "103") (Str "2023-03-03") (Num 1)] |}.

(** Two recent cases, the action of the second left blank. *)
Definition actuacion_en_blanco : DataFrame :=
  {| columns := tres_columnas;
     rows := [fila 0 (Str "201") (Str "2023-03-01") (Str "Archivo");
              fila 1 (Str "202") (Str "2023-03-05") NaN] |}.

(** Two cases with an action in the last sixty days. *)
Definition recientes : DataFrame :=
  {| columns := tres_columnas;
     rows := [fila 0 (Str "301") (Str "2023-03-01") (Str "Auto");
              fila 1 (Str "302") (Str "2023-03-05") (Str "Archivo")] |}.

(** An upload without the case column, its only action a recent one. *)
Definition sin_numero_noticia : DataFrame :=
  {| columns := {[ COL_FECHA := object; COL_ACTUACION := object ]};
     rows := [{| label := 0;
                 cells := {[ COL_FECHA := Str "2023-03-20";
                             COL_ACTUACION := Str "Auto" ]} |}] |}.

(** What the dates of [escenario1] convert to. *)
Definition fechas_escenario1 : list (option Z) :=
  [Some 1673308800000000000; None].


(** An upload without the date column, and one without the action column. *)
Definition sin_fecha : DataFrame :=
  {| columns := {[ COL_CASO := object; COL_ACTUACION := object ]};
     rows := [{| label := 0;
                 cells := {[ COL_CASO := Str "'401'";
                             COL_ACTUACION := Str "Auto" ]} |}] |}.

Definition sin_actuacion : DataFrame :=
  {| columns := {[ COL_CASO := object; COL_FECHA := object ]};
     rows := [{| label := 0;
                 cells := {[ COL_CASO := Str "501";
                             COL_FECHA := Str "2023-03-01" ]} |};
              {| label := 1;
                 cells := {[ COL_CASO := Str "502";
                             COL_FECHA := Str "sin fecha" ]} |}] |}.

(** An upload none of whose dates is a date. *)
Definition sin_fechas_validas : DataFrame :=
  {| columns := tres_columnas;
     rows := [fila 0 (Str "601") (Str "pendiente") (Str "Auto");
              fila 1 (Str "602") NaN (Str "Archivo")] |}.

(** Five cases uploaded in no order of date, one of them without a date;
    three of the dated ones are old. *)
Definition varias_fechas : DataFrame :=
  {| columns := tres_columnas;
     rows := [fila 0 (Str "'301'") (Str "2023-01-20") (Str "Sentencia");
              fila 1 (Str "302") (Str "2022-11-05") (Str "Auto");
              fila 2 (Str "30'3") (Str "2023-03-25") (Str "Sentencia");
              fila 3 (Str "304") (Str "sin fecha") (Str "Traslado");
              fila 4 (Str "305") (Str "2022-12-31") (Str "Archivo")] |}.

(** Three cases dated the day before the cutoff of 30 April 2023, on it and
    after it. *)
Definition en_el_limite : DataFrame :=
  {| columns := tres_columnas;
     rows := [fila 0 (Str "801") (Str "2023-02-27") (Str "Auto");
              fila 1 (Str "802") (Str "2023-02-28") (Str "Auto");
              fila 2 (Str "803") (Str "2023-03-15") (Str "Auto")] |}.

(** The upload of scenario 1 as [read_csv] builds it on pandas 3: the three
    columns hold text under the dtype [str]. *)
Definition escenario1_str : DataFrame :=
  {| columns := {[ COL_CASO := str_dtype; COL_FECHA := str_dtype;
                   COL_ACTUACION := str_dtype ]};
     rows := [fila 0 (Str "'123'") (Str "2023-01-10") (Str "Filed");
              fila 1 (Str "456") (Str "not-a-date") (Str "Served")] |}.

(** A session holding one uploaded frame, at the given wall-clock time. *)
Definition mundo (d : DataFrame) (ahora : datetime) : world :=
  {| heap := [d]; reloj := ahora; pantalla := [] |}.

Definition abril_1 : datetime := mk_datetime 2023 4 1 10 30 0 0.
Definition abril_1_tarde : datetime := mk_datetime 2023 4 1 18 5 0 0.
Definition abril_2 : datetime := mk_datetime 2023 4 2 10 30 0 0.
Definition abril_30 : datetime := mk_datetime 2023 4 30 10 30 0 0.


(** ** The stages of a run, for the statements below *)

Section stages.
Context `{Runtime}.

(** The frame after the quote cleaning of step 1.0. *)
Definition paso_caso (d : DataFrame) : DataFrame :=
  if bool_decide (columns d !! COL_CASO = Some object)
  then assign COL_CASO object limpiar_caso d else d.

(** The cleaned frame: dates converted, rows without a date dropped. *)
Definition limpio (d : DataFrame) (convertidas : list (option Z)) : DataFrame :=
  dropna COL_FECHA (setitem_datetime COL_FECHA convertidas (paso_caso d)).

(** Step 4 from the filter on: the table of stale processes. *)
Definition tabla_atrasados (actual limite : datetime) (d : DataFrame)
  : exn + DataFrame :=
  let atrasados := where_ (atrasado limite) d in
  if negb (empty atrasados) then
    clave ← select [COL_CASO; COL_FECHA; COL_ACTUACION; COL_DIAS]
              (assign COL_DIAS int64 (antiguedad actual) atrasados);
    mret (sort_values argsort COL_DIAS false clave)
  else mret empty_frame.

End stages.

(** The columns of the stale table, and the row it holds for a stale row. *)
Definition columnas_clave : list string :=
  [COL_CASO; COL_FECHA; COL_ACTUACION; COL_DIAS].

Definition fila_atrasada (actual : datetime) (r : Row) : Row :=
  {| label := label r;
     cells := filter (λ kv, kv.1 ∈ columnas_clave)
                (<[COL_DIAS := antiguedad actual r]> (cells r)) |}.

(** The row of the cleaned frame a parsed row becomes. *)
Definition fila_fechada (t : Z) (r : Row) : Row :=
  {| label := label r; cells := <[COL_FECHA := Time t]> (cells r) |}.

(** The key a row sorts by in column [c]. *)
Definition clave (c : string) (r : Row) : Z := default 0 (sort_key (at_col c r)).

(** The kind of a value: values of one kind compare, values of two do not. *)
Definition kind (c : cell) : nat :=
  match c with Str _ => 0 | Num _ | NaN => 1 | Time _ | NaT => 2 end.

(** The cleaned dataset a run returns: the frame [df_completo] refers to. *)
Definition df_limpio (out : resultados) (w : world) : DataFrame :=
  default empty_frame (heap w !! df_completo out).

(** The keys the two sorts of a run work on, in the order of the cleaned
    frame: the dates of its rows (line 38), and the ages of its stale rows
    (line 61). *)
Definition fechas_limpias (out : resultados) (w : world) : list Z :=
  clave COL_FECHA <$> rows (df_limpio out w).

Definition edades (out : resultados) (w : world) : list Z :=
  clave COL_DIAS <$>
    (fila_atrasada (fecha_actual out) <$>
       filter (λ f, atrasado (fecha_limite out) f = true) (rows (df_limpio out w))).

(** The upload without the rows whose date did not convert, and the
    converted dates that remain. *)
Definition sin_invalidas (d : DataFrame) (conv : list (option Z)) : DataFrame :=
  {| columns := columns d;
     rows := (filter (λ fo, is_Some fo.2) (zip (rows d) conv)).*1 |}.

Definition validas (conv : list (option Z)) : list (option Z) :=
  filter is_Some conv.

(** The row of the frame after [df[COL_FECHA] = ...], before the drop. *)
Definition poner_fecha (r : Row) (o : option Z) : Row :=
  {| label := label r;
     cells := <[COL_FECHA := match o with Some t => Time t | None => NaT end]>
                (cells r) |}.

(** Index labels, and labels with dates, of the rows of a frame in order. *)
Definition etiquetas (d : DataFrame) : list nat := label <$> rows d.
Definition fechas_de (d : DataFrame) : list (nat * cell) :=
  (λ r, (label r, at_col COL_FECHA r)) <$> rows d.

(** The rows of a frame whose date is [t], in order. *)
Definition con_fecha (t : cell) (d : DataFrame) : list Row :=
  filter (λ r, at_col COL_FECHA r = t) (rows d).

Local Open Scope list_scope.

(** ** The page the shell builds from the results *)

(** The Streamlit calls of the shell after a run, in the order made; texts
    that do not vary are left out of the elements, and a download records the
    frame whose [to_csv(index=False)] it offers, the dates of the banner the
    two [datetime] it prints as day-month-year. *)
Inductive elemento : Type :=
| st_sidebar_header
| st_sidebar_markdown
| st_multiselect (options default : list cell)
| st_divider
| st_header (texto : string)
| st_markdown
| st_warning
| st_subheader (mostrando : nat)
| st_dataframe (d : DataFrame)
| st_download_button (file_name : string) (d : DataFrame)
| st_info (hoy limite : datetime)
| st_success_atencion (encontrados : nat)
| st_balloons
| st_success_excelente.

(** [values.isin(seleccion)] on one value; a missing value is found among
    missing values. *)
Definition isin (seleccion : list cell) (c : cell) : bool :=
  bool_decide (c ∈ seleccion).

(** Lines 119-123: the classified view cut down to the selected actions, or
    an empty frame and a warning when nothing is selected. *)
Definition filtrar (clasificado : DataFrame) (seleccionadas : list cell)
  : exn + DataFrame * list elemento :=
  match seleccionadas with
  | [] => inr (empty_frame, [st_warning])
  | _ =>
      _ ← getitem COL_ACTUACION clasificado;
      mret (where_ (λ r, isin seleccionadas (at_col COL_ACTUACION r)) clasificado, [])
  end.

(** Lines 145-168: the inactivity section. *)
Definition seccion_atrasados (out : resultados) : list elemento :=
  [st_divider;
   st_header "2. Alerta de Inactividad: Procesos con más de 2 Meses sin Actuación";
   st_info (fecha_actual out) (fecha_limite out)]
  ++ (if negb (empty (procesos_atrasados out)) then
        [st_success_atencion (length (rows (procesos_atrasados out)));
         st_dataframe (procesos_atrasados out);
         st_download_button "procesos_atrasados_mas_de_2_meses.csv"
           (procesos_atrasados out)]
      else [st_balloons; st_success_excelente]).

(** Lines 95-168, run when [lista_actuaciones is not None], with the actions
    the user has selected in the sidebar: the exception that stopped the
    script, if one did, and the elements put on the page until then. *)
Definition pagina (out : resultados) (seleccionadas : list cell)
  : option exn * list elemento :=
  let inicio :=
    [st_sidebar_header; st_sidebar_markdown;
     st_multiselect (lista_actuaciones out) (lista_actuaciones out);
     st_divider; st_header "1. Clasificación de Procesos"; st_markdown] in
  match filtrar (df_clasificado_fecha out) seleccionadas with
  | inl e => (Some e, inicio)
  | inr (filtrado, avisos) =>
      if negb (empty filtrado) then
        let hasta := inicio ++ avisos ++ [st_subheader (length (rows filtrado))] in
        match select [COL_CASO; COL_ACTUACION; COL_FECHA] filtrado with
        | inl e => (Some e, hasta)
        | inr vista =>
            (None,
             hasta ++ [st_dataframe vista;
                       st_download_button "procesos_clasificados_filtrados.csv"
                         filtrado]
             ++ seccion_atrasados out)
        end
      else (None, inicio ++ avisos ++ seccion_atrasados out)
  end.

(** The table of section 1 the page shows, if it shows one. *)
Definition tabla_clasificados (p : list elemento) : option DataFrame :=
  head (omap (λ e, match e with st_dataframe d => Some d | _ => None end) p).


(** ** The run, stage by stage *)

Section run.
Context `{Runtime}.

Lemma cuerpo_unfold r ahora d :
  cuerpo r ahora d =
  let d1 := paso_caso d in
  match getitem COL_FECHA d1 with
  | inl e => (inl e, d1)
  | inr fechas =>
    match to_datetime fechas with
    | inl e => (inl e, d1)
    | inr convertidas =>
      let d2 := limpio d convertidas in
      match getitem COL_ACTUACION d2 with
      | inl e => (inl e, d2)
      | inr actuaciones =>
        match list_sort (unique (values actuaciones)) with
        | inl e => (inl e, d2)
        | inr lista =>
          match sub_months (midnight ahora) 2 with
          | inl e => (inl e, d2)
          | inr limite =>
            match tabla_atrasados (midnight ahora) limite d2 with
            | inl e => (inl e, d2)
            | inr resultado =>
              (inr {| lista_actuaciones := lista; df_completo := r;
                      df_clasificado_fecha := sort_values argsort COL_FECHA false d2;
                      procesos_atrasados := resultado;
                      fecha_actual := midnight ahora; fecha_limite := limite |}, d2)
            end
          end
        end
      end
    end
  end.
Proof.
  unfold cuerpo, limpio, paso_caso, tabla_atrasados.
  unfold mbind, M_bind, mret, M_ret, get, put, lift. simpl.
  destruct (bool_decide (columns d !! COL_CASO = Some object)); simpl.
  all: repeat match goal with
       | |- context [match ?x with inl _ => _ | inr _ => _ end] =>
           destruct x eqn:?; simpl; try reflexivity
       | |- context [if ?b then _ else _] => destruct b eqn:?; simpl; try reflexivity
       end.
  all: unfold mret, raise_ret in *; simplify_eq; reflexivity.
Qed.

End run.

(** ** Calendar arithmetic *)

Section calendar_facts.

Lemma days_before_year_succ y :
  days_before_year (y + 1) =
  days_before_year y + 365 + (if isleap y then 1 else 0).
Proof.
  unfold days_before_year, isleap.
  replace (y + 1 - 1) with y by lia.
  destruct (Z.eqb_spec (y mod 4) 0), (Z.eqb_spec (y mod 100) 0),
    (Z.eqb_spec (y mod 400) 0); simpl; Z.div_mod_to_equations; lia.
Qed.

Lemma days_in_month_bounds y m : 28 ≤ days_in_month y m ≤ 31.
Proof.
  unfold days_in_month.
  repeat match goal with
         | |- context [match ?x with _ => _ end] => destruct x
         end; lia.
Qed.

Lemma sub_months_2_fields d l :
  1 ≤ month d ≤ 12 →
  sub_months d 2 = inr l →
  12 * year l + month l = 12 * year d + month d - 2 ∧
  1 ≤ month l ≤ 12 ∧
  day l = Z.min (days_in_month (year l) (month l)) (day d) ∧
  (hour l, minute l, second l, microsecond l) =
  (hour d, minute d, second d, microsecond d).
Proof.
  intros Hm. unfold sub_months, add_months.
  destruct (Z.ltb_spec 12 (month d + - (2))); [lia|].
  destruct (Z.ltb_spec (month d + - (2)) 1); cbv zeta iota beta;
    (match goal with |- context [if ?b then _ else _] => destruct b end;
     [|discriminate]); intros [= <-]; simpl; repeat split; lia.
Qed.

Lemma sub_months_2_toordinal d l :
  1 ≤ month d ≤ 12 → 1 ≤ day d →
  sub_months d 2 = inr l → toordinal l < toordinal d.
Proof.
  intros Hm Hd Hl.
  destruct (sub_months_2_fields d l Hm Hl) as (Hym & Hml & Hday & _).
  unfold toordinal. rewrite Hday.
  pose proof (days_in_month_bounds (year l) (month l)) as Hb.
  destruct (Z.le_gt_cases (month d) 2) as [Hle|Hgt].
  - assert (year d = year l + 1) as -> by lia.
    rewrite days_before_year_succ.
    assert (month l = month d + 10) as Hl10 by lia.
    unfold days_before_month. rewrite Hl10.
    assert (month d = 1 ∨ month d = 2) as [-> | ->] by lia; simpl;
      repeat match goal with
             | |- context [if ?b then _ else _] => destruct b
             end; lia.
  - assert (year d = year l) as -> by lia.
    assert (month d = month l + 2) as -> by lia.
    unfold days_before_month, days_in_month in *.
    assert (month l = 1 ∨ month l = 2 ∨ month l = 3 ∨ month l = 4 ∨ month l = 5 ∨
            month l = 6 ∨ month l = 7 ∨ month l = 8 ∨ month l = 9 ∨ month l = 10)
      as Hcases by lia.
    destruct (isleap (year l));
      repeat destruct Hcases as [-> | Hcases]; try rewrite Hcases; simpl; lia.
Qed.

Lemma timestamp_midnight d :
  timestamp (midnight d) = (toordinal d - 719163) * ns_per_day.
Proof. unfold timestamp, midnight, toordinal. simpl. lia. Qed.

Lemma sub_months_midnight d l :
  1 ≤ month d ≤ 12 →
  sub_months (midnight d) 2 = inr l → midnight l = l.
Proof.
  intros Hm Hl.
  destruct (sub_months_2_fields (midnight d) l Hm Hl) as (_ & _ & _ & Ht).
  destruct l; simpl in *. unfold midnight; simpl. congruence.
Qed.

Lemma floor_day_lt_multiple t k :
  floor_day t < k * ns_per_day → t < k * ns_per_day.
Proof.
  unfold floor_day, ns_per_day. intros Hlt.
  Z.div_mod_to_equations. nia.
Qed.

Lemma days_between_nonneg a b : b ≤ a → 0 ≤ days_between a b.
Proof.
  intros. unfold days_between, ns_per_day. apply Z.div_pos; lia.
Qed.

End calendar_facts.

(** ** Indexing and the descending sort *)

#[local] Arguments take_at : simpl never.


Lemma take_at_cons {A} (l : list A) (i : nat) (ix : list nat) :
  take_at l (i :: ix) =
  match l !! i with Some x => x :: take_at l ix | None => take_at l ix end.
Proof. reflexivity. Qed.

Lemma take_at_app {A} (l : list A) (ix1 ix2 : list nat) :
  take_at l (ix1 ++ ix2) = take_at l ix1 ++ take_at l ix2.
Proof. apply omap_app. Qed.

Lemma take_at_seq_from {A} (l1 l2 : list A) :
  take_at (l1 ++ l2) (seq (length l1) (length l2)) = l2.
Proof.
  revert l1. induction l2 as [|x l2 IH]; intros l1; [done|].
  cbn [seq length]. rewrite take_at_cons, list_lookup_middle by done.
  f_equal. specialize (IH (l1 ++ [x])).
  rewrite <- app_assoc, length_app in IH. cbn [length app] in IH.
  by rewrite Nat.add_1_r in IH.
Qed.

Lemma take_at_seq {A} (l : list A) : take_at l (seq 0 (length l)) = l.
Proof. apply (take_at_seq_from []). Qed.

Lemma take_at_perm {A} (l : list A) (ix : list nat) : ix ≡ₚ seq 0 (length l) → take_at l ix ≡ₚ l.
Proof.
  intros Hp. unfold take_at. rewrite Hp. fold (take_at l (seq 0 (length l))).
  by rewrite take_at_seq.
Qed.

Lemma take_at_reverse {A} (l : list A) (ix : list nat) : take_at l (reverse ix) = reverse (take_at l ix).
Proof.
  induction ix as [|i ix IH]; [done|].
  rewrite reverse_cons, take_at_app, IH, (take_at_cons l i ix), (take_at_cons l i []).
  change (take_at l []) with (@nil A).
  destruct (l !! i).
  - by rewrite reverse_cons.
  - by rewrite app_nil_r.
Qed.

(** Reading [l] through the reversed positions is reading [reverse l]. *)
Lemma take_at_mirror {A} (l : list A) (ix : list nat) :
  take_at l (take_at (reverse (seq 0 (length l))) ix) = take_at (reverse l) ix.
Proof.
  induction ix as [|i ix IH]; [done|].
  rewrite !take_at_cons.
  destruct (decide (i < length l)%nat) as [Hlt|Hge].
  - rewrite !reverse_lookup by (by rewrite ?length_seq).
    rewrite length_seq, lookup_seq_lt by lia. simpl.
    rewrite take_at_cons, IH.
    destruct (l !! (length l - S i)%nat); done.
  - rewrite !(lookup_ge_None_2 (reverse _)) by (rewrite length_reverse, ?length_seq; lia).
    done.
Qed.


Lemma take_at_fmap {A B} (f : A → B) (l : list A) (ix : list nat) :
  take_at (f <$> l) ix = f <$> take_at l ix.
Proof.
  induction ix as [|i ix IH]; [done|].
  rewrite !take_at_cons, list_lookup_fmap.
  destruct (l !! i); simpl; by rewrite IH.
Qed.

Lemma filter_all {A} (P : A → Prop) `{∀ x, Decision (P x)} (l : list A) :
  Forall P l → filter P l = l.
Proof.
  induction 1 as [|x l Hx _ IH]; [done|].
  rewrite filter_cons_True by done. by f_equal.
Qed.

Lemma filter_none {A} (P : A → Prop) `{∀ x, Decision (P x)} (l : list A) :
  Forall (λ x, ¬ P x) l → filter P l = [].
Proof.
  induction 1 as [|x l Hx _ IH]; [done|].
  by rewrite filter_cons_False.
Qed.

Section nargsort_facts.
Context (kernel : list Z → list nat) (Hsorts : sorts kernel).

Lemma nargsort_all_present (ks : list Z) :
  nargsort kernel false (Some <$> ks) =
  reverse (take_at (reverse (seq 0 (length ks))) (kernel (reverse ks))).
Proof.
  unfold nargsort. rewrite length_fmap.
  assert (omap id (Some <$> ks) = ks) as ->.
  { induction ks; simpl; [done|]. by f_equal. }
  assert (∀ i, (i < length ks)%nat → is_Some (mjoin ((Some <$> ks) !! i))) as Hpres.
  { intros i Hi. rewrite list_lookup_fmap.
    destruct (lookup_lt_is_Some_2 ks i Hi) as [k ->]. by eexists. }
  rewrite filter_all, filter_none.
  - by rewrite app_nil_r.
  - apply Forall_forall. intros i Hi%elem_of_seq Hn. apply Hn, Hpres. lia.
  - apply Forall_forall. intros i Hi%elem_of_seq. apply Hpres. lia.
Qed.

Lemma nargsort_perm (ks : list Z) :
  nargsort kernel false (Some <$> ks) ≡ₚ seq 0 (length ks).
Proof.
  rewrite nargsort_all_present, reverse_Permutation.
  destruct (Hsorts (reverse ks)) as [Hp _].
  rewrite length_reverse in Hp.
  etrans; [apply take_at_perm; by rewrite length_reverse, length_seq|].
  apply reverse_Permutation.
Qed.

Lemma nargsort_descending (ks : list Z) :
  Sorted (flip Z.le) (take_at ks (nargsort kernel false (Some <$> ks))).
Proof.
  rewrite nargsort_all_present, take_at_reverse, take_at_mirror.
  apply Sorted_reverse. apply Hsorts.
Qed.

End nargsort_facts.

(** ** Frames *)

Lemma Sorted_pullback {A B} (f : A → B) (R : relation B) (l : list A) :
  Sorted R (f <$> l) → Sorted (λ x y, R (f x) (f y)) l.
Proof.
  induction l as [|x l IH]; [constructor|].
  rewrite fmap_cons. inversion 1 as [|? ? Hs Hh]; subst.
  constructor; [by apply IH|].
  destruct l; [constructor|]. inversion Hh; subst. by constructor.
Qed.

Lemma at_col_insert_eq c v r i :
  at_col c {| label := i; cells := <[c := v]> (cells r) |} = v.
Proof. unfold at_col. simpl. by rewrite lookup_insert_eq. Qed.

Lemma at_col_insert_ne c c' v r i :
  c' ≠ c →
  at_col c {| label := i; cells := <[c' := v]> (cells r) |} = at_col c r.
Proof. intros. unfold at_col. simpl. by rewrite lookup_insert_ne. Qed.

Lemma at_col_fila_atrasada c actual r :
  c ∈ columnas_clave → c ≠ COL_DIAS →
  at_col c (fila_atrasada actual r) = at_col c r.
Proof.
  intros Hin Hne. unfold at_col, fila_atrasada. simpl. f_equal.
  destruct (cells r !! c) as [v|] eqn:Hc.
  - apply map_lookup_filter_Some. by rewrite lookup_insert_ne.
  - apply map_lookup_filter_None. left. by rewrite lookup_insert_ne.
Qed.

Lemma at_col_fila_atrasada_dias actual r :
  at_col COL_DIAS (fila_atrasada actual r) = antiguedad actual r.
Proof.
  unfold at_col, fila_atrasada. simpl.
  erewrite (proj2 (map_lookup_filter_Some _ _ _ _)); [done|].
  rewrite lookup_insert_eq. split; [done|].
  unfold columnas_clave. simpl. set_solver.
Qed.

Section frames.
Context `{Runtime}.

Lemma rows_paso_caso d :
  rows (paso_caso d) =
  if bool_decide (columns d !! COL_CASO = Some object)
  then (λ r, {| label := label r;
                cells := <[COL_CASO := limpiar_caso r]> (cells r) |}) <$> rows d
  else rows d.
Proof. unfold paso_caso. by case_bool_decide. Qed.

Lemma columns_paso_caso d c :
  is_Some (columns (paso_caso d) !! c) ↔ is_Some (columns d !! c).
Proof.
  unfold paso_caso. case_bool_decide as Hc; [|done]. simpl.
  destruct (decide (c = COL_CASO)) as [->|].
  - rewrite lookup_insert_eq, Hc. split; eauto.
  - by rewrite lookup_insert_ne.
Qed.

Lemma etiquetas_paso_caso d : label <$> rows (paso_caso d) = label <$> rows d.
Proof.
  rewrite rows_paso_caso. case_bool_decide; [|done].
  rewrite <- list_fmap_compose. by apply list_fmap_ext.
Qed.

(** The rows of the cleaned frame are the rows whose date came out of the
    conversion, with that timestamp in the date column. *)
Lemma elem_of_limpio d conv r' :
  r' ∈ rows (limpio d conv) ↔
  ∃ p r t, rows (paso_caso d) !! p = Some r ∧ conv !! p = Some (Some t) ∧
           r' = fila_fechada t r.
Proof.
  unfold limpio, dropna, setitem_datetime. simpl.
  rewrite list_elem_of_filter, list_elem_of_lookup.
  setoid_rewrite list_lookup_imap_Some. split.
  - intros (Hna & p & r & Hr & ->). exists p, r.
    rewrite at_col_insert_eq in Hna.
    destruct (conv !! p) as [[t|]|]; try discriminate. by exists t.
  - intros (p & r & t & Hr & Hc & ->). split.
    + unfold fila_fechada. by rewrite at_col_insert_eq.
    + exists p, r. by rewrite Hc.
Qed.

Lemma limpio_fecha d conv r :
  r ∈ rows (limpio d conv) → ∃ t, at_col COL_FECHA r = Time t.
Proof.
  intros (p & r0 & t & _ & _ & ->)%elem_of_limpio. exists t.
  apply at_col_insert_eq.
Qed.

Lemma columns_limpio d conv c :
  is_Some (columns (limpio d conv) !! c) ↔
  c = COL_FECHA ∨ is_Some (columns d !! c).
Proof.
  unfold limpio, dropna, setitem_datetime. simpl.
  destruct (decide (c = COL_FECHA)) as [->|].
  - rewrite lookup_insert_eq. split; eauto.
  - rewrite lookup_insert_ne, columns_paso_caso by done. split; [eauto|].
    by intros [?|?].
Qed.

Lemma columns_limpio_nonempty d conv : columns (limpio d conv) ≠ ∅.
Proof. apply insert_non_empty. Qed.

End frames.

Section sorted_frames.
Context (kernel : list Z → list nat) (Hsorts : sorts kernel).

Lemma sort_values_desc c d :
  (∀ r, r ∈ rows d → is_Some (sort_key (at_col c r))) →
  rows (sort_values kernel c false d) ≡ₚ rows d ∧
  Sorted (λ r1 r2, clave c r2 ≤ clave c r1) (rows (sort_values kernel c false d)).
Proof.
  intros Hkeys. unfold sort_values. simpl.
  assert ((λ r, sort_key (at_col c r)) <$> rows d = Some <$> (clave c <$> rows d))
    as ->.
  { rewrite <- list_fmap_compose. apply Forall_fmap_ext_1, Forall_forall.
    intros r Hr. destruct (Hkeys r Hr) as [k Hk]. unfold clave. simpl.
    by rewrite Hk. }
  split.
  - apply take_at_perm. rewrite nargsort_perm by done. by rewrite length_fmap.
  - apply (Sorted_pullback (clave c) (flip Z.le)).
    rewrite <- take_at_fmap. by apply nargsort_descending.
Qed.

End sorted_frames.

(** ** The outcome of a run *)

Section outcome.
Context `{Runtime}.

Lemma procesar_datos_Some r w out w' :
  procesar_datos r w = (Some out, w') →
  ∃ d fechas conv actuaciones,
    heap w !! r = Some d ∧
    getitem COL_FECHA (paso_caso d) = inr fechas ∧
    to_datetime fechas = inr conv ∧
    getitem COL_ACTUACION (limpio d conv) = inr actuaciones ∧
    list_sort (unique (values actuaciones)) = inr (lista_actuaciones out) ∧
    sub_months (midnight (reloj w)) 2 = inr (fecha_limite out) ∧
    tabla_atrasados (midnight (reloj w)) (fecha_limite out) (limpio d conv)
      = inr (procesos_atrasados out) ∧
    df_clasificado_fecha out = sort_values argsort COL_FECHA false (limpio d conv) ∧
    fecha_actual out = midnight (reloj w) ∧
    df_completo out = r ∧
    w' = {| heap := <[r := limpio d conv]> (heap w); reloj := reloj w;
            pantalla := pantalla w |}.
Proof.
  unfold procesar_datos. destruct (heap w !! r) as [d|] eqn:Hd; [|done].
  rewrite cuerpo_unfold. cbv zeta.
  destruct (getitem COL_FECHA (paso_caso d)) as [e|fechas] eqn:Hf.
  { destruct e; done. }
  destruct (to_datetime fechas) as [e|conv] eqn:Hc.
  { destruct e; done. }
  destruct (getitem COL_ACTUACION (limpio d conv)) as [e|act] eqn:Ha.
  { destruct e; done. }
  destruct (list_sort (unique (values act))) as [e|lista] eqn:Hl.
  { destruct e; done. }
  destruct (sub_months (midnight (reloj w)) 2) as [e|limite] eqn:Hs.
  { destruct e; done. }
  destruct (tabla_atrasados (midnight (reloj w)) limite (limpio d conv))
    as [e|res] eqn:Ht.
  { destruct e; done. }
  intros [= <- <-]. exists d, fechas, conv, act. simpl. by repeat split.
Qed.

Lemma df_limpio_Some r w out w' d conv :
  heap w !! r = Some d → df_completo out = r →
  w' = {| heap := <[r := limpio d conv]> (heap w); reloj := reloj w;
          pantalla := pantalla w |} →
  df_limpio out w' = limpio d conv.
Proof.
  intros Hd Hr ->. unfold df_limpio. rewrite Hr. simpl.
  rewrite list_lookup_insert_eq; [done|]. by eapply lookup_lt_Some.
Qed.

Lemma select_rows cs d d' :
  select cs d = inr d' →
  rows d' = (λ r, {| label := label r;
                     cells := filter (λ kv, kv.1 ∈ cs) (cells r) |}) <$> rows d.
Proof.
  unfold select. destruct (filter _ cs); [|done]. by intros [= <-].
Qed.

Lemma select_columns cs d d' c :
  select cs d = inr d' → c ∈ cs → is_Some (columns d !! c).
Proof.
  unfold select. destruct (filter _ cs) as [|c' l] eqn:Hf; [|done].
  intros _ Hc. destruct (columns d !! c) eqn:Hcol; [eauto|].
  assert (c ∈ filter (λ c, columns d !! c = None) cs) as Hin.
  { by apply list_elem_of_filter. }
  rewrite Hf in Hin. by apply not_elem_of_nil in Hin.
Qed.

Lemma tabla_atrasados_rows actual limite d res :
  sorts argsort →
  (∀ r, r ∈ rows d → ∃ t, at_col COL_FECHA r = Time t) →
  columns d ≠ ∅ →
  tabla_atrasados actual limite d = inr res →
  rows res ≡ₚ
    fila_atrasada actual <$> filter (λ r, atrasado limite r = true) (rows d).
Proof.
  intros Hsorts Hfecha Hcols. unfold tabla_atrasados, empty.
  simpl. rewrite (bool_decide_eq_false_2 (columns d = ∅)) by done.
  rewrite orb_false_r. case_bool_decide as Hrows; simpl.
  - intros [= <-]. by rewrite Hrows.
  - destruct (select _ _) as [e|sel] eqn:Hsel; [done|]. simpl. intros [= <-].
    apply select_rows in Hsel. simpl in Hsel.
    rewrite <- list_fmap_compose in Hsel.
    etrans; [apply sort_values_desc; [done|]|by rewrite Hsel].
    intros r. rewrite Hsel. intros (r0 & -> & Hr0)%list_elem_of_fmap.
    apply list_elem_of_filter in Hr0 as [_ Hr0].
    destruct (Hfecha r0 Hr0) as [t Ht].
    change (is_Some (sort_key (at_col COL_DIAS (fila_atrasada actual r0)))).
    rewrite at_col_fila_atrasada_dias. unfold antiguedad. rewrite Ht. by eexists.
Qed.

End outcome.

(** ** One call of the kernel *)

Section one_call.
Context (kernel : list Z → list nat).

Lemma nargsort_perm_keys (ks : list Z) :
  sorts_keys kernel (reverse ks) →
  nargsort kernel false (Some <$> ks) ≡ₚ seq 0 (length ks).
Proof.
  intros [Hp _]. rewrite nargsort_all_present, reverse_Permutation.
  rewrite length_reverse in Hp.
  etrans; [apply take_at_perm; by rewrite length_reverse, length_seq|].
  apply reverse_Permutation.
Qed.

Lemma nargsort_descending_keys (ks : list Z) :
  sorts_keys kernel (reverse ks) →
  Sorted (flip Z.le) (take_at ks (nargsort kernel false (Some <$> ks))).
Proof.
  intros [_ Hs]. rewrite nargsort_all_present, take_at_reverse, take_at_mirror.
  by apply Sorted_reverse.
Qed.

Lemma sort_values_desc_keys c d :
  sorts_keys kernel (reverse (clave c <$> rows d)) →
  (∀ r, r ∈ rows d → is_Some (sort_key (at_col c r))) →
  rows (sort_values kernel c false d) ≡ₚ rows d ∧
  Sorted (λ r1 r2, clave c r2 ≤ clave c r1) (rows (sort_values kernel c false d)).
Proof.
  intros Hsorts Hkeys. unfold sort_values. simpl.
  assert ((λ r, sort_key (at_col c r)) <$> rows d = Some <$> (clave c <$> rows d))
    as ->.
  { rewrite <- list_fmap_compose. apply Forall_fmap_ext_1, Forall_forall.
    intros r Hr. destruct (Hkeys r Hr) as [k Hk]. unfold clave. simpl.
    by rewrite Hk. }
  split.
  - apply take_at_perm. rewrite nargsort_perm_keys by done. by rewrite length_fmap.
  - apply (Sorted_pullback (clave c) (flip Z.le)).
    rewrite <- take_at_fmap. by apply nargsort_descending_keys.
Qed.

End one_call.

Lemma tabla_atrasados_keys `{Runtime} actual limite d res :
  sorts_keys argsort
    (reverse (clave COL_DIAS <$>
                (fila_atrasada actual <$>
                   filter (λ r, atrasado limite r = true) (rows d)))) →
  (∀ r, r ∈ rows d → ∃ t, at_col COL_FECHA r = Time t) →
  columns d ≠ ∅ →
  tabla_atrasados actual limite d = inr res →
  rows res ≡ₚ
    fila_atrasada actual <$> filter (λ r, atrasado limite r = true) (rows d) ∧
  Sorted (λ f1 f2, clave COL_DIAS f2 ≤ clave COL_DIAS f1) (rows res).
Proof.
  intros Hsorts Hfecha Hcols. unfold tabla_atrasados, empty.
  simpl. rewrite (bool_decide_eq_false_2 (columns d = ∅)) by done.
  rewrite orb_false_r. case_bool_decide as Hrows; simpl.
  - intros [= <-]. rewrite Hrows. split; [done|constructor].
  - destruct (select _ _) as [e|sel] eqn:Hsel; [done|]. simpl. intros [= <-].
    apply select_rows in Hsel. simpl in Hsel.
    rewrite <- list_fmap_compose in Hsel.
    assert (rows sel
            = fila_atrasada actual <$> filter (λ r, atrasado limite r = true) (rows d))
      as Hsel' by exact Hsel.
    destruct (sort_values_desc_keys argsort COL_DIAS sel) as [Hp Hs].
    + by rewrite Hsel'.
    + intros r. rewrite Hsel'. intros (r0 & -> & Hr0)%list_elem_of_fmap.
      apply list_elem_of_filter in Hr0 as [_ Hr0].
      destruct (Hfecha r0 Hr0) as [t Ht].
      rewrite at_col_fila_atrasada_dias. unfold antiguedad. rewrite Ht. by eexists.
    + split; [by rewrite Hp, Hsel'|done].
Qed.

(** ** The stable kernel sorts *)

Section stable_kernel.
Context (v : list Z).

Let le_at (i j : nat) : Prop := v !!! i ≤ v !!! j.

Lemma place_perm i s : Numpy.place v i s ≡ₚ i :: s.
Proof.
  induction s as [|j s IH]; simpl; [done|].
  destruct (_ <? _); [done|]. rewrite IH. apply Permutation_swap.
Qed.

Lemma place_hd i j s :
  le_at j i → HdRel le_at j s → HdRel le_at j (Numpy.place v i s).
Proof.
  intros Hji Hs. destruct s as [|k s]; simpl; [by constructor|].
  destruct (_ <? _); constructor; [done|]. by inversion Hs.
Qed.

Lemma place_sorted i s : Sorted le_at s → Sorted le_at (Numpy.place v i s).
Proof.
  induction 1 as [|j s Hs IH Hh]; simpl.
  - by repeat constructor.
  - destruct (Z.ltb_spec (v !!! i) (v !!! j)).
    + constructor; [by constructor|]. constructor. unfold le_at. lia.
    + constructor; [done|]. apply place_hd; [|done]. unfold le_at. lia.
Qed.

Lemma foldl_place_perm l s :
  foldl (λ sorted i, Numpy.place v i sorted) s l ≡ₚ l ++ s.
Proof.
  revert s. induction l as [|i l IH]; intros s; simpl; [done|].
  rewrite IH, place_perm. by rewrite Permutation_middle.
Qed.

Lemma foldl_place_sorted l s :
  Sorted le_at s → Sorted le_at (foldl (λ sorted i, Numpy.place v i sorted) s l).
Proof.
  revert s. induction l as [|i l IH]; intros s Hs; simpl; [done|].
  by apply IH, place_sorted.
Qed.

Lemma take_at_total (ix : list nat) :
  Forall (λ i, (i < length v)%nat) ix → take_at v ix = (λ i, v !!! i) <$> ix.
Proof.
  induction 1 as [|i ix Hi _ IH]; [done|].
  rewrite take_at_cons, fmap_cons, <- IH.
  destruct (lookup_lt_is_Some_2 v i Hi) as [k Hk].
  by rewrite Hk, (list_lookup_total_correct _ _ _ Hk).
Qed.

Lemma stable_argsort_spec :
  Numpy.stable_argsort v ≡ₚ seq 0 (length v) ∧
  Sorted Z.le (take_at v (Numpy.stable_argsort v)).
Proof.
  unfold Numpy.stable_argsort.
  assert (foldl (λ sorted i, Numpy.place v i sorted) [] (seq 0 (length v))
          ≡ₚ seq 0 (length v)) as Hp.
  { by rewrite foldl_place_perm, app_nil_r. }
  split; [done|].
  rewrite take_at_total.
  - apply Sorted_fmap with (R1 := le_at); [done|].
    apply foldl_place_sorted. constructor.
  - apply Forall_forall. intros i Hi. rewrite Hp in Hi.
    apply elem_of_seq in Hi. lia.
Qed.

End stable_kernel.

Lemma stable_argsort_sorts : sorts Numpy.stable_argsort.
Proof. intros keys. apply stable_argsort_spec. Qed.

(** ** Staleness *)

Section staleness.
Context `{Runtime}.

Lemma atrasado_true limite r t :
  at_col COL_FECHA r = Time t →
  atrasado limite r = true ↔ floor_day t < timestamp limite.
Proof. intros Ht. unfold atrasado. rewrite Ht. apply Z.ltb_lt. Qed.

(** The rows of the stale table, read against the cleaned frame. *)
Lemma elem_of_atrasados r w out w' fila_ :
  sorts argsort →
  procesar_datos r w = (Some out, w') →
  fila_ ∈ rows (procesos_atrasados out) ↔
  ∃ r0 t, r0 ∈ rows (df_limpio out w') ∧ at_col COL_FECHA r0 = Time t ∧
          floor_day t < timestamp (fecha_limite out) ∧
          fila_ = fila_atrasada (fecha_actual out) r0.
Proof.
  intros Hsorts Hrun.
  destruct (procesar_datos_Some _ _ _ _ Hrun)
    as (d & fechas & conv & act & Hd & _ & _ & _ & _ & _ & Ht & _ & Ha & Hr & Hw).
  rewrite (df_limpio_Some r w out w' d conv Hd Hr Hw), Ha.
  apply tabla_atrasados_rows in Ht;
    [|done|apply limpio_fecha|apply columns_limpio_nonempty].
  rewrite Ht, list_elem_of_fmap. split.
  - intros (r0 & -> & [Hst Hr0]%list_elem_of_filter).
    destruct (limpio_fecha _ _ _ Hr0) as [t Hdate].
    exists r0, t. by rewrite <- (atrasado_true _ r0 t Hdate).
  - intros (r0 & t & Hr0 & Hdate & Hlt & ->). exists r0. split; [done|].
    apply list_elem_of_filter. by rewrite (atrasado_true _ r0 t Hdate).
Qed.

End staleness.

(** C1. For every dataset and clock reading with which the run succeeds:
    [fecha_actual] has the date of the clock reading and the time 00:00:00,
    [fecha_limite] is the civil date two calendar months earlier (month count
    lowered by exactly two, day kept unless the month reached is shorter,
    then its last day) at 00:00:00, and a row of the cleaned dataset is in
    the stale table exactly when its action date, cut down to the start of
    its day, is strictly before that cutoff. *)
Theorem atrasados_iff_antes_del_limite `{Runtime} r w out w' :
  sorts argsort →
  valid (reloj w) →
  procesar_datos r w = (Some out, w') →
  (year (fecha_actual out), month (fecha_actual out), day (fecha_actual out))
    = (year (reloj w), month (reloj w), day (reloj w)) ∧
  (hour (fecha_actual out), minute (fecha_actual out),
   second (fecha_actual out), microsecond (fecha_actual out)) = (0, 0, 0, 0) ∧
  12 * year (fecha_limite out) + month (fecha_limite out)
    = 12 * year (reloj w) + month (reloj w) - 2 ∧
  1 ≤ month (fecha_limite out) ≤ 12 ∧
  day (fecha_limite out)
    = Z.min (days_in_month (year (fecha_limite out)) (month (fecha_limite out)))
            (day (reloj w)) ∧
  (hour (fecha_limite out), minute (fecha_limite out),
   second (fecha_limite out), microsecond (fecha_limite out)) = (0, 0, 0, 0) ∧
  ∀ i t, (i, Time t) ∈ fechas_de (procesos_atrasados out) ↔
         (i, Time t) ∈ fechas_de (df_limpio out w') ∧
         t / 86400000000000 * 86400000000000 < timestamp (fecha_limite out).
Proof.
  intros Hsorts Hvalid Hrun.
  destruct (procesar_datos_Some _ _ _ _ Hrun)
    as (d & fechas & conv & act & Hd & _ & _ & _ & _ & Hlim & _ & _ & Ha & Hr & Hw).
  destruct Hvalid as (_ & Hmonth & _).
  destruct (sub_months_2_fields (midnight (reloj w)) _ Hmonth Hlim)
    as (Hym & Hm & Hday & Htime).
  split; [by rewrite Ha|]. split; [by rewrite Ha|].
  split; [exact Hym|]. split; [exact Hm|].
  split; [exact Hday|]. split; [exact Htime|]. intros i t. unfold fechas_de.
  change (t / 86400000000000 * 86400000000000) with (floor_day t).
  assert (∀ r0, at_col COL_FECHA (fila_atrasada (fecha_actual out) r0)
                = at_col COL_FECHA r0) as Hkeep.
  { intros r0. apply at_col_fila_atrasada; [|done].
    unfold columnas_clave. rewrite !elem_of_cons. tauto. }
  rewrite !list_elem_of_fmap. split.
  - intros (f & [= -> Hf] & Hin).
    apply (elem_of_atrasados r w out w' f Hsorts Hrun) in Hin
      as (r0 & t0 & Hr0 & Hdate & Hlt & ->).
    rewrite Hkeep in Hf. split; [|congruence].
    exists r0. by rewrite <- Hf.
  - intros [(r0 & [= -> Hf] & Hr0) Hlt].
    exists (fila_atrasada (fecha_actual out) r0). split.
    + by rewrite Hkeep, <- Hf.
    + apply (elem_of_atrasados r w out w' _ Hsorts Hrun). by exists r0, t.
Qed.

Lemma abril_1_valid : valid abril_1.
Proof. unfold valid, abril_1. simpl. lia. Qed.

(** A run that computes to a result is not a failed run. *)
Ltac run_succeeded Hrun :=
  match type of Hrun with
  | ?run = (None, _) =>
      let E := fresh in
      assert ((if fst run is Some _ then true else false) = true) as E
        by (vm_compute; reflexivity);
      rewrite Hrun in E; discriminate E
  end.

(** On 30 April 2023 at 10:30 the cutoff is 28 February at 00:00, the month
    reached being shorter; of three rows dated 27 February, 28 February and
    15 March, the first alone is stale. *)
Lemma atrasados_iff_antes_del_limite_witness :
  match @procesar_datos pandas_stable 0%nat (mundo en_el_limite abril_30) with
  | (Some out, w') =>
      fecha_actual out = mk_datetime 2023 4 30 0 0 0 0 ∧
      fecha_limite out = mk_datetime 2023 2 28 0 0 0 0 ∧
      fechas_de (df_limpio out w')
      = [(0%nat, Time 1677456000000000000); (1%nat, Time 1677542400000000000);
         (2%nat, Time 1678838400000000000)] ∧
      (0%nat, Time 1677456000000000000) ∈ fechas_de (procesos_atrasados out) ∧
      ((1%nat, Time 1677542400000000000) ∉ fechas_de (procesos_atrasados out)) ∧
      ((2%nat, Time 1678838400000000000) ∉ fechas_de (procesos_atrasados out))
  | _ => False
  end.
Proof.
  assert ((if @procesar_datos pandas_stable 0%nat (mundo en_el_limite abril_30)
           is (Some out, w')
           then bool_decide
                  (fechas_de (df_limpio out w')
                   = [(0%nat, Time 1677456000000000000);
                      (1%nat, Time 1677542400000000000);
                      (2%nat, Time 1678838400000000000)])
           else false) = true) as Hpre by (vm_compute; reflexivity).
  destruct (@procesar_datos pandas_stable 0%nat (mundo en_el_limite abril_30))
    as [[out|] w'] eqn:Hrun; [|discriminate Hpre].
  apply bool_decide_eq_true_1 in Hpre.
  assert (valid abril_30) as Hvalid by (unfold valid, abril_30; simpl; lia).
  destruct (@atrasados_iff_antes_del_limite pandas_stable 0%nat
              (mundo en_el_limite abril_30) out w' stable_argsort_sorts
              Hvalid Hrun) as (Hd & Ht & Hym & Hm & Hday & Hlt & Hiff).
  assert (fecha_limite out = mk_datetime 2023 2 28 0 0 0 0) as Hlim.
  { destruct (fecha_limite out) as [y m d h mi s us]. simpl in *.
    injection Hlt as -> -> -> ->.
    assert (y = 2023) as -> by lia. assert (m = 2) as -> by lia.
    by rewrite Hday. }
  split.
  { destruct (fecha_actual out) as [y m d h mi s us]. simpl in *. congruence. }
  split; [exact Hlim|]. split; [exact Hpre|].
  rewrite Hlim, Hpre in Hiff.
  change (timestamp (mk_datetime 2023 2 28 0 0 0 0))
    with 1677542400000000000 in Hiff.
  split; [|split].
  - apply Hiff. split; [rewrite !elem_of_cons; tauto|]. done.
  - intros [_ Hlt']%Hiff. revert Hlt'. by vm_compute.
  - intros [_ Hlt']%Hiff. revert Hlt'. by vm_compute.
Defined.

(** C5. In every successful run each row of the stale table carries the
    action date of a row of the cleaned dataset with the same label, as it
    was parsed and not floored, and its age is a number [n] of whole days:
    the time from that date to 00:00:00 of the day of the clock reading is
    at least [n] days and less than [n + 1]; [n] is not negative. *)
Theorem antiguedad_en_dias `{Runtime} r w out w' :
  sorts argsort →
  valid (reloj w) →
  procesar_datos r w = (Some out, w') →
  ∀ f, f ∈ rows (procesos_atrasados out) →
    ∃ t n, at_col COL_FECHA f = Time t ∧
           (label f, Time t) ∈ fechas_de (df_limpio out w') ∧
           at_col COL_DIAS f = Num n ∧
           n * 86400000000000
             ≤ timestamp (mk_datetime (year (reloj w)) (month (reloj w))
                            (day (reloj w)) 0 0 0 0) - t
             < (n + 1) * 86400000000000 ∧
           0 ≤ n.
Proof.
  intros Hsorts Hvalid Hrun f Hf.
  apply (elem_of_atrasados r w out w' f Hsorts Hrun) in Hf
    as (r0 & t & Hr0 & Hdate & Hlt & ->).
  destruct (procesar_datos_Some _ _ _ _ Hrun)
    as (d & fechas & conv & act & Hd & _ & _ & _ & _ & Hlim & _ & _ & Ha & Hr & Hw).
  destruct Hvalid as (_ & Hmonth & [Hday _] & _).
  change (mk_datetime (year (reloj w)) (month (reloj w)) (day (reloj w)) 0 0 0 0)
    with (midnight (reloj w)).
  exists t, (days_between (timestamp (midnight (reloj w))) t).
  split; [|split; [|split; [|split]]].
  - rewrite at_col_fila_atrasada; [done| |done].
    unfold columnas_clave. rewrite !elem_of_cons. tauto.
  - apply list_elem_of_fmap. exists r0. by rewrite Hdate.
  - rewrite at_col_fila_atrasada_dias. unfold antiguedad. by rewrite Hdate, Ha.
  - unfold days_between, ns_per_day.
    change (86400 * 1000000000) with 86400000000000.
    pose proof (Z.mul_div_le (timestamp (midnight (reloj w)) - t)
                  86400000000000 ltac:(lia)).
    pose proof (Z.mul_succ_div_gt (timestamp (midnight (reloj w)) - t)
                  86400000000000 ltac:(lia)).
    lia.
  - apply days_between_nonneg.
    pose proof (sub_months_midnight _ _ Hmonth Hlim) as Hmid.
    pose proof (sub_months_2_toordinal (midnight (reloj w)) _ Hmonth Hday Hlim) as Hord.
    rewrite <- Hmid, timestamp_midnight in Hlt.
    apply floor_day_lt_multiple in Hlt.
    rewrite timestamp_midnight. unfold toordinal in *. simpl in *.
    unfold ns_per_day in *. nia.
Qed.

(** Scenario 1: the one stale row, dated 10 January 2023, is 81 days old on
    1 April 2023. *)
Lemma antiguedad_en_dias_witness :
  match @procesar_datos pandas_stable 0%nat (mundo escenario1 abril_1) with
  | (Some out, w') =>
      etiquetas (procesos_atrasados out) = [0%nat] ∧
      ∀ f, f ∈ rows (procesos_atrasados out) →
           at_col COL_FECHA f = Time 1673308800000000000 ∧
           at_col COL_DIAS f = Num 81
  | _ => False
  end.
Proof.
  assert ((if @procesar_datos pandas_stable 0%nat (mundo escenario1 abril_1)
           is (Some out, w')
           then bool_decide
                  (etiquetas (procesos_atrasados out) = [0%nat] ∧
                   fechas_de (df_limpio out w')
                   = [(0%nat, Time 1673308800000000000)])
           else false) = true) as Hpre by (vm_compute; reflexivity).
  destruct (@procesar_datos pandas_stable 0%nat (mundo escenario1 abril_1))
    as [[out|] w'] eqn:Hrun; [|discriminate Hpre].
  apply bool_decide_eq_true_1 in Hpre as [He Hl].
  split; [exact He|]. intros f Hf.
  destruct (@antiguedad_en_dias pandas_stable 0%nat (mundo escenario1 abril_1)
              out w' stable_argsort_sorts abril_1_valid Hrun f Hf)
    as (t & n & Hdate & Hin & Hage & Hn & _).
  rewrite Hl in Hin. apply list_elem_of_singleton in Hin. injection Hin as _ ->.
  split; [exact Hdate|]. rewrite Hage. f_equal.
  change (timestamp (mk_datetime (year (reloj (mundo escenario1 abril_1)))
                       (month (reloj (mundo escenario1 abril_1)))
                       (day (reloj (mundo escenario1 abril_1))) 0 0 0 0))
    with 1680307200000000000 in Hn.
  lia.
Defined.

(** ** The view by date *)

Lemma clasificado_descendente_rows `{Runtime} r w out w' :
  sorts argsort →
  procesar_datos r w = (Some out, w') →
  rows (df_clasificado_fecha out) ≡ₚ rows (df_limpio out w').
Proof.
  intros Hsorts Hrun.
  destruct (procesar_datos_Some _ _ _ _ Hrun)
    as (d & fechas & conv & act & Hd & _ & _ & _ & _ & _ & _ & Hc & _ & Hr & Hw).
  rewrite (df_limpio_Some r w out w' d conv Hd Hr Hw), Hc.
  apply (sort_values_desc argsort Hsorts COL_FECHA (limpio d conv)).
  intros f [t Ht]%limpio_fecha. rewrite Ht. by eexists.
Qed.

(** C3, as the code has it. In every successful run in which the sort
    kernel, called on the dates of the cleaned rows (in reverse, as a
    descending sort hands them over), returns positions that sort them, the
    classified view holds exactly the rows of the cleaned dataset, every one
    with a timestamp, in non-increasing order of action date.  The order
    among rows of equal date is the one the kernel leaves. *)
Theorem clasificado_descendente `{Runtime} r w out w' :
  procesar_datos r w = (Some out, w') →
  sorts_keys argsort (reverse (fechas_limpias out w')) →
  rows (df_clasificado_fecha out) ≡ₚ rows (df_limpio out w') ∧
  (∀ f, f ∈ rows (df_clasificado_fecha out) →
        at_col COL_FECHA f = Time (clave COL_FECHA f)) ∧
  StronglySorted (λ f1 f2, clave COL_FECHA f2 ≤ clave COL_FECHA f1)
    (rows (df_clasificado_fecha out)).
Proof.
  intros Hrun. unfold fechas_limpias.
  destruct (procesar_datos_Some _ _ _ _ Hrun)
    as (d & fechas & conv & act & Hd & _ & _ & _ & _ & _ & _ & Hc & _ & Hr & Hw).
  rewrite (df_limpio_Some r w out w' d conv Hd Hr Hw), Hc. intros Hsorts.
  destruct (sort_values_desc_keys argsort COL_FECHA (limpio d conv) Hsorts)
    as [Hp Hs].
  { intros f [t Ht]%limpio_fecha. rewrite Ht. by eexists. }
  split; [done|]. split.
  - intros f Hf. rewrite Hp in Hf. apply limpio_fecha in Hf as [t Ht].
    unfold clave. by rewrite Ht.
  - apply Sorted_StronglySorted; [|done]. intros f1 f2 f3 ??. lia.
Qed.

(** Five rows uploaded in no order, under the default kernel: the view
    comes out as labels 2, 0, 4, 1, from 25 March back to 5 November. *)
Lemma clasificado_descendente_witness :
  match @procesar_datos pandas_default 0%nat (mundo varias_fechas abril_1) with
  | (Some out, w') =>
      fechas_de (df_limpio out w')
      = [(0%nat, Time 1674172800000000000); (1%nat, Time 1667606400000000000);
         (2%nat, Time 1679702400000000000); (4%nat, Time 1672444800000000000)] ∧
      fechas_de (df_clasificado_fecha out)
      = [(2%nat, Time 1679702400000000000); (0%nat, Time 1674172800000000000);
         (4%nat, Time 1672444800000000000); (1%nat, Time 1667606400000000000)] ∧
      rows (df_clasificado_fecha out) ≡ₚ rows (df_limpio out w') ∧
      (∀ f, f ∈ rows (df_clasificado_fecha out) →
            at_col COL_FECHA f = Time (clave COL_FECHA f)) ∧
      StronglySorted (λ f1 f2, clave COL_FECHA f2 ≤ clave COL_FECHA f1)
        (rows (df_clasificado_fecha out))
  | _ => False
  end.
Proof.
  assert ((if @procesar_datos pandas_default 0%nat (mundo varias_fechas abril_1)
           is (Some out, w')
           then bool_decide
                  (sorts_keys Numpy.aquicksort (reverse (fechas_limpias out w')) ∧
                   fechas_de (df_limpio out w')
                   = [(0%nat, Time 1674172800000000000);
                      (1%nat, Time 1667606400000000000);
                      (2%nat, Time 1679702400000000000);
                      (4%nat, Time 1672444800000000000)] ∧
                   fechas_de (df_clasificado_fecha out)
                   = [(2%nat, Time 1679702400000000000);
                      (0%nat, Time 1674172800000000000);
                      (4%nat, Time 1672444800000000000);
                      (1%nat, Time 1667606400000000000)])
           else false) = true) as Hpre by (vm_compute; reflexivity).
  destruct (@procesar_datos pandas_default 0%nat (mundo varias_fechas abril_1))
    as [[out|] w'] eqn:Hrun; [|discriminate Hpre].
  apply bool_decide_eq_true_1 in Hpre as (Hsorts & Hl & Hc).
  split; [exact Hl|]. split; [exact Hc|].
  exact (@clasificado_descendente pandas_default 0%nat
           (mundo varias_fechas abril_1) out w' Hrun Hsorts).
Defined.

(** C3 as stated fails under the default sort kind: of eighteen rows with
    one and the same action date, the classified view does not keep the order
    they have in the cleaned dataset. *)
Lemma orden_de_empates_no_conservado :
  ∃ out w',
    @procesar_datos pandas_default 0%nat (mundo empate18 abril_1) = (Some out, w') ∧
    ∃ t, con_fecha t (df_clasificado_fecha out) ≠ con_fecha t (df_limpio out w').
Proof.
  assert ((if @procesar_datos pandas_default 0%nat (mundo empate18 abril_1)
             is (Some o, w')
           then (label <$> con_fecha (Time 1673308800000000000) (df_clasificado_fecha o),
                 label <$> con_fecha (Time 1673308800000000000) (df_limpio o w'))
           else ([], []))
          = ([0; 1; 16; 15; 14; 13; 12; 11; 10; 9; 8; 7; 6; 5; 4; 3; 2; 17]%nat,
             seq 0 18)) as Hlabels.
  { vm_compute. reflexivity. }
  revert Hlabels.
  destruct (@procesar_datos pandas_default 0%nat (mundo empate18 abril_1))
    as [[o|] w']; [|discriminate].
  intros Hlabels. exists o, w'. split; [done|]. exists (Time 1673308800000000000).
  intros Heq. rewrite Heq in Hlabels. injection Hlabels as Hl Hl'.
  rewrite Hl' in Hl. discriminate Hl.
Qed.

(** ** The clock and the argument *)

Section effects.
Context `{Runtime}.

Lemma cuerpo_midnight r ahora d : cuerpo r ahora d = cuerpo r (midnight ahora) d.
Proof. by rewrite !cuerpo_unfold. Qed.

(** Whatever the outcome, a run touches no frame but its argument, reads
    the clock without moving it, and only adds to the page. *)
Lemma procesar_datos_frame r w :
  ∃ d' emitted,
    heap (procesar_datos r w).2 = <[r := d']> (heap w) ∧
    reloj (procesar_datos r w).2 = reloj w ∧
    pantalla (procesar_datos r w).2 = pantalla w ++ emitted.
Proof.
  unfold procesar_datos. destruct (heap w !! r) as [d|] eqn:Hd.
  - destruct (cuerpo r (reloj w) d) as [[e|out] d']; [destruct e|]; simpl;
      eexists d', _; (split; [done|split; [done|]]);
      first [done | by rewrite app_nil_r].
  - exists empty_frame, []. simpl. rewrite app_nil_r. split; [|done].
    symmetry. apply list_insert_ge. by apply lookup_ge_None.
Qed.

End effects.

(** C4 as stated fails: the clock is not a parameter.  The same call on the
    same frame gives other results a day later. *)
Lemma salida_depende_del_reloj :
  heap (mundo escenario1 abril_1) = heap (mundo escenario1 abril_2) ∧
  (@procesar_datos pandas_default 0%nat (mundo escenario1 abril_1)).1
  ≠ (@procesar_datos pandas_default 0%nat (mundo escenario1 abril_2)).1.
Proof.
  split; [reflexivity|]. intros Heq.
  apply (f_equal (fmap fecha_actual)) in Heq. vm_compute in Heq. discriminate Heq.
Qed.

(** C4, as the code has it. [procesar_datos] takes the frame only and reads
    the clock itself; what it returns, what it leaves in the frame and what
    it reports on the page are determined by the content of the frame and
    the calendar day of that reading. *)
Theorem salida_determinada_por_el_dia `{Runtime} r w1 w2 :
  heap w1 !! r = heap w2 !! r →
  midnight (reloj w1) = midnight (reloj w2) →
  (procesar_datos r w1).1 = (procesar_datos r w2).1 ∧
  heap (procesar_datos r w1).2 !! r = heap (procesar_datos r w2).2 !! r ∧
  ∃ emitted,
    pantalla (procesar_datos r w1).2 = pantalla w1 ++ emitted ∧
    pantalla (procesar_datos r w2).2 = pantalla w2 ++ emitted.
Proof.
  intros Hheap Hday. unfold procesar_datos. rewrite <- Hheap.
  destruct (heap w1 !! r) as [d|] eqn:Hd.
  - rewrite (cuerpo_midnight r (reloj w1)), (cuerpo_midnight r (reloj w2)), Hday.
    assert (r < length (heap w1))%nat by by eapply lookup_lt_Some.
    assert (r < length (heap w2))%nat by (by apply (lookup_lt_Some (heap w2) r d)).
    destruct (cuerpo r (midnight (reloj w2)) d) as [[e|out] d']; [destruct e|]; simpl;
      rewrite !list_lookup_insert_eq by done;
      (split; [done|split; [done|]]); eexists; split; try done;
      by rewrite !app_nil_r.
  - simpl. split; [done|split; [congruence|]].
    exists []. by rewrite !app_nil_r.
Qed.

Lemma salida_determinada_por_el_dia_witness :
  (@procesar_datos pandas_default 0%nat (mundo escenario1 abril_1)).1
  = (@procesar_datos pandas_default 0%nat (mundo escenario1 abril_1_tarde)).1.
Proof.
  exact (proj1 (@salida_determinada_por_el_dia pandas_default 0%nat
                  (mundo escenario1 abril_1) (mundo escenario1 abril_1_tarde)
                  eq_refl eq_refl)).
Defined.

(** C6 as stated fails: the frame passed to [procesar_datos] is cleaned in
    place, and after the call it has lost the row without a date. *)
Lemma procesar_datos_modifica_su_argumento :
  heap (mundo escenario1 abril_1) !! 0%nat = Some escenario1 ∧
  heap (@procesar_datos pandas_default 0%nat (mundo escenario1 abril_1)).2 !! 0%nat
  ≠ Some escenario1.
Proof.
  split; [reflexivity|]. intros Heq.
  apply (f_equal (fmap (length ∘ rows))) in Heq. vm_compute in Heq. discriminate Heq.
Qed.

(** C6, as the code has it. The working copy is taken by the caller: the
    shell hands [procesar_datos] a copy of the uploaded frame, the run cleans
    that copy in place and returns it as the cleaned dataset, and the
    uploaded frame and every other frame alive before the call are as they
    were. *)
Theorem copia_protege_el_original `{Runtime} df_original w d :
  heap w !! df_original = Some d →
  heap (procesar_copia df_original w).2 !! df_original = Some d ∧
  (∀ r, (r < length (heap w))%nat →
        heap (procesar_copia df_original w).2 !! r = heap w !! r) ∧
  (∀ out, (procesar_copia df_original w).1 = Some out →
          df_completo out = length (heap w) ∧ df_completo out ≠ df_original).
Proof.
  intros Hd. unfold procesar_copia, copy. rewrite Hd.
  set (w1 := {| heap := heap w ++ [d]; reloj := reloj w; pantalla := pantalla w |}).
  assert (df_original < length (heap w))%nat as Hlt by by eapply lookup_lt_Some.
  assert (∀ r, (r < length (heap w))%nat →
               heap (procesar_datos (length (heap w)) w1).2 !! r = heap w !! r)
    as Hkeep.
  { intros r Hr.
    destruct (procesar_datos_frame (length (heap w)) w1) as (d' & em & -> & _).
    rewrite list_lookup_insert_ne by lia. simpl. by apply lookup_app_l. }
  split; [by rewrite Hkeep|]. split; [done|].
  intros out Hout.
  destruct (procesar_datos (length (heap w)) w1) as [res w'] eqn:Hrun.
  simpl in Hout. subst res.
  destruct (procesar_datos_Some _ _ _ _ Hrun)
    as (? & ? & ? & ? & _ & _ & _ & _ & _ & _ & _ & _ & _ & Hr & _).
  rewrite Hr. split; [done|lia].
Qed.

Lemma copia_protege_el_original_witness :
  heap (@procesar_copia pandas_default 0%nat (mundo escenario1 abril_1)).2 !! 0%nat
  = Some escenario1.
Proof.
  exact (proj1 (@copia_protege_el_original pandas_default 0%nat
                  (mundo escenario1 abril_1) escenario1 eq_refl)).
Defined.

(** ** Python's order and [list.sort()] *)

Section python_order.

Lemma string_compare_trans s1 s2 s3 :
  String.compare s1 s2 = Lt → String.compare s2 s3 = Lt →
  String.compare s1 s3 = Lt.
Proof.
  revert s2 s3. induction s1 as [|a s1 IH]; intros [|b s2] [|c s3]; simpl;
    try done.
  unfold Ascii.compare.
  destruct (N.compare_spec (N_of_ascii a) (N_of_ascii b)) as [Hab|Hab|Hab];
    destruct (N.compare_spec (N_of_ascii b) (N_of_ascii c)) as [Hbc|Hbc|Hbc];
    try done; intros H12 H23.
  - rewrite Hab, Hbc, N.compare_refl. eauto.
  - rewrite Hab. by apply N.compare_lt_iff in Hbc as ->.
  - rewrite <- Hbc. by apply N.compare_lt_iff in Hab as ->.
  - assert (N_of_ascii a < N_of_ascii c)%N as Hac by lia.
    by apply N.compare_lt_iff in Hac as ->.
Qed.

Lemma string_ltb_trans s1 s2 s3 :
  String.ltb s1 s2 = true → String.ltb s2 s3 = true → String.ltb s1 s3 = true.
Proof.
  unfold String.ltb. intros H12 H23.
  destruct (String.compare s1 s2) eqn:E12; try done.
  destruct (String.compare s2 s3) eqn:E23; try done.
  by rewrite (string_compare_trans _ _ _ E12 E23).
Qed.

Lemma string_ltb_total s1 s2 :
  String.ltb s1 s2 = false → s1 ≠ s2 → String.ltb s2 s1 = true.
Proof.
  unfold String.ltb. rewrite (String.compare_antisym s2 s1).
  destruct (String.compare s1 s2) eqn:E; try done.
  by apply String.compare_eq_iff in E.
Qed.

Lemma lt_trans a b c :
  Py.lt a b = inr true → Py.lt b c = inr true → Py.lt a c = inr true.
Proof.
  destruct a, b, c; simpl; try done; intros [= Hab] [= Hbc]; f_equal.
  - by eapply string_ltb_trans.
  - apply Z.ltb_lt in Hab, Hbc. apply Z.ltb_lt. lia.
  - apply Z.ltb_lt in Hab, Hbc. apply Z.ltb_lt. lia.
Qed.

Lemma lt_total a b :
  Py.lt a b = inr false → a ≠ b → isna a = false → isna b = false →
  Py.lt b a = inr true.
Proof.
  destruct a, b; simpl; try done; intros [= Hab] Hne _ _; f_equal.
  - apply string_ltb_total; [done|congruence].
  - apply Z.ltb_ge in Hab. apply Z.ltb_lt.
    assert (z ≠ z0) by congruence. lia.
  - apply Z.ltb_ge in Hab. apply Z.ltb_lt.
    assert (t ≠ t0) by congruence. lia.
Qed.

Lemma lt_irrefl a : Py.lt a a ≠ inr true.
Proof.
  destruct a; simpl; try done; intros [= Hlt].
  - unfold String.ltb in Hlt.
    destruct (String.compare s s) eqn:E; try done.
    pose proof (String.compare_antisym s s) as Ha. rewrite E in Ha. done.
  - apply Z.ltb_lt in Hlt. lia.
  - apply Z.ltb_lt in Hlt. lia.
Qed.

(** Earlier elements of the reversed prefix are the greater ones. *)
Let gt (a b : cell) : Prop := Py.lt b a = inr true.

Lemma insert_from_right_perm x rp r :
  insert_from_right x rp = inr r → r ≡ₚ x :: rp.
Proof.
  revert r. induction rp as [|y rp IH]; intros r; simpl.
  - by intros [= <-].
  - destruct (Py.lt x y) as [e|[]]; simpl; try done.
    + destruct (insert_from_right x rp) as [e|r']; simpl; [done|].
      intros [= <-]. rewrite (IH r' eq_refl). apply Permutation_swap.
    + by intros [= <-].
Qed.

Lemma insert_from_right_sorted x rp r :
  insert_from_right x rp = inr r →
  x ∉ rp → isna x = false → Forall (λ y, isna y = false) rp →
  StronglySorted gt rp → StronglySorted gt r.
Proof.
  revert r. induction rp as [|y rp IH]; intros r; simpl.
  - intros [= <-] _ _ _ _. repeat constructor.
  - intros Hr Hnotin Hx Hna Hs.
    apply not_elem_of_cons in Hnotin as [Hxy Hnotin].
    apply Forall_cons in Hna as [Hy Hna].
    apply StronglySorted_inv in Hs as [Hs Hall].
    destruct (Py.lt x y) as [e|[]] eqn:Hlt; simpl in Hr; try done.
    + destruct (insert_from_right x rp) as [e|r'] eqn:Hins; simpl in Hr; [done|].
      injection Hr as <-. constructor; [by apply IH|].
      rewrite (insert_from_right_perm _ _ _ Hins). by constructor.
    + injection Hr as <-.
      assert (gt x y) as Hgt by by apply lt_total.
      constructor; [by constructor|]. constructor; [done|].
      eapply Forall_impl; [exact Hall|]. intros z Hz. by eapply lt_trans.
Qed.

Lemma sort_onto_perm rp l r : sort_onto rp l = inr r → r ≡ₚ rp ++ l.
Proof.
  revert rp. induction l as [|x l IH]; intros rp; simpl.
  - intros [= <-]. by rewrite reverse_Permutation, app_nil_r.
  - destruct (insert_from_right x rp) as [e|rp'] eqn:Hins; simpl; [done|].
    intros Hr. rewrite (IH _ Hr), (insert_from_right_perm _ _ _ Hins).
    simpl. apply Permutation_middle.
Qed.

Lemma StronglySorted_reverse {A} (R : relation A) (l : list A) :
  StronglySorted R l → StronglySorted (flip R) (reverse l).
Proof.
  induction 1 as [|x l Hs IH Hall]; [constructor|].
  rewrite reverse_cons. apply StronglySorted_app; repeat split; try done.
  - intros y z Hy ->%list_elem_of_singleton.
    rewrite elem_of_reverse in Hy. rewrite Forall_forall in Hall.
    unfold flip. by apply Hall.
  - repeat constructor.
Qed.

Lemma sort_onto_sorted rp l r :
  sort_onto rp l = inr r →
  NoDup (rp ++ l) → Forall (λ y, isna y = false) (rp ++ l) →
  StronglySorted gt rp →
  StronglySorted (λ a b, Py.lt a b = inr true) r.
Proof.
  revert rp. induction l as [|x l IH]; intros rp; simpl.
  - intros [= <-] _ _ Hs. by apply (StronglySorted_reverse gt).
  - destruct (insert_from_right x rp) as [e|rp'] eqn:Hins; simpl; [done|].
    intros Hr Hnd Hna Hs.
    pose proof (insert_from_right_perm _ _ _ Hins) as Hp.
    assert (rp' ++ l ≡ₚ rp ++ x :: l) as Hp'.
    { rewrite Hp. simpl. apply Permutation_middle. }
    apply (IH rp' Hr).
    + by rewrite Hp'.
    + by rewrite Hp'.
    + apply Forall_app in Hna as [Hna1 [Hx _]%Forall_cons].
      eapply insert_from_right_sorted; [done| |done..].
      apply NoDup_app in Hnd as (_ & Hnd & _).
      intros Hin. apply (Hnd x Hin). by left.
Qed.

Lemma list_sort_perm l r : list_sort l = inr r → r ≡ₚ l.
Proof. apply sort_onto_perm. Qed.

Lemma list_sort_sorted l r :
  list_sort l = inr r →
  NoDup l → Forall (λ y, isna y = false) l →
  StronglySorted (λ a b, Py.lt a b = inr true) r.
Proof. intros Hr Hnd Hna. apply (sort_onto_sorted [] l r); by try constructor. Qed.

End python_order.

Section unique_facts.

Lemma elem_of_unique_onto seen l x :
  x ∈ unique_onto seen l ↔ x ∈ l ∧ x ∉ seen.
Proof.
  revert seen. induction l as [|y l IH]; intros seen; simpl.
  - rewrite elem_of_nil. naive_solver.
  - case_decide as Hy.
    + rewrite IH, elem_of_cons. naive_solver.
    + rewrite !elem_of_cons, IH, not_elem_of_cons.
      destruct (decide (x = y)) as [->|]; naive_solver.
Qed.

Lemma NoDup_unique_onto seen l : NoDup (unique_onto seen l).
Proof.
  revert seen. induction l as [|y l IH]; intros seen; simpl; [constructor|].
  case_decide; [done|]. constructor; [|done].
  rewrite elem_of_unique_onto, not_elem_of_cons. naive_solver.
Qed.

Lemma elem_of_unique l x : x ∈ unique l ↔ x ∈ l.
Proof.
  unfold unique. rewrite elem_of_unique_onto, elem_of_nil. naive_solver.
Qed.

Lemma NoDup_unique l : NoDup (unique l).
Proof. apply NoDup_unique_onto. Qed.

End unique_facts.

(** ** The list of actions *)

Section labels.
Context `{Runtime}.

Lemma elem_of_values c d ser x :
  getitem c d = inr ser → x ∈ values ser ↔ ∃ f, f ∈ rows d ∧ at_col c f = x.
Proof.
  unfold getitem. destruct (columns d !! c); [|done]. intros [= <-]. simpl.
  rewrite list_elem_of_fmap. naive_solver.
Qed.

End labels.

Lemma lista_actuaciones_rows `{Runtime} r w out w' x :
  procesar_datos r w = (Some out, w') →
  x ∈ lista_actuaciones out ↔
  ∃ f, f ∈ rows (df_limpio out w') ∧ at_col COL_ACTUACION f = x.
Proof.
  intros Hrun.
  destruct (procesar_datos_Some _ _ _ _ Hrun)
    as (d & fechas & conv & act & Hd & _ & _ & Hact & Hsort & _ & _ & _ & _ & Hr & Hw).
  rewrite (df_limpio_Some r w out w' d conv Hd Hr Hw).
  by rewrite (list_sort_perm _ _ Hsort), elem_of_unique,
    (elem_of_values _ _ _ _ Hact).
Qed.

(** C8. The list of actions is not always sorted: with numeric action
    codes 2, blank and 1 in three dated rows the run succeeds and the list
    comes out with the larger code before the smaller one, [sort()] having
    left it as [unique()] gave it. *)
Lemma lista_actuaciones_desordenada :
  ∃ out w',
    @procesar_datos pandas_default 0%nat (mundo codigos abril_1) = (Some out, w') ∧
    ∃ i j a b, (i < j)%nat ∧ lista_actuaciones out !! i = Some a ∧
               lista_actuaciones out !! j = Some b ∧ Py.lt b a = inr true.
Proof.
  assert ((if @procesar_datos pandas_default 0%nat (mundo codigos abril_1)
             is (Some o, _) then lista_actuaciones o else [])
          = [Num 2; NaN; Num 1]) as Hlista by (vm_compute; reflexivity).
  revert Hlista.
  destruct (@procesar_datos pandas_default 0%nat (mundo codigos abril_1))
    as [[o|] w']; [|discriminate].
  intros Hlista. exists o, w'. split; [done|].
  exists 0%nat, 2%nat, (Num 2), (Num 1). rewrite Hlista.
  split; [lia|]. by split; [|split].
Qed.

(** X22. In every successful run the list of actions has no duplicates and
    holds exactly the action values of the rows of the cleaned dataset; when
    none of those values is missing it is in strictly ascending order, the
    lexicographic one on text. *)
Theorem lista_actuaciones_distintas `{Runtime} r w out w' :
  procesar_datos r w = (Some out, w') →
  NoDup (lista_actuaciones out) ∧
  (∀ x, x ∈ lista_actuaciones out ↔
        ∃ f, f ∈ rows (df_limpio out w') ∧ at_col COL_ACTUACION f = x) ∧
  ((∀ f, f ∈ rows (df_limpio out w') → isna (at_col COL_ACTUACION f) = false) →
   StronglySorted (λ a b, Py.lt a b = inr true) (lista_actuaciones out)) ∧
  (∀ s1 s2, Py.lt (Str s1) (Str s2) = inr true ↔ String.compare s1 s2 = Lt).
Proof.
  intros Hrun.
  destruct (procesar_datos_Some _ _ _ _ Hrun)
    as (d & fechas & conv & act & Hd & _ & _ & Hact & Hsort & _ & _ & _ & _ & Hr & Hw).
  rewrite (df_limpio_Some r w out w' d conv Hd Hr Hw).
  pose proof (list_sort_perm _ _ Hsort) as Hp.
  split; [|split; [|split]].
  - rewrite Hp. apply NoDup_unique.
  - intros x. rewrite <- (df_limpio_Some r w out w' d conv Hd Hr Hw).
    exact (lista_actuaciones_rows r w out w' x Hrun).
  - intros Hna. apply (list_sort_sorted _ _ Hsort); [apply NoDup_unique|].
    apply Forall_forall. intros x.
    rewrite elem_of_unique, (elem_of_values _ _ _ _ Hact).
    intros (f & Hf & <-). by apply Hna.
  - intros s1 s2. simpl. unfold String.ltb.
    destruct (String.compare s1 s2); naive_solver.
Qed.

(** Five rows whose dated ones carry Sentencia, Auto, Sentencia and Archivo:
    the list is Archivo, Auto, Sentencia, and the action of the row without
    a date is not in it. *)
Lemma lista_actuaciones_distintas_witness :
  match @procesar_datos pandas_default 0%nat (mundo varias_fechas abril_1) with
  | (Some out, w') =>
      lista_actuaciones out = [Str "Archivo"; Str "Auto"; Str "Sentencia"] ∧
      NoDup (lista_actuaciones out) ∧
      (∀ x, x ∈ lista_actuaciones out ↔
            ∃ f, f ∈ rows (df_limpio out w') ∧ at_col COL_ACTUACION f = x) ∧
      StronglySorted (λ a b, Py.lt a b = inr true) (lista_actuaciones out)
  | _ => False
  end.
Proof.
  assert ((if @procesar_datos pandas_default 0%nat (mundo varias_fechas abril_1)
           is (Some out, w')
           then bool_decide
                  (lista_actuaciones out
                   = [Str "Archivo"; Str "Auto"; Str "Sentencia"] ∧
                   Forall (λ f, isna (at_col COL_ACTUACION f) = false)
                     (rows (df_limpio out w')))
           else false) = true) as Hpre by (vm_compute; reflexivity).
  destruct (@procesar_datos pandas_default 0%nat (mundo varias_fechas abril_1))
    as [[out|] w'] eqn:Hrun; [|discriminate Hpre].
  apply bool_decide_eq_true_1 in Hpre as [Hl Hna].
  destruct (@lista_actuaciones_distintas pandas_default 0%nat
              (mundo varias_fechas abril_1) out w' Hrun)
    as (Hnd & Hin & Hs & _).
  split; [exact Hl|]. split; [exact Hnd|]. split; [exact Hin|].
  apply Hs. by apply Forall_forall.
Defined.

(** ** Case identifiers *)

Section quotes.

Lemma has_quote_remove_quotes s : has_quote (remove_quotes s) = false.
Proof.
  induction s as [|a s IH]; simpl; [done|].
  destruct (Ascii.eqb a "'") eqn:Ha; simpl; [done|]. by rewrite Ha.
Qed.

Lemma remove_quotes_id s : has_quote s = false → remove_quotes s = s.
Proof.
  induction s as [|a s IH]; simpl; [done|].
  destruct (Ascii.eqb a "'"); simpl; [done|]. intros Hs. by rewrite IH.
Qed.

End quotes.

Section case_ids.
Context `{Runtime}.

(** Where the case identifier of a row of the cleaned frame comes from. *)
Lemma caso_limpio d conv f :
  f ∈ rows (limpio d conv) →
  ∃ f0, f0 ∈ rows d ∧ label f0 = label f ∧
        at_col COL_CASO f =
        if bool_decide (columns d !! COL_CASO = Some object)
        then Str (remove_quotes (str (at_col COL_CASO f0)))
        else at_col COL_CASO f0.
Proof.
  intros (p & f1 & t & Hf1 & _ & ->)%elem_of_limpio.
  apply list_elem_of_lookup_2 in Hf1. rewrite rows_paso_caso in Hf1.
  unfold fila_fechada. rewrite at_col_insert_ne by done. simpl.
  case_bool_decide.
  - apply list_elem_of_fmap in Hf1 as (f0 & -> & Hf0). exists f0.
    by rewrite at_col_insert_eq.
  - by exists f1.
Qed.

End case_ids.

(** C9. On pandas 3 [read_csv] holds the case column under the dtype [str];
    the test [dtype == 'object'] of line 24 is false for it, the stripping
    of line 25 is skipped, and the run succeeds with the case identifier
    ['123'], quotes and all, in the cleaned frame, in the classified view and
    in the stale table. *)
Theorem numero_noticia_con_comillas :
  columns escenario1_str !! COL_CASO = Some str_dtype ∧
  at_col COL_CASO <$> rows escenario1_str = [Str "'123'"; Str "456"] ∧
  ∃ out w',
    @procesar_datos pandas_default 0%nat (mundo escenario1_str abril_1)
    = (Some out, w') ∧
    pantalla w' = [] ∧
    at_col COL_CASO <$> rows (df_limpio out w') = [Str "'123'"] ∧
    at_col COL_CASO <$> rows (df_clasificado_fecha out) = [Str "'123'"] ∧
    at_col COL_CASO <$> rows (procesos_atrasados out) = [Str "'123'"] ∧
    has_quote "'123'" = true.
Proof.
  split; [reflexivity|]. split; [reflexivity|].
  assert ((if @procesar_datos pandas_default 0%nat (mundo escenario1_str abril_1)
           is (Some out, w')
           then bool_decide
                  (pantalla w' = [] ∧
                   at_col COL_CASO <$> rows (df_limpio out w') = [Str "'123'"] ∧
                   at_col COL_CASO <$> rows (df_clasificado_fecha out)
                   = [Str "'123'"] ∧
                   at_col COL_CASO <$> rows (procesos_atrasados out)
                   = [Str "'123'"])
           else false) = true) as Hpre by (vm_compute; reflexivity).
  destruct (@procesar_datos pandas_default 0%nat (mundo escenario1_str abril_1))
    as [[out|] w']; [|discriminate Hpre].
  apply bool_decide_eq_true_1 in Hpre as (Hp & Hl & Hc & Ha).
  exists out, w'. by repeat split.
Qed.

(** X23. When the case column has the dtype [object], the test of line 24
    passes and the quotes go: in every successful run no textual case
    identifier of the cleaned frame, of the classified view or of the stale
    table holds a single quote, and the identifier of a cleaned row whose
    uploaded identifier is a text is that text with its single quotes taken
    out. *)
Theorem comillas_quitadas_en_objeto `{Runtime} r w d out w' :
  sorts argsort →
  heap w !! r = Some d →
  columns d !! COL_CASO = Some object →
  procesar_datos r w = (Some out, w') →
  (∀ f s, f ∈ rows (df_limpio out w') ∨ f ∈ rows (df_clasificado_fecha out)
          ∨ f ∈ rows (procesos_atrasados out) →
          at_col COL_CASO f = Str s → has_quote s = false) ∧
  (∀ f, f ∈ rows (df_limpio out w') →
        ∃ f0, f0 ∈ rows d ∧ label f0 = label f ∧
              ∀ s0, at_col COL_CASO f0 = Str s0 →
                    at_col COL_CASO f = Str (remove_quotes s0)).
Proof.
  intros Hsorts Hd Hobj Hrun.
  destruct (procesar_datos_Some _ _ _ _ Hrun)
    as (d0 & fechas & conv & act & Hd0 & _ & _ & _ & _ & _ & _ & _ & _ & Hr & Hw).
  assert (d0 = d) as -> by congruence.
  pose proof (df_limpio_Some r w out w' d conv Hd Hr Hw) as Hlimpio.
  assert (∀ f s, f ∈ rows (df_limpio out w') →
                 at_col COL_CASO f = Str s → has_quote s = false) as Hclean.
  { intros f s Hf Hs. rewrite Hlimpio in Hf.
    destruct (caso_limpio d conv f Hf) as (f0 & Hf0 & _ & Hcaso).
    rewrite Hs, bool_decide_eq_true_2 in Hcaso by done.
    injection Hcaso as ->. apply has_quote_remove_quotes. }
  split.
  - intros f s [Hf|[Hf|Hf]] Hs.
    + by eapply Hclean.
    + rewrite (clasificado_descendente_rows r w out w' Hsorts Hrun) in Hf.
      by eapply Hclean.
    + apply (elem_of_atrasados r w out w' f Hsorts Hrun) in Hf
        as (f0 & t & Hf0 & _ & _ & ->).
      rewrite at_col_fila_atrasada in Hs; [by eapply Hclean| |done].
      unfold columnas_clave. rewrite !elem_of_cons. tauto.
  - intros f Hf. rewrite Hlimpio in Hf.
    destruct (caso_limpio d conv f Hf) as (f0 & Hf0 & Hl & Hcaso).
    rewrite bool_decide_eq_true_2 in Hcaso by done.
    exists f0. split; [done|]. split; [done|]. intros s0 Hs0.
    by rewrite Hcaso, Hs0.
Qed.

(** Identifiers uploaded as ['301'], [302], [30'3] and [305] in dated rows
    come out as [301], [302], [303] and [305]. *)
Lemma comillas_quitadas_en_objeto_witness :
  match @procesar_datos pandas_stable 0%nat (mundo varias_fechas abril_1) with
  | (Some out, w') =>
      at_col COL_CASO <$> rows (df_limpio out w')
      = [Str "301"; Str "302"; Str "303"; Str "305"] ∧
      ∀ f s, f ∈ rows (df_limpio out w') ∨ f ∈ rows (df_clasificado_fecha out)
             ∨ f ∈ rows (procesos_atrasados out) →
             at_col COL_CASO f = Str s → has_quote s = false
  | _ => False
  end.
Proof.
  assert ((if @procesar_datos pandas_stable 0%nat (mundo varias_fechas abril_1)
           is (Some out, w')
           then bool_decide
                  (at_col COL_CASO <$> rows (df_limpio out w')
                   = [Str "301"; Str "302"; Str "303"; Str "305"])
           else false) = true) as Hpre by (vm_compute; reflexivity).
  destruct (@procesar_datos pandas_stable 0%nat (mundo varias_fechas abril_1))
    as [[out|] w'] eqn:Hrun; [|discriminate Hpre].
  apply bool_decide_eq_true_1 in Hpre.
  split; [exact Hpre|].
  exact (proj1 (@comillas_quitadas_en_objeto pandas_stable 0%nat
                  (mundo varias_fechas abril_1) varias_fechas out w'
                  stable_argsort_sorts eq_refl eq_refl Hrun)).
Defined.

(** ** Failures *)

Section sort_failures.

Lemma lt_inr a b v : Py.lt a b = inr v → kind a = kind b.
Proof. by destruct a, b. Qed.

Lemma lt_inl a b e : Py.lt a b = inl e → e = TypeError.
Proof. destruct a, b; simpl; congruence. Qed.

Lemma insert_from_right_inl x rp e :
  insert_from_right x rp = inl e → e = TypeError.
Proof.
  induction rp as [|y rp IH]; simpl; [done|].
  destruct (Py.lt x y) as [e'|[]] eqn:Hlt; simpl.
  - intros [= <-]. by eapply lt_inl.
  - destruct (insert_from_right x rp); simpl; [|done]. intros [= <-]. by apply IH.
  - done.
Qed.

Lemma insert_from_right_kind x rp r k :
  insert_from_right x rp = inr r →
  Forall (λ y, kind y = k) rp → rp ≠ [] → kind x = k.
Proof.
  destruct rp as [|y rp]; [done|]. simpl.
  intros Hr [Hy _]%Forall_cons _.
  destruct (Py.lt x y) as [e|v] eqn:Hlt; [done|].
  apply lt_inr in Hlt. congruence.
Qed.

Lemma sort_onto_inl rp l e : sort_onto rp l = inl e → e = TypeError.
Proof.
  revert rp. induction l as [|x l IH]; intros rp; simpl; [done|].
  destruct (insert_from_right x rp) as [e'|rp'] eqn:Hins; simpl.
  - intros [= <-]. by eapply insert_from_right_inl.
  - apply IH.
Qed.

Lemma sort_onto_kind rp l r k :
  sort_onto rp l = inr r →
  Forall (λ y, kind y = k) rp → rp ≠ [] → Forall (λ y, kind y = k) l.
Proof.
  revert rp. induction l as [|x l IH]; intros rp; simpl; [constructor|].
  destruct (insert_from_right x rp) as [e'|rp'] eqn:Hins; simpl; [done|].
  intros Hr Hrp Hne.
  pose proof (insert_from_right_kind _ _ _ _ Hins Hrp Hne) as Hx.
  pose proof (insert_from_right_perm _ _ _ Hins) as Hp.
  constructor; [done|]. apply (IH rp' Hr).
  - rewrite Hp. by constructor.
  - intros ->. by apply Permutation_nil_cons in Hp.
Qed.

(** A list that sorts holds values of one kind. *)
Lemma list_sort_kind l r a b :
  list_sort l = inr r → a ∈ l → b ∈ l → kind a = kind b.
Proof.
  unfold list_sort. destruct l as [|x l]; [by intros _ ?%elem_of_nil|].
  simpl. intros Hr Ha Hb.
  assert (Forall (λ y, kind y = kind x) l) as Hall.
  { by apply (sort_onto_kind [x] l r (kind x) Hr); [repeat constructor|]. }
  rewrite Forall_forall in Hall.
  assert (∀ c, c ∈ x :: l → kind c = kind x) as Hk.
  { intros c [->|Hc]%elem_of_cons; [done|by apply Hall]. }
  by rewrite (Hk a Ha), (Hk b Hb).
Qed.

(** Text and a missing value in one list: [sort()] raises [TypeError]. *)
Lemma list_sort_mixed l s :
  Str s ∈ l → NaN ∈ l → list_sort l = inl TypeError.
Proof.
  intros Hs Hn. destruct (list_sort l) as [e|r] eqn:Hr.
  - f_equal. by eapply sort_onto_inl.
  - by pose proof (list_sort_kind l r _ _ Hr Hs Hn).
Qed.

End sort_failures.

Section failures.
Context `{Runtime}.

(** A blank action among text actions, in rows whose dates parsed, stops the
    run in the catch-all handler. *)
Lemma actuacion_en_blanco_falla r w d fechas conv f1 f2 s :
  heap w !! r = Some d →
  getitem COL_FECHA (paso_caso d) = inr fechas →
  to_datetime fechas = inr conv →
  is_Some (columns d !! COL_ACTUACION) →
  f1 ∈ rows (limpio d conv) → at_col COL_ACTUACION f1 = Str s →
  f2 ∈ rows (limpio d conv) → at_col COL_ACTUACION f2 = NaN →
  (procesar_datos r w).1 = None ∧
  pantalla (procesar_datos r w).2 = pantalla w ++ [error_inesperado TypeError].
Proof.
  intros Hd Hf Hc Hcol Hf1 Hs Hf2 Hn. unfold procesar_datos.
  rewrite Hd, cuerpo_unfold. cbv zeta. rewrite Hf, Hc.
  destruct (getitem COL_ACTUACION (limpio d conv)) as [e|act] eqn:Hact.
  { unfold getitem in Hact.
    assert (is_Some (columns (limpio d conv) !! COL_ACTUACION)) as [x Hx]
      by (apply columns_limpio; by right).
    by rewrite Hx in Hact. }
  rewrite (list_sort_mixed (unique (values act)) s); [done|..];
    rewrite elem_of_unique, (elem_of_values _ _ _ _ Hact); eauto.
Qed.

(** Without the date column the run stops in the [KeyError] handler, and
    so it does without the action column once the dates are converted. *)
Lemma falta_columna_fecha r w d :
  heap w !! r = Some d → columns d !! COL_FECHA = None →
  (procesar_datos r w).1 = None ∧
  pantalla (procesar_datos r w).2
  = pantalla w ++ [columna_requerida (KeyError [COL_FECHA])].
Proof.
  intros Hd Hcol. unfold procesar_datos. rewrite Hd, cuerpo_unfold. cbv zeta.
  assert (getitem COL_FECHA (paso_caso d) = inl (KeyError [COL_FECHA])) as ->; [|done].
  unfold getitem.
  destruct (columns (paso_caso d) !! COL_FECHA) eqn:Hp; [|done].
  assert (is_Some (columns d !! COL_FECHA)) as [? ?]
    by (apply columns_paso_caso; eauto).
  congruence.
Qed.

Lemma falta_columna_actuacion r w d fechas conv :
  heap w !! r = Some d →
  getitem COL_FECHA (paso_caso d) = inr fechas →
  to_datetime fechas = inr conv →
  columns d !! COL_ACTUACION = None →
  (procesar_datos r w).1 = None ∧
  pantalla (procesar_datos r w).2
  = pantalla w ++ [columna_requerida (KeyError [COL_ACTUACION])].
Proof.
  intros Hd Hf Hc Hcol. unfold procesar_datos.
  rewrite Hd, cuerpo_unfold. cbv zeta. rewrite Hf, Hc.
  assert (getitem COL_ACTUACION (limpio d conv)
          = inl (KeyError [COL_ACTUACION])) as ->; [|done].
  unfold getitem.
  destruct (columns (limpio d conv) !! COL_ACTUACION) eqn:Hp; [|done].
  assert (is_Some (columns (limpio d conv) !! COL_ACTUACION)) as Hs by eauto.
  apply columns_limpio in Hs as [?|[? ?]]; [done|congruence].
Qed.

End failures.

(** C10. There is an upload with the three columns, every date of which
    parses, on which the run returns nothing and reports through the
    catch-all handler the [TypeError] of sorting the list of actions: one
    action is text and another is blank. *)
Theorem error_inesperado_con_columnas_y_fechas_validas :
  ∃ (d : DataFrame) (ahora : datetime) (fechas : Series) (conv : list (option Z)),
    is_Some (columns d !! COL_CASO) ∧ is_Some (columns d !! COL_FECHA) ∧
    is_Some (columns d !! COL_ACTUACION) ∧
    getitem COL_FECHA d = inr fechas ∧
    @to_datetime pandas_default fechas = inr conv ∧
    length conv = length (rows d) ∧ Forall is_Some conv ∧
    (@procesar_datos pandas_default 0%nat (mundo d ahora)).1 = None ∧
    pantalla (@procesar_datos pandas_default 0%nat (mundo d ahora)).2
    = [error_inesperado TypeError].
Proof.
  exists actuacion_en_blanco, abril_1. eexists _, _.
  split; [by eexists|]. split; [by eexists|]. split; [by eexists|].
  split; [reflexivity|]. split; [vm_compute; reflexivity|].
  split; [reflexivity|]. split; [repeat constructor; by eexists|].
  split; vm_compute; reflexivity.
Qed.

(** C2 fails on the code: an upload without the case column, none of whose
    rows is stale, goes through; the run returns its results and reports
    nothing. *)
Theorem sin_numero_noticia_no_falla :
  columns sin_numero_noticia !! COL_CASO = None ∧
  (if (@procesar_datos pandas_default 0%nat (mundo sin_numero_noticia abril_1)).1
   is Some out
   then lista_actuaciones out = [Str "Auto"] ∧
        etiquetas (df_clasificado_fecha out) = [0%nat] ∧
        procesos_atrasados out = empty_frame
   else False) ∧
  pantalla (@procesar_datos pandas_default 0%nat (mundo sin_numero_noticia abril_1)).2
  = [].
Proof.
  split; [reflexivity|]. split; [|vm_compute; reflexivity].
  assert ((if (@procesar_datos pandas_default 0%nat
                 (mundo sin_numero_noticia abril_1)).1 is Some out
           then (lista_actuaciones out, etiquetas (df_clasificado_fecha out),
                 bool_decide (procesos_atrasados out = empty_frame))
           else ([], [], false))
          = ([Str "Auto"], [0%nat], true)) as Hout by (vm_compute; reflexivity).
  destruct (@procesar_datos pandas_default 0%nat
              (mundo sin_numero_noticia abril_1)).1 as [out|]; [|discriminate].
  injection Hout as -> -> Hempty. by apply bool_decide_eq_true in Hempty.
Qed.

(** ** Rows without a date *)

Section dropped_rows.
Context `{Runtime}.

Lemma imap_poner_fecha (l : list Row) (s : list (option Z)) :
  length s = length l →
  imap (λ i r, {| label := label r;
                  cells := <[COL_FECHA := match s !! i with
                                          | Some (Some t) => Time t
                                          | _ => NaT
                                          end]> (cells r) |}) l
  = zip_with poner_fecha l s.
Proof.
  revert s. induction l as [|r l IH]; intros [|o s]; simpl; try done.
  intros [= Hlen]. f_equal.
  rewrite <- (IH s Hlen). apply imap_ext. by intros i r' _.
Qed.

Lemma filter_poner_fecha (l : list Row) (s : list (option Z)) :
  filter (λ r, isna (at_col COL_FECHA r) = false) (zip_with poner_fecha l s)
  = omap (λ ro, (λ t, fila_fechada t ro.1) <$> ro.2) (zip l s).
Proof.
  revert s. induction l as [|r l IH]; intros [|o s]; simpl; try done.
  rewrite <- IH. destruct o as [t|]; simpl.
  - by rewrite filter_cons_True by (unfold poner_fecha; by rewrite at_col_insert_eq).
  - by rewrite filter_cons_False by (unfold poner_fecha; by rewrite at_col_insert_eq).
Qed.

Lemma zip_sin_invalidas {A} (l : list A) (s : list (option Z)) :
  zip (filter (λ fo, is_Some fo.2) (zip l s)).*1 (filter is_Some s)
  = filter (λ fo, is_Some fo.2) (zip l s).
Proof.
  revert s. induction l as [|r l IH]; intros [|o s]; simpl; try done.
  destruct o as [t|].
  - rewrite !filter_cons_True by (simpl; eauto). simpl. by rewrite IH.
  - rewrite !filter_cons_False by (simpl; by intros [? ?]). apply IH.
Qed.

Lemma omap_fecha_filter (g : Row → Row) (l : list (Row * option Z)) :
  omap (λ ro, (λ t, fila_fechada t (g ro.1)) <$> ro.2)
       (filter (λ fo, is_Some fo.2) l)
  = omap (λ ro, (λ t, fila_fechada t (g ro.1)) <$> ro.2) l.
Proof.
  induction l as [|[r [t|]] l IH]; [done|..].
  - rewrite filter_cons_True by (simpl; eauto). simpl. f_equal. exact IH.
  - rewrite filter_cons_False by (simpl; by intros [? ?]). exact IH.
Qed.

Lemma rows_limpio (g : Row → Row) d conv :
  length conv = length (rows d) →
  rows (paso_caso d) = g <$> rows d →
  rows (limpio d conv)
  = omap (λ ro, (λ t, fila_fechada t (g ro.1)) <$> ro.2) (zip (rows d) conv).
Proof.
  intros Hlen Hg. unfold limpio, dropna, setitem_datetime. simpl.
  rewrite imap_poner_fecha by (by rewrite Hg, length_fmap).
  rewrite filter_poner_fecha, Hg.
  clear. revert conv. induction (rows d) as [|r l IH]; intros [|o s]; simpl; try done.
  by rewrite IH.
Qed.

(** Cleaning the upload and cleaning it without the rows that have no date
    give the same frame. *)
Lemma limpio_sin_invalidas d conv :
  length conv = length (rows d) →
  limpio (sin_invalidas d conv) (validas conv) = limpio d conv.
Proof.
  intros Hlen.
  set (g := λ r : Row,
         if bool_decide (columns d !! COL_CASO = Some object)
         then {| label := label r;
                 cells := <[COL_CASO := limpiar_caso r]> (cells r) |}
         else r).
  assert (∀ d', columns d' = columns d → rows (paso_caso d') = g <$> rows d')
    as Hg.
  { intros d' Hcols. rewrite rows_paso_caso, Hcols. unfold g.
    case_bool_decide; [done|]. by rewrite list_fmap_id. }
  assert (columns (limpio (sin_invalidas d conv) (validas conv))
          = columns (limpio d conv)) as Hcols.
  { unfold limpio, dropna, setitem_datetime, paso_caso. simpl.
    by case_bool_decide. }
  assert (rows (limpio (sin_invalidas d conv) (validas conv))
          = rows (limpio d conv)) as Hrows.
  { rewrite (rows_limpio g d conv Hlen (Hg d eq_refl)).
    rewrite (rows_limpio g (sin_invalidas d conv) (validas conv)).
    - simpl. by rewrite zip_sin_invalidas, omap_fecha_filter.
    - simpl. unfold validas. rewrite length_fmap.
      clear -Hlen. revert conv Hlen.
      induction (rows d) as [|r l IH]; intros [|o s]; simpl; try done.
      intros [= Hlen]. destruct o.
      + rewrite !filter_cons_True by (simpl; eauto). simpl. by rewrite IH.
      + rewrite !filter_cons_False by (simpl; by intros [? ?]). by apply IH.
    - by apply Hg. }
  destruct (limpio (sin_invalidas d conv) (validas conv)), (limpio d conv).
  simpl in *. by subst.
Qed.

(** With unique index labels, the label of a row whose date did not
    convert is the label of no row of the cleaned frame. *)
Lemma etiqueta_descartada d conv p f :
  NoDup (etiquetas d) →
  rows d !! p = Some f → conv !! p = Some None →
  label f ∉ etiquetas (limpio d conv).
Proof.
  intros Hnd Hf Hp (f' & Hl & (p' & r1 & t & Hr1 & Hc & ->)%elem_of_limpio)
    %list_elem_of_fmap.
  simpl in Hl.
  assert (etiquetas d !! p' = Some (label f)) as Hp'.
  { unfold etiquetas. rewrite <- etiquetas_paso_caso, list_lookup_fmap, Hr1.
    simpl. by rewrite Hl. }
  assert (etiquetas d !! p = Some (label f)) as Hp0.
  { unfold etiquetas. by rewrite list_lookup_fmap, Hf. }
  pose proof (NoDup_lookup _ _ _ _ Hnd Hp' Hp0) as ->. congruence.
Qed.

End dropped_rows.

(** C7. A row whose action date does not parse is in none of the outputs,
    and it does not make the run fail.  For an upload with unique index
    labels whose date column converts, a row whose date came out as NaT has
    its label in neither the cleaned dataset, the classified view nor the
    stale table, and every action listed is the action of another, cleaned
    row; and the run gives what it gives on the upload without such rows,
    result, cleaned frame and reports alike, whenever the parser reads the
    remaining dates as before. *)
Theorem fechas_invalidas_descartadas `{Runtime} r w d fechas conv :
  sorts argsort →
  heap w !! r = Some d →
  NoDup (etiquetas d) →
  getitem COL_FECHA (paso_caso d) = inr fechas →
  to_datetime fechas = inr conv →
  length conv = length (rows d) →
  (∀ out w' p f,
     procesar_datos r w = (Some out, w') →
     rows d !! p = Some f → conv !! p = Some None →
     (label f ∉ etiquetas (df_limpio out w')) ∧
     (label f ∉ etiquetas (df_clasificado_fecha out)) ∧
     (label f ∉ etiquetas (procesos_atrasados out)) ∧
     ∀ x, x ∈ lista_actuaciones out →
          ∃ f', f' ∈ rows (df_limpio out w') ∧ label f' ≠ label f ∧
                at_col COL_ACTUACION f' = x) ∧
  (∀ w2 fechas2,
     heap w2 !! r = Some (sin_invalidas d conv) →
     reloj w2 = reloj w →
     getitem COL_FECHA (paso_caso (sin_invalidas d conv)) = inr fechas2 →
     to_datetime fechas2 = inr (validas conv) →
     (procesar_datos r w).1 = (procesar_datos r w2).1 ∧
     heap (procesar_datos r w).2 !! r = heap (procesar_datos r w2).2 !! r ∧
     ∃ emitted,
       pantalla (procesar_datos r w).2 = pantalla w ++ emitted ∧
       pantalla (procesar_datos r w2).2 = pantalla w2 ++ emitted).
Proof.
  intros Hsorts Hd Hnd Hf Hc Hlen. split.
  - intros out w' p f Hrun Hrow Hnat.
    destruct (procesar_datos_Some _ _ _ _ Hrun)
      as (d0 & fechas0 & conv0 & act & Hd0 & Hf0 & Hc0 & _ & _ & _ & _ & _ & _ & Hr & Hw).
    assert (d0 = d) as -> by congruence.
    assert (fechas0 = fechas) as -> by congruence.
    assert (conv0 = conv) as -> by congruence.
    pose proof (df_limpio_Some r w out w' d conv Hd Hr Hw) as Hlimpio.
    pose proof (etiqueta_descartada d conv p f Hnd Hrow Hnat) as Hout.
    rewrite <- Hlimpio in Hout.
    split; [done|]. split; [|split].
    + unfold etiquetas.
      by rewrite (clasificado_descendente_rows r w out w' Hsorts Hrun).
    + intros (f' & Hl & Hf')%list_elem_of_fmap.
      apply (elem_of_atrasados r w out w' f' Hsorts Hrun) in Hf'
        as (f0 & t & Hf0' & _ & _ & ->).
      apply Hout. apply list_elem_of_fmap. by exists f0.
    + intros x Hx.
      apply (lista_actuaciones_rows r w out w' x Hrun) in Hx as (f' & Hf' & Hx).
      exists f'. split; [done|]. split; [|done].
      intros Hl. apply Hout. apply list_elem_of_fmap. by exists f'.
  - intros w2 fechas2 Hd2 Hreloj Hf2 Hc2. unfold procesar_datos.
    rewrite Hd, Hd2, !cuerpo_unfold. cbv zeta.
    rewrite Hf, Hc, Hf2, Hc2, (limpio_sin_invalidas d conv Hlen), Hreloj.
    assert (r < length (heap w))%nat by by eapply lookup_lt_Some.
    assert (r < length (heap w2))%nat by by eapply lookup_lt_Some.
    repeat match goal with
           | |- context [match ?x with inl _ => _ | inr _ => _ end] =>
               destruct x as [[]|]
           end; simpl; rewrite !list_lookup_insert_eq by done;
      (split; [done|split; [done|]]); eexists; split; try done;
      by rewrite !app_nil_r.
Qed.

Lemma fechas_invalidas_descartadas_witness :
  (@procesar_datos pandas_stable 0%nat (mundo escenario1 abril_1)).1
  = (@procesar_datos pandas_stable 0%nat
       (mundo (sin_invalidas escenario1 fechas_escenario1) abril_1)).1.
Proof.
  assert (NoDup (etiquetas escenario1)) as Hnd.
  { apply NoDup_cons. split; [set_solver|apply NoDup_singleton]. }
  assert (∃ fechas, getitem COL_FECHA (paso_caso escenario1) = inr fechas ∧
                    @to_datetime pandas_stable fechas = inr fechas_escenario1)
    as (fechas & Hf & Hc).
  { eexists. split; [reflexivity|]. vm_compute. reflexivity. }
  assert (∃ fechas2,
             getitem COL_FECHA
               (paso_caso (sin_invalidas escenario1 fechas_escenario1))
             = inr fechas2 ∧
             @to_datetime pandas_stable fechas2 = inr (validas fechas_escenario1))
    as (fechas2 & Hf2 & Hc2).
  { eexists. split; [reflexivity|]. vm_compute. reflexivity. }
  exact (proj1 (proj2 (@fechas_invalidas_descartadas pandas_stable 0%nat
                  (mundo escenario1 abril_1) escenario1 fechas fechas_escenario1
                  stable_argsort_sorts eq_refl Hnd Hf Hc eq_refl)
                (mundo (sin_invalidas escenario1 fechas_escenario1) abril_1)
                fechas2 eq_refl eq_refl Hf2 Hc2)).
Defined.

(** ** The scenarios of the specification *)

(** Scenario 1: one quoted case with an action of 2023-01-10 and one case
    without a date, processed on 2023-04-01. *)
Example escenario_1 :
  (if @procesar_datos pandas_default 0%nat (mundo escenario1 abril_1)
     is (Some out, w')
   then (lista_actuaciones out,
         at_col COL_CASO <$> rows (df_limpio out w'),
         fecha_limite out,
         (λ f, (label f, at_col COL_DIAS f)) <$> rows (procesos_atrasados out))
   else ([], [], abril_1, []))
  = ([Str "Filed"], [Str "123"], mk_datetime 2023 2 1 0 0 0 0, [(0%nat, Num 81)]).
Proof. vm_compute. reflexivity. Qed.

(** Scenario 2 and its neighbours: two calendar months back, the day kept or
    cut to the end of the month reached, across a year's end, and out of the
    calendar. *)
Example dos_meses_antes :
  sub_months (mk_datetime 2023 3 31 0 0 0 0) 2 = inr (mk_datetime 2023 1 31 0 0 0 0) ∧
  sub_months (mk_datetime 2023 4 30 0 0 0 0) 2 = inr (mk_datetime 2023 2 28 0 0 0 0) ∧
  sub_months (mk_datetime 2024 4 30 0 0 0 0) 2 = inr (mk_datetime 2024 2 29 0 0 0 0) ∧
  sub_months (mk_datetime 2023 1 31 0 0 0 0) 2 = inr (mk_datetime 2022 11 30 0 0 0 0) ∧
  sub_months (mk_datetime 1 2 15 0 0 0 0) 2 = inl ValueError.
Proof. by repeat split. Qed.

(** Scenario 3: every action within the last sixty days. *)
Example escenario_3 :
  (if @procesar_datos pandas_default 0%nat (mundo recientes abril_1)
     is (Some out, _)
   then (rows (procesos_atrasados out), lista_actuaciones out,
         etiquetas (df_clasificado_fecha out))
   else ([], [], []))
  = ([], [Str "Archivo"; Str "Auto"], [1%nat; 0%nat]).
Proof. vm_compute. reflexivity. Qed.

(** On uploads this short the default kernel and the stable one agree. *)
Example nucleos_de_acuerdo :
  (@procesar_datos pandas_default 0%nat (mundo escenario1 abril_1)).1
  = (@procesar_datos pandas_stable 0%nat (mundo escenario1 abril_1)).1 ∧
  Numpy.aquicksort (replicate 17 5) = Numpy.stable_argsort (replicate 17 5) ∧
  Numpy.aquicksort (replicate 18 5) ≠ Numpy.stable_argsort (replicate 18 5).
Proof.
  split; [vm_compute; reflexivity|]. split; [vm_compute; reflexivity|].
  intros Heq. vm_compute in Heq. discriminate Heq.
Qed.

(** ** More on the two reference dates *)

Lemma sub_months_2_valid d l :
  valid d → sub_months d 2 = inr l → valid l.
Proof.
  intros (Hy & Hm & Hd & Ht) Hl.
  destruct (sub_months_2_fields d l Hm Hl) as (Hym & Hml & Hday & [= Hh Hmi Hs Hu]).
  assert (1 ≤ year l ≤ 9999) as Hyl.
  { revert Hl. unfold sub_months, add_months.
    destruct (Z.ltb_spec 12 (month d + - (2))); [lia|].
    destruct (Z.ltb_spec (month d + - (2)) 1); cbv zeta iota beta;
      (match goal with |- context [if ?b then _ else _] => destruct b eqn:Hb end;
       [|discriminate]); intros [= <-]; simpl; lia. }
  pose proof (days_in_month_bounds (year l) (month l)).
  unfold valid. rewrite Hday, Hh, Hmi, Hs, Hu. repeat split; try lia.
Qed.

Lemma sub_months_2_window d l :
  valid d → sub_months d 2 = inr l →
  59 ≤ toordinal d - toordinal l ≤ 62.
Proof.
  intros (_ & Hm & Hd & _) Hl.
  destruct (sub_months_2_fields d l Hm Hl) as (Hym & Hml & Hday & _).
  unfold toordinal. rewrite Hday.
  destruct (Z.le_gt_cases (month d) 2) as [Hle|Hgt].
  - assert (year d = year l + 1) as Hy by lia.
    assert (month l = month d + 10) as Hl10 by lia.
    rewrite Hy, days_before_year_succ in *. rewrite Hl10.
    unfold days_before_month, days_in_month in *.
    assert (month d = 1 ∨ month d = 2) as [Hmd | Hmd] by lia;
      rewrite Hmd in *; simpl in *;
      repeat match goal with
             | |- context [if ?b then _ else _] => destruct b
             | H : context [if ?b then _ else _] |- _ => destruct b
             end; lia.
  - assert (year d = year l) as Hy by lia.
    assert (month d = month l + 2) as Hmd by lia.
    rewrite Hy, Hmd in *.
    unfold days_before_month, days_in_month in *.
    assert (month l = 1 ∨ month l = 2 ∨ month l = 3 ∨ month l = 4 ∨ month l = 5 ∨
            month l = 6 ∨ month l = 7 ∨ month l = 8 ∨ month l = 9 ∨ month l = 10)
      as Hcases by lia.
    destruct (isleap (year l));
      repeat destruct Hcases as [Hc | Hcases]; try rename Hcases into Hc;
      rewrite Hc in *; simpl in *; lia.
Qed.

Lemma sub_months_2_inr d :
  1 ≤ month d ≤ 12 → 2 ≤ year d ≤ 9999 → ∃ l, sub_months d 2 = inr l.
Proof.
  intros Hm Hy. unfold sub_months, add_months.
  destruct (Z.ltb_spec 12 (month d + - (2))); [lia|].
  destruct (Z.ltb_spec (month d + - (2)) 1); cbv zeta iota beta.
  - destruct (Z.leb_spec 1 (year d - 1)), (Z.leb_spec (year d - 1) 9999);
      simpl; eauto; lia.
  - destruct (Z.leb_spec 1 (year d)), (Z.leb_spec (year d) 9999);
      simpl; eauto; lia.
Qed.

(** X1. In every successful run on a valid clock reading the cutoff is a
    date of the calendar, at midnight, and lies between 59 and 62 days before
    today at midnight. *)
Theorem limite_entre_59_y_62_dias `{Runtime} r w out w' :
  valid (reloj w) →
  procesar_datos r w = (Some out, w') →
  valid (fecha_limite out) ∧
  ∃ dias, 59 ≤ dias ≤ 62 ∧
          timestamp (fecha_actual out)
          = timestamp (fecha_limite out) + dias * ns_per_day.
Proof.
  intros Hvalid Hrun.
  destruct (procesar_datos_Some _ _ _ _ Hrun)
    as (d & fechas & conv & act & _ & _ & _ & _ & _ & Hlim & _ & _ & Ha & _ & _).
  assert (valid (midnight (reloj w))) as Hvm.
  { destruct Hvalid as (? & ? & ? & _). unfold valid. simpl. lia. }
  split; [by eapply sub_months_2_valid|].
  exists (toordinal (midnight (reloj w)) - toordinal (fecha_limite out)).
  split; [by apply sub_months_2_window|].
  destruct Hvalid as (_ & Hm & _).
  rewrite Ha, <- (sub_months_midnight (reloj w) _ Hm Hlim), !timestamp_midnight.
  unfold toordinal. simpl. lia.
Qed.

Lemma limite_entre_59_y_62_dias_witness :
  match @procesar_datos pandas_default 0%nat (mundo escenario1 abril_1) with
  | (Some out, w') =>
      valid (fecha_limite out) ∧
      ∃ dias, 59 ≤ dias ≤ 62 ∧
              timestamp (fecha_actual out)
              = timestamp (fecha_limite out) + dias * ns_per_day
  | _ => False
  end.
Proof.
  destruct (@procesar_datos pandas_default 0%nat (mundo escenario1 abril_1))
    as [[out|] w'] eqn:Hrun.
  - exact (@limite_entre_59_y_62_dias pandas_default 0%nat
             (mundo escenario1 abril_1) out w' abril_1_valid Hrun).
  - run_succeeded Hrun.
Defined.

(** ** More on the stale table *)

Section stale_table.
Context `{Runtime}.

Lemma select_columns_eq cs d d' :
  select cs d = inr d' →
  columns d' = filter (λ kv, kv.1 ∈ cs) (columns d).
Proof.
  unfold select. destruct (filter _ cs); [|done]. by intros [= <-].
Qed.

Lemma columns_tabla_atrasados actual limite d res :
  tabla_atrasados actual limite d = inr res →
  columns d ≠ ∅ →
  (rows (where_ (atrasado limite) d) = [] ∧ res = empty_frame) ∨
  (rows (where_ (atrasado limite) d) ≠ [] ∧
   (∀ c, c ∈ columnas_clave → c ≠ COL_DIAS → is_Some (columns d !! c)) ∧
   columns res
   = filter (λ kv, kv.1 ∈ columnas_clave) (<[COL_DIAS := int64]> (columns d))).
Proof.
  intros Hres Hcols. revert Hres. unfold tabla_atrasados, empty. simpl.
  rewrite (bool_decide_eq_false_2 (columns d = ∅)) by done.
  rewrite orb_false_r. case_bool_decide as Hrows; simpl.
  - intros [= <-]. by left.
  - destruct (select _ _) as [e|sel] eqn:Hsel; [done|]. simpl. intros [= <-].
    right. split; [done|]. split.
    + intros c Hc Hne.
      pose proof (select_columns _ _ _ c Hsel Hc) as Hs. simpl in Hs.
      by rewrite lookup_insert_ne in Hs.
    + unfold sort_values. cbn [columns].
      by rewrite (select_columns_eq _ _ _ Hsel).
Qed.

Lemma tabla_atrasados_sorted actual limite d res :
  sorts argsort →
  (∀ r, r ∈ rows d → ∃ t, at_col COL_FECHA r = Time t) →
  columns d ≠ ∅ →
  tabla_atrasados actual limite d = inr res →
  Sorted (λ f1 f2, clave COL_DIAS f2 ≤ clave COL_DIAS f1) (rows res).
Proof.
  intros Hsorts Hfecha Hcols. unfold tabla_atrasados, empty.
  simpl. rewrite (bool_decide_eq_false_2 (columns d = ∅)) by done.
  rewrite orb_false_r. case_bool_decide as Hrows; simpl.
  - intros [= <-]. constructor.
  - destruct (select _ _) as [e|sel] eqn:Hsel; [done|]. simpl. intros [= <-].
    apply select_rows in Hsel. simpl in Hsel.
    rewrite <- list_fmap_compose in Hsel.
    apply sort_values_desc; [done|].
    intros r. rewrite Hsel. intros (r0 & -> & Hr0)%list_elem_of_fmap.
    apply list_elem_of_filter in Hr0 as [_ Hr0].
    destruct (Hfecha r0 Hr0) as [t Ht].
    change (is_Some (sort_key (at_col COL_DIAS (fila_atrasada actual r0)))).
    rewrite at_col_fila_atrasada_dias. unfold antiguedad. rewrite Ht. by eexists.
Qed.

End stale_table.

(** X2. In every successful run in which the sort kernel, called on the
    ages of the stale rows (in reverse, as a descending sort hands them
    over), returns positions that sort them, every row of the stale table
    carries a whole number of days and the table comes in non-increasing
    order of it, the oldest process first. *)
Theorem atrasados_mas_antiguos_primero `{Runtime} r w out w' :
  procesar_datos r w = (Some out, w') →
  sorts_keys argsort (reverse (edades out w')) →
  (∀ f, f ∈ rows (procesos_atrasados out) →
        at_col COL_DIAS f = Num (clave COL_DIAS f)) ∧
  StronglySorted (λ f1 f2, clave COL_DIAS f2 ≤ clave COL_DIAS f1)
    (rows (procesos_atrasados out)).
Proof.
  intros Hrun. unfold edades.
  destruct (procesar_datos_Some _ _ _ _ Hrun)
    as (d & fechas & conv & act & Hd & _ & _ & _ & _ & _ & Ht & _ & Ha & Hr & Hw).
  rewrite (df_limpio_Some r w out w' d conv Hd Hr Hw), Ha. intros Hsorts.
  destruct (tabla_atrasados_keys _ _ _ _ Hsorts (limpio_fecha d conv)
              (columns_limpio_nonempty d conv) Ht) as [Hp Hs].
  split.
  - intros f Hf. rewrite Hp in Hf.
    apply list_elem_of_fmap in Hf as (f0 & -> & [_ Hf0]%list_elem_of_filter).
    destruct (limpio_fecha _ _ _ Hf0) as [t Hdate].
    unfold clave. rewrite at_col_fila_atrasada_dias. unfold antiguedad.
    by rewrite Hdate.
  - apply Sorted_StronglySorted; [intros f1 f2 f3 ??; lia|done].
Qed.

(** Three old rows uploaded as 71, 147 and 91 days old, under the default
    kernel: the table lists them as 147, 91 and 71. *)
Lemma atrasados_mas_antiguos_primero_witness :
  match @procesar_datos pandas_default 0%nat (mundo varias_fechas abril_1) with
  | (Some out, w') =>
      edades out w' = [71; 147; 91] ∧
      (λ f, (label f, at_col COL_DIAS f)) <$> rows (procesos_atrasados out)
      = [(1%nat, Num 147); (4%nat, Num 91); (0%nat, Num 71)] ∧
      (∀ f, f ∈ rows (procesos_atrasados out) →
            at_col COL_DIAS f = Num (clave COL_DIAS f)) ∧
      StronglySorted (λ f1 f2, clave COL_DIAS f2 ≤ clave COL_DIAS f1)
        (rows (procesos_atrasados out))
  | _ => False
  end.
Proof.
  assert ((if @procesar_datos pandas_default 0%nat (mundo varias_fechas abril_1)
           is (Some out, w')
           then bool_decide
                  (sorts_keys Numpy.aquicksort (reverse (edades out w')) ∧
                   edades out w' = [71; 147; 91] ∧
                   (λ f, (label f, at_col COL_DIAS f)) <$> rows (procesos_atrasados out)
                   = [(1%nat, Num 147); (4%nat, Num 91); (0%nat, Num 71)])
           else false) = true) as Hpre by (vm_compute; reflexivity).
  destruct (@procesar_datos pandas_default 0%nat (mundo varias_fechas abril_1))
    as [[out|] w'] eqn:Hrun; [|discriminate Hpre].
  apply bool_decide_eq_true_1 in Hpre as (Hsorts & He & Ht).
  split; [exact He|]. split; [exact Ht|].
  exact (@atrasados_mas_antiguos_primero pandas_default 0%nat
           (mundo varias_fechas abril_1) out w' Hrun Hsorts).
Defined.

(** X3. In every successful run the stale table is either the frame with
    no column and no row, when no process is stale, or it has rows and
    exactly the four columns case, date, action and age, whatever other
    columns the upload has; its rows hold no other cell. *)
Theorem atrasados_cuatro_columnas `{Runtime} r w out w' :
  sorts argsort →
  procesar_datos r w = (Some out, w') →
  (procesos_atrasados out = empty_frame ∨
   rows (procesos_atrasados out) ≠ [] ∧
   ∀ c, is_Some (columns (procesos_atrasados out) !! c) ↔ c ∈ columnas_clave) ∧
  (∀ f c, f ∈ rows (procesos_atrasados out) →
          is_Some (cells f !! c) → c ∈ columnas_clave).
Proof.
  intros Hsorts Hrun. split.
  - destruct (procesar_datos_Some _ _ _ _ Hrun)
      as (d & fechas & conv & act & _ & _ & _ & _ & _ & _ & Ht & _).
    destruct (columns_tabla_atrasados _ _ _ _ Ht (columns_limpio_nonempty d conv))
      as [[_ ->]|(Hne & Hin & Hcols)]; [by left|right]. split.
    + apply tabla_atrasados_rows in Ht;
        [|done|apply limpio_fecha|apply columns_limpio_nonempty].
      intros Hnil. rewrite Hnil in Ht. symmetry in Ht.
      apply Permutation_nil_r in Ht. apply fmap_nil_inv in Ht. by apply Hne.
    + intros c. rewrite Hcols. split.
      * intros [x [_ Hx]%map_lookup_filter_Some]. done.
      * intros Hc. destruct (decide (c = COL_DIAS)) as [->|Hne'].
        -- exists int64. apply map_lookup_filter_Some.
           by rewrite lookup_insert_eq.
        -- destruct (Hin c Hc Hne') as [x Hx]. exists x.
           apply map_lookup_filter_Some. by rewrite lookup_insert_ne.
  - intros f c Hf.
    apply (elem_of_atrasados r w out w' f Hsorts Hrun) in Hf
      as (f0 & t & _ & _ & _ & ->).
    unfold fila_atrasada. simpl. by intros [x [_ Hx]%map_lookup_filter_Some].
Qed.

Lemma atrasados_cuatro_columnas_witness :
  match @procesar_datos pandas_stable 0%nat (mundo escenario1 abril_1) with
  | (Some out, w') =>
      ∀ f c, f ∈ rows (procesos_atrasados out) →
             is_Some (cells f !! c) → c ∈ columnas_clave
  | _ => False
  end.
Proof.
  destruct (@procesar_datos pandas_stable 0%nat (mundo escenario1 abril_1))
    as [[out|] w'] eqn:Hrun.
  - exact (proj2 (@atrasados_cuatro_columnas pandas_stable 0%nat
                    (mundo escenario1 abril_1) out w' stable_argsort_sorts Hrun)).
  - run_succeeded Hrun.
Defined.

(** X4. In every successful run on a valid clock reading every process of
    the stale table is at least 59 days old. *)
Theorem atrasados_al_menos_59_dias `{Runtime} r w out w' :
  sorts argsort →
  valid (reloj w) →
  procesar_datos r w = (Some out, w') →
  ∀ f, f ∈ rows (procesos_atrasados out) →
       ∃ dias, at_col COL_DIAS f = Num dias ∧ 59 ≤ dias.
Proof.
  intros Hsorts Hvalid Hrun f Hf.
  apply (elem_of_atrasados r w out w' f Hsorts Hrun) in Hf
    as (f0 & t & _ & Hdate & Hlt & ->).
  destruct (procesar_datos_Some _ _ _ _ Hrun)
    as (d & fechas & conv & act & _ & _ & _ & _ & _ & Hlim & _ & _ & Ha & _ & _).
  assert (valid (midnight (reloj w))) as Hvm.
  { destruct Hvalid as (? & ? & ? & _). unfold valid. simpl. lia. }
  pose proof (sub_months_2_window _ _ Hvm Hlim) as Hwin.
  destruct Hvalid as (_ & Hm & _).
  rewrite <- (sub_months_midnight (reloj w) _ Hm Hlim), timestamp_midnight in Hlt.
  apply floor_day_lt_multiple in Hlt.
  rewrite at_col_fila_atrasada_dias. unfold antiguedad. rewrite Hdate, Ha.
  eexists. split; [done|].
  rewrite timestamp_midnight. unfold days_between.
  apply Z.div_le_lower_bound; [done|].
  unfold toordinal in *. simpl in *. unfold ns_per_day in *. nia.
Qed.

Lemma atrasados_al_menos_59_dias_witness :
  match @procesar_datos pandas_stable 0%nat (mundo escenario1 abril_1) with
  | (Some out, w') =>
      ∀ f, f ∈ rows (procesos_atrasados out) →
           ∃ dias, at_col COL_DIAS f = Num dias ∧ 59 ≤ dias
  | _ => False
  end.
Proof.
  destruct (@procesar_datos pandas_stable 0%nat (mundo escenario1 abril_1))
    as [[out|] w'] eqn:Hrun.
  - exact (@atrasados_al_menos_59_dias pandas_stable 0%nat
             (mundo escenario1 abril_1) out w' stable_argsort_sorts
             abril_1_valid Hrun).
  - run_succeeded Hrun.
Defined.

(** X5. In every successful run on a valid clock reading a row of the
    cleaned dataset whose action lies more than 62 days before today at
    midnight is in the stale table, and one whose action lies no more than
    59 days before it is not. *)
Theorem atrasado_por_dias `{Runtime} r w out w' :
  sorts argsort →
  valid (reloj w) →
  procesar_datos r w = (Some out, w') →
  ∀ i t, (i, Time t) ∈ fechas_de (df_limpio out w') →
    (t + 62 * ns_per_day < timestamp (fecha_actual out) →
     (i, Time t) ∈ fechas_de (procesos_atrasados out)) ∧
    (timestamp (fecha_actual out) ≤ t + 59 * ns_per_day →
     (i, Time t) ∉ fechas_de (procesos_atrasados out)).
Proof.
  intros Hsorts Hvalid Hrun i t Hin.
  destruct (procesar_datos_Some _ _ _ _ Hrun)
    as (d & fechas & conv & act & _ & _ & _ & _ & _ & Hlim & _ & _ & Ha & _ & _).
  assert (valid (midnight (reloj w))) as Hvm.
  { destruct Hvalid as (? & ? & ? & _). unfold valid. simpl. lia. }
  pose proof (sub_months_2_window _ _ Hvm Hlim) as Hwin.
  destruct Hvalid as (_ & Hm & _).
  pose proof (sub_months_midnight (reloj w) _ Hm Hlim) as Hmid.
  assert (timestamp (fecha_limite out)
          = (toordinal (fecha_limite out) - 719163) * ns_per_day) as Hts.
  { by rewrite <- Hmid, timestamp_midnight. }
  rewrite Ha, timestamp_midnight.
  assert (∀ f0, at_col COL_FECHA (fila_atrasada (fecha_actual out) f0)
                = at_col COL_FECHA f0) as Hkeep.
  { intros f0. apply at_col_fila_atrasada; [|done].
    unfold columnas_clave. set_solver. }
  unfold fechas_de in *. split.
  - intros Hold. apply list_elem_of_fmap in Hin as (f0 & [= -> Hf] & Hf0).
    apply list_elem_of_fmap. exists (fila_atrasada (fecha_actual out) f0).
    split; [by rewrite Hkeep, <- Hf|].
    apply (elem_of_atrasados r w out w' _ Hsorts Hrun). exists f0, t.
    split; [done|]. split; [done|]. split; [|done].
    rewrite Hts. unfold floor_day, toordinal in *. simpl in *.
    unfold ns_per_day in *. Z.div_mod_to_equations. nia.
  - intros Hnew (f & [= -> Hf] & Hst)%list_elem_of_fmap.
    apply (elem_of_atrasados r w out w' _ Hsorts Hrun) in Hst
      as (f0 & t0 & _ & Hdate & Hlt & ->).
    rewrite Hkeep in Hf. assert (t0 = t) as -> by congruence.
    rewrite Hts in Hlt. apply floor_day_lt_multiple in Hlt.
    unfold toordinal in *. simpl in *. unfold ns_per_day in *. nia.
Qed.

Lemma atrasado_por_dias_witness :
  match @procesar_datos pandas_stable 0%nat (mundo escenario1 abril_1) with
  | (Some out, w') =>
      ∀ i t, (i, Time t) ∈ fechas_de (df_limpio out w') →
        (t + 62 * ns_per_day < timestamp (fecha_actual out) →
         (i, Time t) ∈ fechas_de (procesos_atrasados out)) ∧
        (timestamp (fecha_actual out) ≤ t + 59 * ns_per_day →
         (i, Time t) ∉ fechas_de (procesos_atrasados out))
  | _ => False
  end.
Proof.
  destruct (@procesar_datos pandas_stable 0%nat (mundo escenario1 abril_1))
    as [[out|] w'] eqn:Hrun.
  - exact (@atrasado_por_dias pandas_stable 0%nat
             (mundo escenario1 abril_1) out w' stable_argsort_sorts
             abril_1_valid Hrun).
  - run_succeeded Hrun.
Defined.

(** ** Uploads that lack a column, and uploads without dates *)

Section missing_columns.
Context `{Runtime}.

Lemma getitem_inr c d x :
  columns d !! c = Some x →
  getitem c d = inr {| dtype_of := x; values := at_col c <$> rows d |}.
Proof. intros Hc. unfold getitem. by rewrite Hc. Qed.

Lemma getitem_inl c d :
  columns d !! c = None → getitem c d = inl (KeyError [c]).
Proof. intros Hc. unfold getitem. by rewrite Hc. Qed.


Lemma columns_limpio_lookup d conv c :
  c ≠ COL_FECHA → columns (limpio d conv) !! c = columns d !! c.
Proof.
  intros Hc. unfold limpio, dropna, setitem_datetime, paso_caso. simpl.
  rewrite lookup_insert_ne by done. case_bool_decide as Hobj; [|done]. simpl.
  destruct (decide (c = COL_CASO)) as [->|]; [by rewrite lookup_insert_eq|].
  by rewrite lookup_insert_ne.
Qed.

End missing_columns.

(** X6. An upload without the date column stops the run in the [KeyError]
    handler: nothing is returned, the report names the date column, and the
    frame is left as the quote cleaning left it. *)
Theorem sin_columna_fecha `{Runtime} r w d :
  heap w !! r = Some d →
  columns d !! COL_FECHA = None →
  procesar_datos r w
  = (None, {| heap := <[r := paso_caso d]> (heap w); reloj := reloj w;
              pantalla := pantalla w ++ [columna_requerida (KeyError [COL_FECHA])] |}).
Proof.
  intros Hd Hcol. unfold procesar_datos. rewrite Hd, cuerpo_unfold. cbv zeta.
  rewrite getitem_inl; [done|].
  destruct (columns (paso_caso d) !! COL_FECHA) eqn:Hp; [|done].
  assert (is_Some (columns d !! COL_FECHA)) as [? ?]
    by (apply columns_paso_caso; eauto).
  congruence.
Qed.

Lemma sin_columna_fecha_witness :
  (@procesar_datos pandas_default 0%nat (mundo sin_fecha abril_1)).1 = None ∧
  pantalla (@procesar_datos pandas_default 0%nat (mundo sin_fecha abril_1)).2
  = [columna_requerida (KeyError [COL_FECHA])].
Proof.
  rewrite (@sin_columna_fecha pandas_default 0%nat (mundo sin_fecha abril_1)
             sin_fecha eq_refl eq_refl).
  by split.
Defined.

(** X7. An upload with the date column and without the action column stops
    the run in the [KeyError] handler with a report naming the action column,
    once the dates are converted: the frame it was given is left cleaned,
    rows without a date dropped, although nothing is returned. *)
Theorem sin_columna_actuacion `{Runtime} r w d fechas conv :
  heap w !! r = Some d →
  getitem COL_FECHA (paso_caso d) = inr fechas →
  to_datetime fechas = inr conv →
  columns d !! COL_ACTUACION = None →
  procesar_datos r w
  = (None, {| heap := <[r := limpio d conv]> (heap w); reloj := reloj w;
              pantalla := pantalla w
                          ++ [columna_requerida (KeyError [COL_ACTUACION])] |}).
Proof.
  intros Hd Hf Hc Hcol. unfold procesar_datos.
  rewrite Hd, cuerpo_unfold. cbv zeta. rewrite Hf, Hc.
  rewrite getitem_inl; [done|]. by rewrite columns_limpio_lookup.
Qed.

Lemma sin_columna_actuacion_witness :
  (@procesar_datos pandas_default 0%nat (mundo sin_actuacion abril_1)).1 = None ∧
  pantalla (@procesar_datos pandas_default 0%nat (mundo sin_actuacion abril_1)).2
  = [columna_requerida (KeyError [COL_ACTUACION])] ∧
  (etiquetas <$> heap (@procesar_datos pandas_default 0%nat
                         (mundo sin_actuacion abril_1)).2 !! 0%nat)
  = Some [0%nat].
Proof.
  assert (∃ fechas conv,
             getitem COL_FECHA (paso_caso sin_actuacion) = inr fechas ∧
             @to_datetime pandas_default fechas = inr conv ∧
             etiquetas (limpio sin_actuacion conv) = [0%nat])
    as (fechas & conv & Hf & Hc & Hl).
  { eexists _, _. split; [reflexivity|]. split; vm_compute; reflexivity. }
  rewrite (@sin_columna_actuacion pandas_default 0%nat
             (mundo sin_actuacion abril_1) sin_actuacion fechas conv
             eq_refl Hf Hc eq_refl).
  simpl. by rewrite Hl.
Defined.



(** ** The column report is sound *)

Section key_errors.
Context `{Runtime}.

Lemma getitem_inl_inv c d e :
  getitem c d = inl e → e = KeyError [c] ∧ columns d !! c = None.
Proof.
  unfold getitem. destruct (columns d !! c); [discriminate|]. by intros [= <-].
Qed.

Lemma sub_months_inl d n e : sub_months d n = inl e → e = ValueError.
Proof.
  unfold sub_months, add_months.
  repeat match goal with
         | |- context [if ?b then _ else _] => destruct b
         end; cbv zeta iota beta; try discriminate; by intros [= <-].
Qed.

Lemma tabla_atrasados_inl actual limite d conv e :
  is_Some (columns (limpio d conv) !! COL_ACTUACION) →
  tabla_atrasados actual limite (limpio d conv) = inl e →
  e = KeyError [COL_CASO] ∧ columns d !! COL_CASO = None.
Proof.
  intros [x Hact]. unfold tabla_atrasados.
  destruct (negb _); [|discriminate].
  destruct (select _ _) as [e'|sel] eqn:Hsel; [|discriminate].
  simpl. intros [= ->]. revert Hsel. unfold select.
  set (d3 := assign COL_DIAS int64 _ _).
  assert (columns d3 !! COL_FECHA ≠ None) as HF.
  { unfold d3. simpl. rewrite lookup_insert_ne by done.
    by rewrite lookup_insert_eq. }
  assert (columns d3 !! COL_ACTUACION ≠ None) as HA.
  { unfold d3. cbn [assign columns where_]. rewrite lookup_insert_ne by done.
    by rewrite Hact. }
  assert (columns d3 !! COL_DIAS ≠ None) as HD.
  { unfold d3. cbn [assign columns]. by rewrite lookup_insert_eq. }
  assert (columns d3 !! COL_CASO = columns d !! COL_CASO) as HC.
  { unfold d3. cbn [assign columns where_]. rewrite lookup_insert_ne by done.
    by apply columns_limpio_lookup. }
  rewrite filter_cons. rewrite (filter_cons_False _ COL_FECHA) by done.
  rewrite (filter_cons_False _ COL_ACTUACION) by done.
  rewrite (filter_cons_False _ COL_DIAS) by done.
  rewrite filter_nil.
  destruct (decide (columns d3 !! COL_CASO = None)) as [Hn|Hn]; [|discriminate].
  intros [= <-]. split; [done|]. by rewrite <- HC.
Qed.

Lemma cuerpo_KeyError r ahora d d' k :
  (∀ s k', to_datetime s ≠ inl (KeyError k')) →
  cuerpo r ahora d = (inl (KeyError k), d') →
  ∃ c, k = [c] ∧ c ∈ [COL_CASO; COL_FECHA; COL_ACTUACION] ∧
       columns d !! c = None.
Proof.
  intros Hrt. rewrite cuerpo_unfold. cbv zeta.
  destruct (getitem COL_FECHA (paso_caso d)) as [e|fechas] eqn:Hf.
  { intros [= -> _]. apply getitem_inl_inv in Hf as [[= ->] Hc].
    exists COL_FECHA. split; [done|]. split; [set_solver|].
    destruct (columns d !! COL_FECHA) eqn:Hd; [|done].
    assert (is_Some (columns (paso_caso d) !! COL_FECHA)) as [? ?]
      by (apply columns_paso_caso; eauto).
    congruence. }
  destruct (to_datetime fechas) as [e|conv] eqn:Hc.
  { intros [= -> _]. by destruct (Hrt _ _ Hc). }
  destruct (getitem COL_ACTUACION (limpio d conv)) as [e|act] eqn:Ha.
  { intros [= -> _]. apply getitem_inl_inv in Ha as [[= ->] Hn].
    exists COL_ACTUACION. split; [done|]. split; [set_solver|].
    by rewrite columns_limpio_lookup in Hn. }
  destruct (list_sort _) as [e|lista] eqn:Hs.
  { intros [= -> _]. by apply sort_onto_inl in Hs. }
  destruct (sub_months _ _) as [e|limite] eqn:Hl.
  { intros [= -> _]. by apply sub_months_inl in Hl. }
  destruct (tabla_atrasados _ _ _) as [e|res] eqn:Ht; [|discriminate].
  intros [= -> _]. apply tabla_atrasados_inl in Ht as [[= ->] Hn].
  - exists COL_CASO. split; [done|]. split; [set_solver|done].
  - unfold getitem in Ha. destruct (columns (limpio d conv) !! COL_ACTUACION); eauto.
    discriminate.
Qed.

End key_errors.

(** X9. The column report is sound: when the parser raises no [KeyError] of
    its own, a run that ends in the [KeyError] handler names exactly one
    column, one of the three the message lists, and the upload does not have
    it.  With the three columns in the upload the handler is never entered. *)
Theorem columna_requerida_falta `{Runtime} r w d k :
  heap w !! r = Some d →
  (∀ s k', to_datetime s ≠ inl (KeyError k')) →
  columna_requerida (KeyError k) ∈ drop (length (pantalla w))
                                     (pantalla (procesar_datos r w).2) →
  ∃ c, k = [c] ∧ c ∈ [COL_CASO; COL_FECHA; COL_ACTUACION] ∧
       columns d !! c = None.
Proof.
  intros Hd Hrt. unfold procesar_datos. rewrite Hd.
  destruct (cuerpo r (reloj w) d) as [[e|out] d'] eqn:Hc.
  - destruct e; simpl; rewrite drop_app_length; intros Hin;
      apply list_elem_of_singleton in Hin; try discriminate.
    injection Hin as <-. by apply (cuerpo_KeyError r (reloj w) d d').
  - simpl. rewrite drop_all. by intros ?%not_elem_of_nil.
Qed.

Lemma columna_requerida_falta_witness :
  ∃ c, [COL_ACTUACION] = [c] ∧ c ∈ [COL_CASO; COL_FECHA; COL_ACTUACION] ∧
       columns sin_actuacion !! c = None.
Proof.
  apply (@columna_requerida_falta pandas_default 0%nat
           (mundo sin_actuacion abril_1) sin_actuacion [COL_ACTUACION] eq_refl).
  - intros s k'. discriminate.
  - assert (pantalla (@procesar_datos pandas_default 0%nat
                        (mundo sin_actuacion abril_1)).2
            = [columna_requerida (KeyError [COL_ACTUACION])]) as ->
      by (vm_compute; reflexivity).
    simpl. set_solver.
Defined.

(** ** Uploads without a usable date *)

Lemma take_at_nil {A} (ix : list nat) : take_at (@nil A) ix = [].
Proof. induction ix as [|i ix IH]; [done|]. by rewrite take_at_cons. Qed.

(** X10. An upload that has the date and the action column and in which no
    date converts (an upload without rows among them) is no error: the run
    returns, reports nothing, and the list of actions, the cleaned frame, the
    classified view and the stale table are all empty; the stale table is
    the frame [pd.DataFrame()].  The case column is not needed for that. *)
Theorem sin_fechas_no_es_error `{Runtime} r w d fechas conv :
  heap w !! r = Some d →
  getitem COL_FECHA (paso_caso d) = inr fechas →
  to_datetime fechas = inr conv →
  (∀ p t, conv !! p ≠ Some (Some t)) →
  is_Some (columns d !! COL_ACTUACION) →
  valid (reloj w) → 2 ≤ year (reloj w) →
  ∃ out w',
    procesar_datos r w = (Some out, w') ∧
    lista_actuaciones out = [] ∧
    rows (df_limpio out w') = [] ∧
    rows (df_clasificado_fecha out) = [] ∧
    procesos_atrasados out = empty_frame ∧
    pantalla w' = pantalla w.
Proof.
  intros Hd Hf Hc Hnone [x Hact] (Hy1 & Hm & _) Hy.
  assert (rows (limpio d conv) = []) as Hnil.
  { apply elem_of_nil_inv. intros f Hin.
    apply elem_of_limpio in Hin as (p & f0 & t & _ & Hp & _).
    by destruct (Hnone p t). }
  destruct (sub_months_2_inr (midnight (reloj w))) as [limite Hlim];
    [done|simpl; lia|].
  assert (tabla_atrasados (midnight (reloj w)) limite (limpio d conv)
          = inr empty_frame) as Htab.
  { unfold tabla_atrasados, empty, where_. cbn [rows]. rewrite Hnil.
    rewrite filter_nil. by rewrite bool_decide_eq_true_2. }
  eexists _, _. unfold procesar_datos. rewrite Hd, cuerpo_unfold. cbv zeta.
  rewrite Hf, Hc.
  rewrite (getitem_inr COL_ACTUACION (limpio d conv) x)
    by (by rewrite columns_limpio_lookup).
  cbn [values]. rewrite Hnil. cbn [fmap list_fmap unique unique_onto].
  change (list_sort []) with (@inr exn (list cell) []). cbv iota beta.
  rewrite Hlim, Htab.
  split; [reflexivity|]. cbn [lista_actuaciones df_clasificado_fecha
                              procesos_atrasados pantalla].
  repeat split.
  - unfold df_limpio. cbn [df_completo heap].
    rewrite list_lookup_insert_eq by (by eapply lookup_lt_Some). done.
  - unfold sort_values. cbn [rows]. rewrite Hnil. apply take_at_nil.
Qed.

Lemma sin_fechas_no_es_error_witness :
  ∃ out w',
    @procesar_datos pandas_default 0%nat (mundo sin_fechas_validas abril_1)
    = (Some out, w') ∧
    lista_actuaciones out = [] ∧
    rows (df_limpio out w') = [] ∧
    rows (df_clasificado_fecha out) = [] ∧
    procesos_atrasados out = empty_frame ∧
    pantalla w' = [].
Proof.
  assert (∃ fechas,
             getitem COL_FECHA (paso_caso sin_fechas_validas) = inr fechas ∧
             @to_datetime pandas_default fechas = inr [None; None])
    as (fechas & Hf & Hc).
  { eexists. split; [reflexivity|]. vm_compute. reflexivity. }
  apply (@sin_fechas_no_es_error pandas_default 0%nat
           (mundo sin_fechas_validas abril_1) sin_fechas_validas fechas
           [None; None] eq_refl Hf Hc).
  - by intros [|[|p]] t.
  - by eexists.
  - apply abril_1_valid.
  - simpl. lia.
Defined.

(** ** What the cleaning keeps *)

Lemma label_imap (g : nat → Row → Row) (l : list Row) :
  (∀ i r, label (g i r) = label r) → label <$> imap g l = label <$> l.
Proof.
  intros Hg. apply list_eq. intros i.
  rewrite !list_lookup_fmap, list_lookup_imap.
  destruct (l !! i); simpl; [|done]. by rewrite Hg.
Qed.

Lemma otras_columnas_limpio d conv f :
  f ∈ rows (limpio d conv) →
  ∃ f0, f0 ∈ rows d ∧ label f0 = label f ∧
        ∀ c, c ≠ COL_CASO → c ≠ COL_FECHA → cells f !! c = cells f0 !! c.
Proof.
  intros (p & f1 & t & Hp & _ & ->)%elem_of_limpio.
  apply list_elem_of_lookup_2 in Hp. rewrite rows_paso_caso in Hp.
  case_bool_decide.
  - apply list_elem_of_fmap in Hp as (f0 & -> & Hf0).
    exists f0. split; [done|]. split; [done|]. intros c Hc Hf. simpl.
    by rewrite !lookup_insert_ne.
  - exists f1. split; [done|]. split; [done|]. intros c Hc Hf. simpl.
    by rewrite lookup_insert_ne.
Qed.

(** X11. The cleaned frame of a successful run keeps the rows in the order
    of the upload: its index labels are the labels of the upload with some
    left out, none moved, none added. *)
Theorem limpio_en_orden_de_carga `{Runtime} r w d out w' :
  heap w !! r = Some d →
  procesar_datos r w = (Some out, w') →
  etiquetas (df_limpio out w') `sublist_of` etiquetas d.
Proof.
  intros Hd Hrun.
  destruct (procesar_datos_Some _ _ _ _ Hrun)
    as (d0 & fechas & conv & act & Hd0 & _ & _ & _ & _ & _ & _ & _ & _ & Hr & Hw).
  assert (d0 = d) as -> by congruence.
  rewrite (df_limpio_Some r w out w' d conv Hd Hr Hw).
  unfold etiquetas. rewrite <- (etiquetas_paso_caso d).
  unfold limpio, dropna, setitem_datetime. cbn [rows].
  etrans; [apply fmap_sublist, sublist_filter|].
  by rewrite label_imap.
Qed.

Lemma limpio_en_orden_de_carga_witness :
  match @procesar_datos pandas_default 0%nat (mundo escenario1 abril_1) with
  | (Some out, w') => etiquetas (df_limpio out w') `sublist_of` etiquetas escenario1
  | _ => False
  end.
Proof.
  destruct (@procesar_datos pandas_default 0%nat (mundo escenario1 abril_1))
    as [[out|] w'] eqn:Hrun; [|run_succeeded Hrun].
  exact (@limpio_en_orden_de_carga pandas_default 0%nat
           (mundo escenario1 abril_1) escenario1 out w' eq_refl Hrun).
Defined.

(** X12. The columns the function does not name pass through the cleaning
    untouched: such a column keeps its dtype, and every row of the cleaned
    frame has in it the cell of the uploaded row with the same label. *)
Theorem otras_columnas_intactas `{Runtime} r w d out w' :
  heap w !! r = Some d →
  procesar_datos r w = (Some out, w') →
  (∀ c, c ≠ COL_CASO → c ≠ COL_FECHA →
        columns (df_limpio out w') !! c = columns d !! c) ∧
  (∀ f, f ∈ rows (df_limpio out w') →
        ∃ f0, f0 ∈ rows d ∧ label f0 = label f ∧
              ∀ c, c ≠ COL_CASO → c ≠ COL_FECHA → cells f !! c = cells f0 !! c).
Proof.
  intros Hd Hrun.
  destruct (procesar_datos_Some _ _ _ _ Hrun)
    as (d0 & fechas & conv & act & Hd0 & _ & _ & _ & _ & _ & _ & _ & _ & Hr & Hw).
  assert (d0 = d) as -> by congruence.
  rewrite (df_limpio_Some r w out w' d conv Hd Hr Hw). split.
  - intros c _ Hc. by apply columns_limpio_lookup.
  - apply otras_columnas_limpio.
Qed.

Lemma otras_columnas_intactas_witness :
  match @procesar_datos pandas_default 0%nat (mundo escenario1 abril_1) with
  | (Some out, w') =>
      columns (df_limpio out w') !! COL_ACTUACION
      = columns escenario1 !! COL_ACTUACION
  | _ => False
  end.
Proof.
  destruct (@procesar_datos pandas_default 0%nat (mundo escenario1 abril_1))
    as [[out|] w'] eqn:Hrun; [|run_succeeded Hrun].
  exact (proj1 (@otras_columnas_intactas pandas_default 0%nat
                  (mundo escenario1 abril_1) escenario1 out w' eq_refl Hrun)
           COL_ACTUACION ltac:(done) ltac:(done)).
Defined.

(** ** The page *)

Lemma elem_of_take_at {A} (l : list A) (ix : list nat) (x : A) :
  x ∈ take_at l ix → x ∈ l.
Proof.
  unfold take_at. intros (i & _ & Hi)%list_elem_of_omap.
  by eapply list_elem_of_lookup_2.
Qed.

Lemma StronglySorted_filter {A} (R : relation A) (P : A → Prop)
    `{∀ x, Decision (P x)} (l : list A) :
  StronglySorted R l → StronglySorted R (filter P l).
Proof.
  induction 1 as [|x l Hs IH Hall]; [constructor|].
  rewrite filter_cons. destruct (decide (P x)); [|done].
  constructor; [done|]. apply Forall_forall.
  intros y [_ Hy]%list_elem_of_filter. revert y Hy. by apply Forall_forall.
Qed.

Section page.
Context `{Runtime}.

Lemma filtrar_cons clasificado x sel a :
  columns clasificado !! COL_ACTUACION = Some a →
  filtrar clasificado (x :: sel)
  = inr (where_ (λ f, isin (x :: sel) (at_col COL_ACTUACION f)) clasificado, []).
Proof. intros Ha. unfold filtrar. by rewrite (getitem_inr _ _ a). Qed.

Lemma clasificado_columns r w out w' :
  procesar_datos r w = (Some out, w') →
  columns (df_clasificado_fecha out) = columns (df_limpio out w') ∧
  is_Some (columns (df_clasificado_fecha out) !! COL_ACTUACION) ∧
  is_Some (columns (df_clasificado_fecha out) !! COL_FECHA) ∧
  columns (df_clasificado_fecha out) ≠ ∅ ∧
  (∀ f, f ∈ rows (df_clasificado_fecha out) → f ∈ rows (df_limpio out w')).
Proof.
  intros Hrun.
  destruct (procesar_datos_Some _ _ _ _ Hrun)
    as (d & fechas & conv & act & Hd & _ & _ & Hact & _ & _ & _ & Hc & _ & Hr & Hw).
  rewrite (df_limpio_Some r w out w' d conv Hd Hr Hw), Hc.
  unfold sort_values. cbn [columns rows]. split; [done|]. split.
  { unfold getitem in Hact. destruct (columns (limpio d conv) !! COL_ACTUACION);
      [eauto|discriminate]. }
  split; [apply columns_limpio; by left|].
  split; [apply columns_limpio_nonempty|].
  intros f. apply elem_of_take_at.
Qed.

Lemma select_tres_columnas d :
  is_Some (columns d !! COL_CASO) → is_Some (columns d !! COL_ACTUACION) →
  is_Some (columns d !! COL_FECHA) →
  is_Some (match select [COL_CASO; COL_ACTUACION; COL_FECHA] d with
           | inr v => Some v | inl _ => None end).
Proof.
  intros [? Hc] [? Ha] [? Hf]. unfold select.
  rewrite (filter_cons_False _ COL_CASO) by congruence.
  rewrite (filter_cons_False _ COL_ACTUACION) by congruence.
  rewrite (filter_cons_False _ COL_FECHA) by congruence.
  rewrite filter_nil. eauto.
Qed.

Lemma select_sin_caso d :
  columns d !! COL_CASO = None → is_Some (columns d !! COL_ACTUACION) →
  is_Some (columns d !! COL_FECHA) →
  select [COL_CASO; COL_ACTUACION; COL_FECHA] d = inl (KeyError [COL_CASO]).
Proof.
  intros Hc [? Ha] [? Hf]. unfold select.
  rewrite filter_cons_True by done.
  rewrite (filter_cons_False _ COL_ACTUACION) by congruence.
  rewrite (filter_cons_False _ COL_FECHA) by congruence.
  by rewrite filter_nil.
Qed.

(** A page that ran to its end closes with the inactivity section, and the
    banner and the two verdicts occur nowhere before it. *)
Lemma pagina_None out sel :
  (pagina out sel).1 = None →
  ∃ pre, (pagina out sel).2 = pre ++ seccion_atrasados out ∧
         ∀ e, e ∈ pre →
              match e with
              | st_info _ _ | st_balloons | st_success_atencion _ => False
              | _ => True
              end.
Proof.
  unfold pagina.
  destruct (filtrar (df_clasificado_fecha out) sel) as [e|[filtrado avisos]] eqn:Hf;
    [discriminate|].
  assert (avisos = [] ∨ avisos = [st_warning]) as Hav.
  { unfold filtrar in Hf. destruct sel; [right; congruence|].
    destruct (getitem _ _); [discriminate|]. left.
    unfold mbind, raise_bind, mret, raise_ret in Hf. congruence. }
  destruct (negb (empty filtrado)).
  - destruct (select _ filtrado) as [e|vista]; [discriminate|]. intros _.
    cbn [snd]. eexists. split.
    { rewrite (app_assoc _ [_; _] (seccion_atrasados out)). reflexivity. }
    intros e He. rewrite !elem_of_app in He.
    destruct Hav as [-> | ->];
      repeat (rewrite ?elem_of_cons, ?elem_of_nil in He);
      repeat destruct He as [He | He]; try done; by subst e.
  - intros _. cbn [snd]. eexists. split.
    { rewrite (app_assoc _ avisos (seccion_atrasados out)). reflexivity. }
    intros e He. rewrite !elem_of_app in He.
    destruct Hav as [-> | ->];
      repeat (rewrite ?elem_of_cons, ?elem_of_nil in He);
      repeat destruct He as [He | He]; try done; by subst e.
Qed.

Lemma empty_atrasados r w out w' :
  sorts argsort →
  procesar_datos r w = (Some out, w') →
  length (rows (procesos_atrasados out))
  = length (filter (λ f, atrasado (fecha_limite out) f = true)
              (rows (df_limpio out w'))) ∧
  (empty (procesos_atrasados out) = true ↔ rows (procesos_atrasados out) = []).
Proof.
  intros Hsorts Hrun.
  destruct (procesar_datos_Some _ _ _ _ Hrun)
    as (d & fechas & conv & act & Hd & _ & _ & _ & _ & _ & Htab & _ & Ha & Hr & Hw).
  rewrite (df_limpio_Some r w out w' d conv Hd Hr Hw).
  pose proof (tabla_atrasados_rows _ _ _ _ Hsorts
                (limpio_fecha d conv) (columns_limpio_nonempty d conv) Htab) as Hp.
  split; [by rewrite Hp, length_fmap|].
  unfold empty. rewrite orb_true_iff, !bool_decide_eq_true.
  split; [|by left]. intros [Hnil|Hcol]; [done|].
  destruct (columns_tabla_atrasados _ _ _ _ Htab (columns_limpio_nonempty d conv))
    as [[_ ->]|(_ & _ & Hcols)]; [done|].
  exfalso. rewrite Hcols in Hcol.
  assert (filter (λ kv : string * dtype, kv.1 ∈ columnas_clave)
            (<[COL_DIAS := int64]> (columns (limpio d conv))) !! COL_DIAS
          = Some int64) as Hin.
  { apply map_lookup_filter_Some. split; [by rewrite lookup_insert_eq|].
    simpl. unfold columnas_clave. rewrite !elem_of_cons. tauto. }
  rewrite Hcol in Hin. by rewrite lookup_empty in Hin.
Qed.

End page.

(** X14. With the selection the sidebar starts from, every action selected,
    section 1 works on the whole classified view.  The one exception is a
    run that left no row: the list of actions is empty then, an empty
    selection is an unmade one for [if actuaciones_seleccionadas:], and the
    page asks the user to select an action although there is none to
    select. *)
Theorem seleccion_por_defecto `{Runtime} r w out w' :
  procesar_datos r w = (Some out, w') →
  filtrar (df_clasificado_fecha out) (lista_actuaciones out)
  = if decide (rows (df_limpio out w') = [])
    then inr (empty_frame, [st_warning])
    else inr (df_clasificado_fecha out, []).
Proof.
  intros Hrun.
  destruct (clasificado_columns r w out w' Hrun) as (_ & [a Ha] & _ & _ & Hin).
  destruct (decide (rows (df_limpio out w') = [])) as [Hnil|Hne].
  - assert (lista_actuaciones out = []) as ->; [|done].
    apply elem_of_nil_inv. intros x Hx.
    apply (lista_actuaciones_rows r w out w' x Hrun) in Hx as (f & Hf & _).
    rewrite Hnil in Hf. by apply not_elem_of_nil in Hf.
  - destruct (rows (df_limpio out w')) as [|f0 l] eqn:Hrows; [done|].
    assert (at_col COL_ACTUACION f0 ∈ lista_actuaciones out) as H0.
    { apply (lista_actuaciones_rows r w out w' _ Hrun). exists f0.
      rewrite Hrows. split; [left|done]. }
    destruct (lista_actuaciones out) as [|x lx] eqn:Hlista;
      [by apply not_elem_of_nil in H0|].
    rewrite (filtrar_cons _ _ _ a Ha). do 2 f_equal.
    destruct (df_clasificado_fecha out) as [cols rws]. unfold where_.
    cbn [rows columns] in *. f_equal. apply filter_all, Forall_forall.
    intros f Hf. unfold isin. apply bool_decide_eq_true_2. rewrite <- Hlista.
    apply (lista_actuaciones_rows r w out w' _ Hrun). exists f.
    rewrite Hrows. split; [by apply Hin|done].
Qed.

Lemma seleccion_por_defecto_witness :
  match @procesar_datos pandas_default 0%nat (mundo escenario1 abril_1) with
  | (Some out, w') =>
      filtrar (df_clasificado_fecha out) (lista_actuaciones out)
      = if decide (rows (df_limpio out w') = [])
        then inr (empty_frame, [st_warning])
        else inr (df_clasificado_fecha out, [])
  | _ => False
  end.
Proof.
  destruct (@procesar_datos pandas_default 0%nat (mundo escenario1 abril_1))
    as [[out|] w'] eqn:Hrun; [|run_succeeded Hrun].
  exact (@seleccion_por_defecto pandas_default 0%nat
           (mundo escenario1 abril_1) out w' Hrun).
Defined.

(** X15. After a successful run the filter of section 1 cannot fail on a
    selection that is not empty; it keeps the columns, holds exactly the
    cleaned rows whose action is selected, in the order of the classified
    view, hence from the most recent date to the oldest. *)
Theorem filtrado_por_actuacion `{Runtime} r w out w' x sel :
  sorts argsort →
  procesar_datos r w = (Some out, w') →
  ∃ filtrado,
    filtrar (df_clasificado_fecha out) (x :: sel) = inr (filtrado, []) ∧
    columns filtrado = columns (df_limpio out w') ∧
    (∀ f, f ∈ rows filtrado ↔
          f ∈ rows (df_limpio out w') ∧ at_col COL_ACTUACION f ∈ x :: sel) ∧
    rows filtrado `sublist_of` rows (df_clasificado_fecha out) ∧
    StronglySorted (λ f1 f2, clave COL_FECHA f2 ≤ clave COL_FECHA f1)
      (rows filtrado).
Proof.
  intros Hsorts Hrun.
  destruct (clasificado_columns r w out w' Hrun) as (Hcols & [a Ha] & _ & _ & _).
  eexists. split; [by apply (filtrar_cons _ _ _ a)|].
  unfold where_. cbn [columns rows]. split; [done|].
  destruct (procesar_datos_Some _ _ _ _ Hrun)
    as (d & fechas & conv & act & Hd & _ & _ & _ & _ & _ & _ & Hc & _ & Hr & Hw).
  rewrite (df_limpio_Some r w out w' d conv Hd Hr Hw), Hc.
  destruct (sort_values_desc argsort Hsorts COL_FECHA (limpio d conv)) as [Hp Hs].
  { intros f [t Ht]%limpio_fecha. rewrite Ht. by eexists. }
  split; [|split].
  - intros f. rewrite list_elem_of_filter, Hp. unfold isin.
    rewrite bool_decide_eq_true. tauto.
  - apply sublist_filter.
  - apply StronglySorted_filter, Sorted_StronglySorted; [|done].
    intros f1 f2 f3 ??. lia.
Qed.

Lemma filtrado_por_actuacion_witness :
  match @procesar_datos pandas_stable 0%nat (mundo escenario1 abril_1) with
  | (Some out, w') =>
      ∃ filtrado,
        filtrar (df_clasificado_fecha out) [Str "Filed"] = inr (filtrado, []) ∧
        columns filtrado = columns (df_limpio out w') ∧
        (∀ f, f ∈ rows filtrado ↔
              f ∈ rows (df_limpio out w') ∧
              at_col COL_ACTUACION f ∈ [Str "Filed"]) ∧
        rows filtrado `sublist_of` rows (df_clasificado_fecha out) ∧
        StronglySorted (λ f1 f2, clave COL_FECHA f2 ≤ clave COL_FECHA f1)
          (rows filtrado)
  | _ => False
  end.
Proof.
  destruct (@procesar_datos pandas_stable 0%nat (mundo escenario1 abril_1))
    as [[out|] w'] eqn:Hrun; [|run_succeeded Hrun].
  exact (@filtrado_por_actuacion pandas_stable 0%nat
           (mundo escenario1 abril_1) out w' (Str "Filed") []
           stable_argsort_sorts Hrun).
Defined.

(** With the case column in the upload, line 129 finds its three columns. *)
Lemma pagina_con_caso `{Runtime} r w d out w' sel :
  heap w !! r = Some d →
  is_Some (columns d !! COL_CASO) →
  procesar_datos r w = (Some out, w') →
  (pagina out sel).1 = None.
Proof.
  intros Hd Hcaso Hrun.
  destruct (clasificado_columns r w out w' Hrun)
    as (Hcols & [a Ha] & Hfe & _ & _).
  destruct (procesar_datos_Some _ _ _ _ Hrun)
    as (d0 & fechas & conv & act & Hd0 & _ & _ & _ & _ & _ & _ & _ & _ & Hr & Hw).
  assert (d0 = d) as -> by congruence.
  rewrite (df_limpio_Some r w out w' d conv Hd Hr Hw) in Hcols.
  unfold pagina. destruct sel as [|x sel]; [done|].
  rewrite (filtrar_cons _ _ _ a Ha).
  destruct (negb (empty _)); [|done].
  destruct (select_tres_columnas
              (where_ (λ f, isin (x :: sel) (at_col COL_ACTUACION f))
                 (df_clasificado_fecha out))) as [v Hv].
  - unfold where_. cbn [columns]. rewrite Hcols. apply columns_limpio. by right.
  - unfold where_. cbn [columns]. eauto.
  - done.
  - destruct (select _ _); [discriminate|done].
Qed.

(** X16. When the upload has the case column, the page built from a
    successful run raises nothing, whatever the user selects, and closes with
    the inactivity section. *)
Theorem pagina_sin_excepcion `{Runtime} r w d out w' sel :
  heap w !! r = Some d →
  is_Some (columns d !! COL_CASO) →
  procesar_datos r w = (Some out, w') →
  (pagina out sel).1 = None ∧
  ∃ pre, (pagina out sel).2 = pre ++ seccion_atrasados out.
Proof.
  intros Hd Hcaso Hrun.
  pose proof (pagina_con_caso r w d out w' sel Hd Hcaso Hrun) as Hnone.
  split; [done|]. destruct (pagina_None out sel Hnone) as (pre & Hpre & _). eauto.
Qed.

Lemma pagina_sin_excepcion_witness :
  match @procesar_datos pandas_default 0%nat (mundo escenario1 abril_1) with
  | (Some out, w') =>
      (pagina out [Str "Served"]).1 = None ∧
      ∃ pre, (pagina out [Str "Served"]).2 = pre ++ seccion_atrasados out
  | _ => False
  end.
Proof.
  destruct (@procesar_datos pandas_default 0%nat (mundo escenario1 abril_1))
    as [[out|] w'] eqn:Hrun; [|run_succeeded Hrun].
  apply (@pagina_sin_excepcion pandas_default 0%nat
           (mundo escenario1 abril_1) escenario1 out w' [Str "Served"] eq_refl);
    [by eexists|exact Hrun].
Defined.

(** X17. An upload without the case column that the function lets through
    breaks the page instead: as soon as one listed action is selected, line
    129 raises [KeyError] for the case column outside any handler, after the
    count of processes has been announced and before any table, download or
    the inactivity section is put on the page. *)
Theorem pagina_sin_numero_noticia `{Runtime} r w d out w' sel x :
  sorts argsort →
  heap w !! r = Some d →
  columns d !! COL_CASO = None →
  procesar_datos r w = (Some out, w') →
  x ∈ lista_actuaciones out → x ∈ sel →
  (pagina out sel).1 = Some (KeyError [COL_CASO]) ∧
  tabla_clasificados (pagina out sel).2 = None ∧
  ∃ n, (0 < n)%nat ∧ last (pagina out sel).2 = Some (st_subheader n).
Proof.
  intros Hsorts Hd Hcaso Hrun Hx Hsel.
  destruct (clasificado_columns r w out w' Hrun)
    as (Hcols & [a Ha] & Hfe & Hne & _).
  apply (lista_actuaciones_rows r w out w' x Hrun) in Hx as (f & Hf & Hfx).
  rewrite <- (clasificado_descendente_rows r w out w' Hsorts Hrun) in Hf.
  destruct (procesar_datos_Some _ _ _ _ Hrun)
    as (d0 & fechas & conv & act & Hd0 & _ & _ & _ & _ & _ & _ & _ & _ & Hr & Hw).
  assert (d0 = d) as -> by congruence.
  rewrite (df_limpio_Some r w out w' d conv Hd Hr Hw) in Hcols.
  unfold pagina. destruct sel as [|y sel]; [by apply not_elem_of_nil in Hsel|].
  rewrite (filtrar_cons _ _ _ a Ha).
  set (filtrado := where_ _ _).
  assert (f ∈ rows filtrado) as Hin.
  { unfold filtrado, where_. cbn [rows]. apply list_elem_of_filter.
    split; [|done]. unfold isin. apply bool_decide_eq_true_2. by rewrite Hfx. }
  assert (empty filtrado = false) as ->.
  { unfold empty. apply orb_false_iff.
    split; apply bool_decide_eq_false_2; [|done].
    intros Hnil. rewrite Hnil in Hin. by apply not_elem_of_nil in Hin. }
  cbn [negb]. rewrite select_sin_caso.
  - cbn [fst snd]. split; [done|]. split; [done|].
    exists (length (rows filtrado)). split.
    + destruct (rows filtrado); [by apply not_elem_of_nil in Hin|simpl; lia].
    + rewrite last_app. reflexivity.
  - unfold filtrado, where_. cbn [columns]. rewrite Hcols.
    by rewrite columns_limpio_lookup.
  - done.
  - done.
Qed.

Lemma pagina_sin_numero_noticia_witness :
  match @procesar_datos pandas_stable 0%nat (mundo sin_numero_noticia abril_1) with
  | (Some out, w') =>
      (pagina out [Str "Auto"]).1 = Some (KeyError [COL_CASO]) ∧
      tabla_clasificados (pagina out [Str "Auto"]).2 = None ∧
      ∃ n, (0 < n)%nat ∧ last (pagina out [Str "Auto"]).2 = Some (st_subheader n)
  | _ => False
  end.
Proof.
  assert ((if @procesar_datos pandas_stable 0%nat (mundo sin_numero_noticia abril_1)
           is (Some out, _) then bool_decide (Str "Auto" ∈ lista_actuaciones out)
           else false) = true) as Hlista by (vm_compute; reflexivity).
  destruct (@procesar_datos pandas_stable 0%nat (mundo sin_numero_noticia abril_1))
    as [[out|] w'] eqn:Hrun; [|discriminate Hlista].
  apply bool_decide_eq_true_1 in Hlista.
  apply (@pagina_sin_numero_noticia pandas_stable 0%nat
           (mundo sin_numero_noticia abril_1) sin_numero_noticia out w'
           [Str "Auto"] (Str "Auto") stable_argsort_sorts eq_refl eq_refl Hrun
           Hlista).
  apply list_elem_of_singleton. reflexivity.
Defined.

(** X18. What the inactivity section says, on a page that ran to its end:
    it prints the two reference dates of the run; it celebrates exactly when
    no row of the cleaned frame is dated before the cutoff; otherwise the
    number it announces is the number of those rows. *)
Theorem aviso_de_atrasados `{Runtime} r w out w' sel :
  sorts argsort →
  procesar_datos r w = (Some out, w') →
  (pagina out sel).1 = None →
  let n := length (filter (λ f, atrasado (fecha_limite out) f = true)
                     (rows (df_limpio out w'))) in
  st_info (fecha_actual out) (fecha_limite out) ∈ (pagina out sel).2 ∧
  (st_balloons ∈ (pagina out sel).2 ↔ n = 0%nat) ∧
  (∀ m, st_success_atencion m ∈ (pagina out sel).2 ↔ m = n ∧ (0 < n)%nat).
Proof.
  intros Hsorts Hrun Hnone n.
  destruct (pagina_None out sel Hnone) as (pre & -> & Hpre).
  destruct (empty_atrasados r w out w' Hsorts Hrun) as [Hlen Hempty].
  fold n in Hlen. unfold seccion_atrasados.
  destruct (empty (procesos_atrasados out)) eqn:He; cbn [negb].
  - assert (n = 0%nat) as Hn0.
    { rewrite <- Hlen. destruct Hempty as [-> _]; done. }
    split; [|split].
    + rewrite !elem_of_app, !elem_of_cons. tauto.
    + rewrite !elem_of_app, !elem_of_cons. tauto.
    + intros m. rewrite !elem_of_app, !elem_of_cons, elem_of_nil. split.
      * intros [Hm|[[Hm|[Hm|[Hm|?]]]|[Hm|[Hm|?]]]]; try done.
        by apply Hpre in Hm.
      * lia.
  - assert (0 < n)%nat as Hn.
    { rewrite <- Hlen. destruct (rows (procesos_atrasados out)) eqn:Hr;
        [|simpl; lia].
      destruct Hempty as [_ Hnil]. by specialize (Hnil eq_refl). }
    split; [|split].
    + rewrite !elem_of_app, !elem_of_cons. tauto.
    + rewrite !elem_of_app, !elem_of_cons, elem_of_nil. split; [|lia].
      intros [Hm|[[Hm|[Hm|[Hm|?]]]|[Hm|[Hm|[Hm|?]]]]]; try done.
      by apply Hpre in Hm.
    + intros m. rewrite !elem_of_app, !elem_of_cons, elem_of_nil. split.
      * intros [Hm|[[Hm|[Hm|[Hm|?]]]|[Hm|[Hm|[Hm|?]]]]]; try done.
        -- by apply Hpre in Hm.
        -- injection Hm as ->. by rewrite Hlen.
      * intros [-> _]. rewrite Hlen. tauto.
Qed.

Lemma aviso_de_atrasados_witness :
  match @procesar_datos pandas_stable 0%nat (mundo escenario1 abril_1) with
  | (Some out, w') =>
      st_info (fecha_actual out) (fecha_limite out) ∈ (pagina out [Str "Filed"]).2
  | _ => False
  end.
Proof.
  destruct (@procesar_datos pandas_stable 0%nat (mundo escenario1 abril_1))
    as [[out|] w'] eqn:Hrun; [|run_succeeded Hrun].
  assert ((pagina out [Str "Filed"]).1 = None) as Hnone.
  { apply (@pagina_con_caso pandas_stable 0%nat (mundo escenario1 abril_1)
             escenario1 out w' [Str "Filed"] eq_refl); [by eexists|exact Hrun]. }
  exact (proj1 (@aviso_de_atrasados pandas_stable 0%nat
                  (mundo escenario1 abril_1) out w' [Str "Filed"]
                  stable_argsort_sorts Hrun Hnone)).
Defined.

(** X19. Section 1 with the case column in the upload and a listed action
    selected: the table shows the three columns only, the download beside it
    offers the same rows in the same order with every column of the upload,
    and the number announced above them is their number. *)
Theorem tabla_y_descarga `{Runtime} r w d out w' sel x :
  sorts argsort →
  heap w !! r = Some d →
  is_Some (columns d !! COL_CASO) →
  procesar_datos r w = (Some out, w') →
  x ∈ lista_actuaciones out → x ∈ sel →
  ∃ filtrado vista,
    filtrar (df_clasificado_fecha out) sel = inr (filtrado, []) ∧
    tabla_clasificados (pagina out sel).2 = Some vista ∧
    st_subheader (length (rows vista)) ∈ (pagina out sel).2 ∧
    st_download_button "procesos_clasificados_filtrados.csv" filtrado
      ∈ (pagina out sel).2 ∧
    etiquetas vista = etiquetas filtrado ∧
    (∀ c, is_Some (columns vista !! c) ↔
          c ∈ [COL_CASO; COL_ACTUACION; COL_FECHA]) ∧
    (∀ c, c ≠ COL_FECHA → columns filtrado !! c = columns d !! c).
Proof.
  intros Hsorts Hd Hcaso Hrun Hx Hsel.
  destruct (clasificado_columns r w out w' Hrun)
    as (Hcols & [a Ha] & Hfe & Hne & _).
  apply (lista_actuaciones_rows r w out w' x Hrun) in Hx as (f & Hf & Hfx).
  rewrite <- (clasificado_descendente_rows r w out w' Hsorts Hrun) in Hf.
  destruct (procesar_datos_Some _ _ _ _ Hrun)
    as (d0 & fechas & conv & act & Hd0 & _ & _ & _ & _ & _ & _ & _ & _ & Hr & Hw).
  assert (d0 = d) as -> by congruence.
  rewrite (df_limpio_Some r w out w' d conv Hd Hr Hw) in Hcols.
  unfold pagina. destruct sel as [|y sel]; [by apply not_elem_of_nil in Hsel|].
  rewrite (filtrar_cons _ _ _ a Ha).
  set (filtrado := where_ _ _).
  assert (columns filtrado = columns (limpio d conv)) as Hfc by done.
  assert (f ∈ rows filtrado) as Hin.
  { unfold filtrado, where_. cbn [rows]. apply list_elem_of_filter.
    split; [|done]. unfold isin. apply bool_decide_eq_true_2. by rewrite Hfx. }
  assert (empty filtrado = false) as ->.
  { unfold empty. apply orb_false_iff.
    split; apply bool_decide_eq_false_2; [|by rewrite Hfc, <- Hcols].
    intros Hnil. rewrite Hnil in Hin. by apply not_elem_of_nil in Hin. }
  cbn [negb].
  assert (is_Some (columns filtrado !! COL_CASO)) as Hc1
    by (rewrite Hfc; apply columns_limpio; by right).
  assert (is_Some (columns filtrado !! COL_ACTUACION)) as Hc2
    by (rewrite Hfc, <- Hcols; eauto).
  assert (is_Some (columns filtrado !! COL_FECHA)) as Hc3
    by (rewrite Hfc; apply columns_limpio; by left).
  destruct (select_tres_columnas filtrado Hc1 Hc2 Hc3) as [v Hv].
  destruct (select _ filtrado) as [e|vista] eqn:Hvista; [discriminate|].
  exists filtrado, vista. cbn [snd].
  pose proof (select_rows _ _ _ Hvista) as Hrows.
  split; [done|]. split; [done|]. split.
  { rewrite Hrows, length_fmap. rewrite !elem_of_app, !elem_of_cons. tauto. }
  split.
  { rewrite !elem_of_app, !elem_of_cons. tauto. }
  split.
  { unfold etiquetas. rewrite Hrows, <- list_fmap_compose. done. }
  split.
  - intros c. rewrite (select_columns_eq _ _ _ Hvista). split.
    + intros [t Ht]. by apply map_lookup_filter_Some in Ht as [_ Ht].
    + intros Hc. assert (is_Some (columns filtrado !! c)) as [t Ht].
      { rewrite !elem_of_cons, elem_of_nil in Hc.
        destruct Hc as [->|[->|[->|[]]]]; done. }
      exists t. by apply map_lookup_filter_Some.
  - intros c Hc. rewrite Hfc. by apply columns_limpio_lookup.
Qed.

Lemma tabla_y_descarga_witness :
  match @procesar_datos pandas_stable 0%nat (mundo escenario1 abril_1) with
  | (Some out, w') =>
      ∃ filtrado vista,
        filtrar (df_clasificado_fecha out) [Str "Filed"] = inr (filtrado, []) ∧
        tabla_clasificados (pagina out [Str "Filed"]).2 = Some vista ∧
        st_subheader (length (rows vista)) ∈ (pagina out [Str "Filed"]).2 ∧
        st_download_button "procesos_clasificados_filtrados.csv" filtrado
          ∈ (pagina out [Str "Filed"]).2 ∧
        etiquetas vista = etiquetas filtrado ∧
        (∀ c, is_Some (columns vista !! c) ↔
              c ∈ [COL_CASO; COL_ACTUACION; COL_FECHA]) ∧
        (∀ c, c ≠ COL_FECHA → columns filtrado !! c = columns escenario1 !! c)
  | _ => False
  end.
Proof.
  assert ((if @procesar_datos pandas_stable 0%nat (mundo escenario1 abril_1)
           is (Some out, _) then bool_decide (Str "Filed" ∈ lista_actuaciones out)
           else false) = true) as Hlista by (vm_compute; reflexivity).
  destruct (@procesar_datos pandas_stable 0%nat (mundo escenario1 abril_1))
    as [[out|] w'] eqn:Hrun; [|discriminate Hlista].
  apply bool_decide_eq_true_1 in Hlista.
  apply (@tabla_y_descarga pandas_stable 0%nat (mundo escenario1 abril_1)
           escenario1 out w' [Str "Filed"] (Str "Filed")
           stable_argsort_sorts eq_refl); [by eexists|exact Hrun|exact Hlista|].
  apply list_elem_of_singleton. reflexivity.
Defined.

(** ** Actions that do not compare *)

(** X21. Two dated rows whose actions are of different kinds, a text and a
    blank or a text and a number, stop the run in the catch-all handler:
    sorting the list of actions raises [TypeError], nothing is returned, and
    the frame is left with its dates converted and its undated rows
    dropped. *)
Theorem actuaciones_de_dos_clases `{Runtime} r w d fechas conv f1 f2 :
  heap w !! r = Some d →
  getitem COL_FECHA (paso_caso d) = inr fechas →
  to_datetime fechas = inr conv →
  is_Some (columns d !! COL_ACTUACION) →
  f1 ∈ rows (limpio d conv) → f2 ∈ rows (limpio d conv) →
  kind (at_col COL_ACTUACION f1) ≠ kind (at_col COL_ACTUACION f2) →
  procesar_datos r w
  = (None, {| heap := <[r := limpio d conv]> (heap w); reloj := reloj w;
              pantalla := pantalla w ++ [error_inesperado TypeError] |}).
Proof.
  intros Hd Hf Hc [a Hact] Hf1 Hf2 Hk. unfold procesar_datos.
  rewrite Hd, cuerpo_unfold. cbv zeta. rewrite Hf, Hc.
  rewrite (getitem_inr COL_ACTUACION (limpio d conv) a)
    by (by rewrite columns_limpio_lookup).
  cbn [values].
  destruct (list_sort _) as [e|lista] eqn:Hs.
  - by rewrite (sort_onto_inl _ _ _ Hs).
  - destruct Hk. apply (list_sort_kind _ _ _ _ Hs);
      apply elem_of_unique, list_elem_of_fmap; eauto.
Qed.

Lemma actuaciones_de_dos_clases_witness :
  (@procesar_datos pandas_default 0%nat (mundo actuacion_en_blanco abril_1)).1
  = None ∧
  pantalla (@procesar_datos pandas_default 0%nat
              (mundo actuacion_en_blanco abril_1)).2
  = [error_inesperado TypeError].
Proof.
  assert (∃ fechas conv f1 f2,
             getitem COL_FECHA (paso_caso actuacion_en_blanco) = inr fechas ∧
             @to_datetime pandas_default fechas = inr conv ∧
             rows (limpio actuacion_en_blanco conv) !! 0%nat = Some f1 ∧
             rows (limpio actuacion_en_blanco conv) !! 1%nat = Some f2 ∧
             kind (at_col COL_ACTUACION f1) ≠ kind (at_col COL_ACTUACION f2))
    as (fechas & conv & f1 & f2 & Hf & Hc & H1 & H2 & Hk).
  { eexists _, _, _, _. split; [reflexivity|].
    split; [vm_compute; reflexivity|]. split; [vm_compute; reflexivity|].
    split; [vm_compute; reflexivity|]. vm_compute. discriminate. }
  assert (is_Some (columns actuacion_en_blanco !! COL_ACTUACION)) as Ha
    by (by eexists).
  rewrite (@actuaciones_de_dos_clases pandas_default 0%nat
             (mundo actuacion_en_blanco abril_1) actuacion_en_blanco
             fechas conv f1 f2 eq_refl Hf Hc Ha
             (list_elem_of_lookup_2 _ _ _ H1) (list_elem_of_lookup_2 _ _ _ H2) Hk).
  by split.
Defined.
